(** * PokeMentor: code_quality.py

    A shallow embedding of [src/code_quality.py] (the classes
    [SonarCloudAnalyzer] and [CodeQualityAnalyzer]) and the properties of
    its specification.

    Conventions of the embedding.
    - A Python [str] is a Rocq [string]; a character is a code point below
      256, so that the character classes of [re] and [str.lower] are the
      Latin-1 part of the Unicode tables.
    - A Python value that comes out of a JSON decoder is a [pyval].
    - A raised exception is a value [PyExn cls msg] carried by [res].
    - Calls that leave the process (HTTP, the file system, the clock, the
      environment) go through an [env] oracle and are recorded, in order,
      in a trace of [event]s. *)

From Stdlib Require Import ZArith Ascii String List Bool Lia.
From stdpp Require Import base strings gmap list.

Set Warnings "-register-all".

Local Open Scope string_scope.
Local Open Scope Z_scope.
Local Open Scope list_scope.

(** ** Python values, exceptions and results *)

Module Py.

(** An exception object: its class name and [str(e)]. *)
Inductive exn : Type := PyExn (cls : string) (msg : string).

Definition exn_str (e : exn) : string := let 'PyExn _ m := e in m.
Definition exn_cls (e : exn) : string := let 'PyExn c _ := e in c.

(** The outcome of evaluating a Python expression or call. *)
Inductive res (A : Type) : Type :=
| Ok (a : A)
| Raise (e : exn).
Arguments Ok {A} a.
Arguments Raise {A} e.

Definition rbind {A B : Type} (r : res A) (f : A -> res B) : res B :=
  match r with
  | Ok a => f a
  | Raise e => Raise e
  end.

Definition is_ok {A : Type} (r : res A) : bool :=
  match r with Ok _ => true | Raise _ => false end.

(** Values produced by [json.loads] / [response.json()].  A float is carried
    by its [repr] text; arithmetic on floats is not part of the model. *)
Inductive pyval : Type :=
| PNone
| PBool (b : bool)
| PInt (z : Z)
| PFloat (repr : string)
| PStr (s : string)
| PList (l : list pyval)
| PDict (d : list (string * pyval)).

(** [d.get(k)] on a decoded JSON object: keys are strings and unique. *)
Fixpoint assoc_get (k : string) (d : list (string * pyval)) : option pyval :=
  match d with
  | [] => None
  | (k', v) :: d' => if String.eqb k k' then Some v else assoc_get k d'
  end.

(** [v.get(k, dflt)]: [AttributeError] when [v] is not a dict. *)
Definition py_get (v : pyval) (k : string) (dflt : pyval) : res pyval :=
  match v with
  | PDict d => Ok (default dflt (assoc_get k d))
  | _ => Raise (PyExn "AttributeError" "object has no attribute 'get'")
  end.

(** [v[k]] for a string key. *)
Definition py_getitem (v : pyval) (k : string) : res pyval :=
  match v with
  | PDict d =>
      match assoc_get k d with
      | Some x => Ok x
      | None => Raise (PyExn "KeyError" k)
      end
  | PList _ | PStr _ =>
      Raise (PyExn "TypeError" "indices must be integers or slices, not str")
  | _ => Raise (PyExn "TypeError" "object is not subscriptable")
  end.

(** [v[0]]. *)
Definition py_getitem0 (v : pyval) : res pyval :=
  match v with
  | PList (x :: _) => Ok x
  | PList [] => Raise (PyExn "IndexError" "list index out of range")
  | PStr (String c _) => Ok (PStr (String c EmptyString))
  | PStr EmptyString => Raise (PyExn "IndexError" "string index out of range")
  | PDict _ => Raise (PyExn "KeyError" "0")
  | _ => Raise (PyExn "TypeError" "object is not subscriptable")
  end.

(** Characters as code points. *)
Definition code (c : ascii) : N := N_of_ascii c.

Definition in_range (lo hi : N) (c : ascii) : bool :=
  (N.leb lo (code c) && N.leb (code c) hi)%bool.

(** [str.lower] on code points below 256: A-Z, and the Latin-1 capitals
    0xC0-0xDE except the multiplication sign 0xD7. *)
Definition lower_char (c : ascii) : ascii :=
  if (in_range 65 90 c
      || (in_range 192 222 c && negb (N.eqb (code c) 215)))%bool
  then ascii_of_N (code c + 32)
  else c.

Fixpoint lower (s : string) : string :=
  match s with
  | EmptyString => EmptyString
  | String c s' => String (lower_char c) (lower s')
  end.

(** Decimal text of an integer, as [str(n)] and [f"{n}"] give it. *)
Definition digit_char (d : nat) : ascii := ascii_of_nat (48 + d).

Fixpoint str_of_nat_fuel (fuel n : nat) (acc : string) : string :=
  match fuel with
  | O => acc
  | S fuel' =>
      let acc' := String (digit_char (n mod 10)) acc in
      match (n / 10)%nat with
      | O => acc'
      | q => str_of_nat_fuel fuel' q acc'
      end
  end.

Definition str_of_nat (n : nat) : string := str_of_nat_fuel (S n) n EmptyString.

Definition str_of_Z (z : Z) : string :=
  match z with
  | Zneg p => String "-" (str_of_nat (Pos.to_nat p))
  | _ => str_of_nat (Z.to_nat z)
  end.

Declare Scope res_scope.
Delimit Scope res_scope with res.
Notation "x <~ r ;; k" := (rbind r (fun x => k))
  (at level 100, r at next level, right associativity) : res_scope.

(** [for x in l: ...] where the body may raise: the results in order, or
    the first exception. *)
Fixpoint traverse {A B : Type} (f : A -> res B) (l : list A) : res (list B) :=
  match l with
  | [] => Ok []
  | x :: l' =>
      match f x with
      | Ok y =>
          match traverse f l' with
          | Ok ys => Ok (y :: ys)
          | Raise e => Raise e
          end
      | Raise e => Raise e
      end
  end.

End Py.
Export Py.

(** ** The regular expressions of the [re] module

    [re.finditer(pattern, string)] first compiles [pattern]: the text is
    parsed ([re._parser.parse]) and the parse tree is compiled
    ([re._compiler._compile]), which is where a look-behind of variable
    width is refused.  The fragment modelled covers the syntax used by the
    patterns of this program; a pattern outside it is reported as
    [Beyond] instead of being given a meaning. *)

Module Re.

Inductive category : Type := CatDigit | CatSpace | CatWord.

Inductive set_item : Type :=
| SLit (c : ascii)
| SRange (lo hi : ascii)
| SCat (negated : bool) (cat : category).

Inductive at_code : Type :=
| AtBeginning | AtEnd | AtBoundary | AtNonBoundary.

(** Parse trees ([SubPattern] data), with sequences and branches in
    binary form. *)
Inductive pattern : Type :=
| Empty
| Literal (c : ascii)
| AnyChar
| In (negate : bool) (items : list set_item)
| At (a : at_code)
| Cat (p q : pattern)
| Branch (p q : pattern)
| Repeat (greedy : bool) (lo : nat) (hi : option nat) (p : pattern)
| Subpattern (group : option nat) (p : pattern)
| Assert (behind : bool) (negate : bool) (p : pattern).

(** *** Character predicates (code points below 256) *)

Definition is_digit (c : ascii) : bool := in_range 48 57 c.

Definition is_space (c : ascii) : bool :=
  (in_range 9 13 c || in_range 28 32 c
   || N.eqb (code c) 133 || N.eqb (code c) 160)%bool.

Definition is_word (c : ascii) : bool :=
  (in_range 48 57 c || in_range 65 90 c || N.eqb (code c) 95
   || in_range 97 122 c
   || N.eqb (code c) 170 || in_range 178 179 c || N.eqb (code c) 181
   || in_range 185 186 c || in_range 188 190 c
   || in_range 192 214 c || in_range 216 246 c || in_range 248 255 c)%bool.

Definition in_category (cat : category) (c : ascii) : bool :=
  match cat with
  | CatDigit => is_digit c
  | CatSpace => is_space c
  | CatWord => is_word c
  end.

Definition item_matches (it : set_item) (c : ascii) : bool :=
  match it with
  | SLit c' => N.eqb (code c) (code c')
  | SRange lo hi => in_range (code lo) (code hi) c
  | SCat negated cat => xorb negated (in_category cat c)
  end.

Definition set_matches (negate : bool) (items : list set_item) (c : ascii) : bool :=
  xorb negate (existsb (fun it => item_matches it c) items).

(** *** Parsing *)

Inductive parsed (A : Type) : Type :=
| Parsed (a : A) (rest : list ascii)
| ReError (msg : string)
| Beyond.
Arguments Parsed {A} a rest.
Arguments ReError {A} msg.
Arguments Beyond {A}.

Definition is_alnum_ascii (c : ascii) : bool :=
  (in_range 48 57 c || in_range 65 90 c || in_range 97 122 c)%bool.

(** The escapes shared by [_escape] and [_class_escape]: categories,
    control characters, and a backslash before a character that is not an
    ASCII letter or digit. *)
Definition escape_category (c : ascii) : option set_item :=
  match c with
  | "d"%char => Some (SCat false CatDigit)
  | "D"%char => Some (SCat true CatDigit)
  | "s"%char => Some (SCat false CatSpace)
  | "S"%char => Some (SCat true CatSpace)
  | "w"%char => Some (SCat false CatWord)
  | "W"%char => Some (SCat true CatWord)
  | _ => None
  end.

Definition escape_literal (c : ascii) : option ascii :=
  match c with
  | "n"%char => Some (ascii_of_nat 10)
  | "t"%char => Some (ascii_of_nat 9)
  | "r"%char => Some (ascii_of_nat 13)
  | "f"%char => Some (ascii_of_nat 12)
  | "v"%char => Some (ascii_of_nat 11)
  | "a"%char => Some (ascii_of_nat 7)
  | _ => if is_alnum_ascii c then None else Some c
  end.

(** [_escape]: an escape outside a character set. *)
Definition escape (c : ascii) : option pattern :=
  match escape_category c with
  | Some it => Some (In false [it])
  | None =>
      match c with
      | "b"%char => Some (At AtBoundary)
      | "B"%char => Some (At AtNonBoundary)
      | _ => option_map Literal (escape_literal c)
      end
  end.

(** [_class_escape]: an escape inside a character set. *)
Definition class_escape (c : ascii) : option set_item :=
  match escape_category c with
  | Some it => Some it
  | None =>
      match c with
      | "b"%char => Some (SLit (ascii_of_nat 8))
      | _ => option_map SLit (escape_literal c)
      end
  end.

(** One member of a character set: a character or an escape. *)
Definition class_atom (src : list ascii) : parsed set_item :=
  match src with
  | [] => ReError "unterminated character set"
  | "\"%char :: [] => ReError "bad escape (end of pattern)"
  | "\"%char :: c :: rest =>
      match class_escape c with
      | Some it => Parsed it rest
      | None => Beyond
      end
  | c :: rest => Parsed (SLit c) rest
  end.

(** The loop over the members of a set, after the opening bracket and the
    optional negation. *)
Fixpoint parse_set (fuel : nat) (src : list ascii) (acc : list set_item)
  : parsed (list set_item) :=
  match fuel with
  | O => Beyond
  | S fuel' =>
      match src, acc with
      | [], _ => ReError "unterminated character set"
      | "]"%char :: rest, _ :: _ => Parsed (rev acc) rest
      | _, _ =>
          match class_atom src with
          | Parsed it1 ("-"%char :: rest1) =>
              match rest1 with
              | [] => ReError "unterminated character set"
              | "]"%char :: rest2 => Parsed (rev (SLit "-" :: it1 :: acc)) rest2
              | _ =>
                  match it1, class_atom rest1 with
                  | SLit lo, Parsed (SLit hi) rest2 =>
                      if N.ltb (code hi) (code lo)
                      then ReError "bad character range"
                      else parse_set fuel' rest2 (SRange lo hi :: acc)
                  | _, Parsed _ _ => ReError "bad character range"
                  | _, ReError m => ReError m
                  | _, Beyond => Beyond
                  end
              end
          | Parsed it1 rest1 => parse_set fuel' rest1 (it1 :: acc)
          | ReError m => ReError m
          | Beyond => Beyond
          end
      end
  end.

Fixpoint seq_of (items : list pattern) : pattern :=
  match items with
  | [] => Empty
  | [p] => p
  | p :: ps => Cat p (seq_of ps)
  end.

Fixpoint branch_of (p : pattern) (alts : list pattern) : pattern :=
  match alts with
  | [] => p
  | q :: qs => Branch p (branch_of q qs)
  end.

(** What [_parse_sub] returns once the alternatives are read: [items] is
    the current alternative and [alts] the finished ones, both reversed. *)
Definition close (items alts : list pattern) : pattern :=
  match rev (seq_of (rev items) :: alts) with
  | [] => Empty
  | p :: ps => branch_of p ps
  end.

Definition is_repeat (p : pattern) : bool :=
  match p with Repeat _ _ _ _ => true | _ => false end.

Definition is_at (p : pattern) : bool :=
  match p with At _ => true | _ => false end.

(** A quantifier applied to the last item read. *)
Definition repeat_last (lo : nat) (hi : option nat) (rest : list ascii)
    (items : list pattern) : parsed (list pattern) :=
  match items with
  | [] => ReError "nothing to repeat"
  | item :: items' =>
      if is_at item then ReError "nothing to repeat"
      else if is_repeat item then ReError "multiple repeat"
      else
        match rest with
        | "?"%char :: rest' => Parsed (Repeat false lo hi item :: items') rest'
        | "+"%char :: _ => Beyond
        | _ => Parsed (Repeat true lo hi item :: items') rest
        end
  end.

(** Whether the text after an opening brace reads as a counted repeat
    [{m}], [{m,}], [{,n}] or [{m,n}]. *)
Fixpoint skip_digits (src : list ascii) : list ascii :=
  match src with
  | c :: rest => if is_digit c then skip_digits rest else src
  | [] => []
  end.

Definition counted_repeat (src : list ascii) : bool :=
  match skip_digits src with
  | "}"%char :: _ => true
  | ","%char :: rest =>
      match skip_digits rest with
      | "}"%char :: _ => true
      | _ => false
      end
  | _ => false
  end.

(** [_parse_sub] and [_parse] in one loop over the text.  [g] is the
    number the next capturing group gets ([state.groups]).  The closing
    parenthesis of a group is left for the caller. *)
Fixpoint parse_sub (fuel : nat) (src : list ascii)
    (items alts : list pattern) (g : nat) : parsed (pattern * nat) :=
  match fuel with
  | O => Beyond
  | S fuel' =>
      let continue (r : parsed (list pattern)) :=
        match r with
        | Parsed items' rest => parse_sub fuel' rest items' alts g
        | ReError m => ReError m
        | Beyond => Beyond
        end in
      let group (wrap : pattern -> pattern) (body : list ascii) (g1 : nat) :=
        match parse_sub fuel' body [] [] g1 with
        | Parsed (p, g2) (")"%char :: rest) =>
            parse_sub fuel' rest (wrap p :: items) alts g2
        | Parsed _ _ => ReError "missing ), unterminated subpattern"
        | ReError m => ReError m
        | Beyond => Beyond
        end in
      match src with
      | [] => Parsed (close items alts, g) []
      | ")"%char :: _ => Parsed (close items alts, g) src
      | "|"%char :: rest => parse_sub fuel' rest [] (seq_of (rev items) :: alts) g
      | "\"%char :: [] => ReError "bad escape (end of pattern)"
      | "\"%char :: c :: rest =>
          match escape c with
          | Some p => parse_sub fuel' rest (p :: items) alts g
          | None => Beyond
          end
      | "["%char :: rest =>
          let '(negate, rest1) :=
            match rest with
            | "^"%char :: r => (true, r)
            | _ => (false, rest)
            end in
          match parse_set (S (length rest1)) rest1 [] with
          | Parsed set rest2 => parse_sub fuel' rest2 (In negate set :: items) alts g
          | ReError m => ReError m
          | Beyond => Beyond
          end
      | "?"%char :: rest => continue (repeat_last 0 (Some 1%nat) rest items)
      | "*"%char :: rest => continue (repeat_last 0 None rest items)
      | "+"%char :: rest => continue (repeat_last 1 None rest items)
      | "{"%char :: rest =>
          match rest with
          | "}"%char :: _ => parse_sub fuel' rest (Literal "{" :: items) alts g
          | _ =>
              if counted_repeat rest then Beyond
              else parse_sub fuel' rest (Literal "{" :: items) alts g
          end
      | "."%char :: rest => parse_sub fuel' rest (AnyChar :: items) alts g
      | "("%char :: "?"%char :: ":"%char :: rest => group (Subpattern None) rest g
      | "("%char :: "?"%char :: "="%char :: rest => group (Assert false false) rest g
      | "("%char :: "?"%char :: "!"%char :: rest => group (Assert false true) rest g
      | "("%char :: "?"%char :: "<"%char :: "="%char :: rest =>
          group (Assert true false) rest g
      | "("%char :: "?"%char :: "<"%char :: "!"%char :: rest =>
          group (Assert true true) rest g
      | "("%char :: "?"%char :: _ => Beyond
      | "("%char :: rest => group (Subpattern (Some g)) rest (S g)
      | "^"%char :: rest => parse_sub fuel' rest (At AtBeginning :: items) alts g
      | "$"%char :: rest => parse_sub fuel' rest (At AtEnd :: items) alts g
      | c :: rest => parse_sub fuel' rest (Literal c :: items) alts g
      end
  end.

(** [re._parser.parse]; group 0 is the whole match, so numbering starts
    at 1. *)
Definition parse (pat : string) : parsed pattern :=
  let src := list_ascii_of_string pat in
  match parse_sub (S (length src)) src [] [] 1 with
  | Parsed (p, _) [] => Parsed p []
  | Parsed _ _ => ReError "unbalanced parenthesis"
  | ReError m => ReError m
  | Beyond => Beyond
  end.

(** *** Compiling *)

(** [SubPattern.getwidth]: the least and the greatest number of characters
    a match takes; [None] stands for MAXREPEAT. *)
Definition hi_add (a b : option nat) : option nat :=
  match a, b with
  | Some x, Some y => Some (x + y)%nat
  | _, _ => None
  end.

Definition hi_max (a b : option nat) : option nat :=
  match a, b with
  | Some x, Some y => Some (Nat.max x y)
  | _, _ => None
  end.

Definition hi_mul (a b : option nat) : option nat :=
  match a, b with
  | Some x, Some y => Some (x * y)%nat
  | Some O, None | None, Some O => Some O
  | _, _ => None
  end.

Fixpoint getwidth (p : pattern) : nat * option nat :=
  match p with
  | Empty | At _ | Assert _ _ _ => (O, Some O)
  | Literal _ | AnyChar | In _ _ => (1%nat, Some 1%nat)
  | Cat p1 p2 =>
      let '(l1, h1) := getwidth p1 in
      let '(l2, h2) := getwidth p2 in
      ((l1 + l2)%nat, hi_add h1 h2)
  | Branch p1 p2 =>
      let '(l1, h1) := getwidth p1 in
      let '(l2, h2) := getwidth p2 in
      (Nat.min l1 l2, hi_max h1 h2)
  | Repeat _ lo hi p1 =>
      let '(l1, h1) := getwidth p1 in
      ((l1 * lo)%nat, hi_mul h1 hi)
  | Subpattern _ p1 => getwidth p1
  end.

Definition fixed_width (p : pattern) : bool :=
  let '(lo, hi) := getwidth p in
  match hi with
  | Some h => Nat.eqb lo h
  | None => false
  end.

(** [re._compiler._compile] emits code for every node of the tree; the
    only node it can refuse is a look-behind whose width is not fixed. *)
Fixpoint compile_ok (p : pattern) : bool :=
  match p with
  | Empty | Literal _ | AnyChar | In _ _ | At _ => true
  | Cat p1 p2 | Branch p1 p2 => compile_ok p1 && compile_ok p2
  | Repeat _ _ _ p1 | Subpattern _ p1 => compile_ok p1
  | Assert behind _ p1 => (negb behind || fixed_width p1) && compile_ok p1
  end.

(** [re.compile(pattern)], and the first step of every module-level call
    such as [re.finditer] and [re.search]. *)
Definition compile (pat : string) : parsed pattern :=
  match parse pat with
  | Parsed p rest =>
      if compile_ok p then Parsed p rest
      else ReError "look-behind requires fixed-width pattern"
  | r => r
  end.

Definition re_error (msg : string) : exn := PyExn "re.error" msg.

(** *** Matching

    A backtracking matcher in continuation-passing style, as the engine of
    [re] explores a pattern: alternatives left to right, a greedy repeat
    tries one more iteration before the rest of the pattern, a lazy one
    the rest first; once the least count is reached, an iteration that
    consumed nothing is the last one.  The subject is the whole text and a position in it,
    so that assertions can look on both sides. *)

(** The text captured by the numbered groups: group, start, end. *)
Definition captures : Type := list (nat * (nat * nat)).

Fixpoint capture_get (g : nat) (caps : captures) : option (nat * nat) :=
  match caps with
  | [] => None
  | (g', span) :: caps' => if Nat.eqb g g' then Some span else capture_get g caps'
  end.

Definition word_at (s : list ascii) (i : nat) : bool :=
  match nth_error s i with
  | Some c => is_word c
  | None => false
  end.

Definition at_matches (a : at_code) (s : list ascii) (i : nat) : bool :=
  match a with
  | AtBeginning => Nat.eqb i 0
  | AtEnd =>
      Nat.eqb i (length s)
      || (Nat.eqb (S i) (length s)
          && match nth_error s i with
             | Some c => N.eqb (code c) 10
             | None => false
             end)
  | AtBoundary =>
      match s with
      | [] => false
      | _ =>
          let that := match i with O => false | S j => word_at s j end in
          negb (eqb (word_at s i) that)
      end
  | AtNonBoundary =>
      match s with
      | [] => false
      | _ =>
          let that := match i with O => false | S j => word_at s j end in
          eqb (word_at s i) that
      end
  end.

Definition orelse {A : Type} (a b : option A) : option A :=
  match a with
  | Some _ => a
  | None => b
  end.

Definition one_char (ok : ascii -> bool) (s : list ascii) (i : nat)
    (caps : captures) (k : nat -> captures -> option (nat * captures))
  : option (nat * captures) :=
  match nth_error s i with
  | Some c => if ok c then k (S i) caps else None
  | None => None
  end.

(** [exec p s i caps k]: match [p] at position [i] of [s] and go on with
    [k].  In a repeat every iteration past the least count consumes a
    character or is the last one, so [lo] plus the number of characters
    left bounds the number of iterations. *)
Fixpoint exec (p : pattern) (s : list ascii) (i : nat) (caps : captures)
    (k : nat -> captures -> option (nat * captures)) {struct p}
  : option (nat * captures) :=
  match p with
  | Empty => k i caps
  | Literal c => one_char (fun c' => N.eqb (code c') (code c)) s i caps k
  | AnyChar => one_char (fun c' => negb (N.eqb (code c') 10)) s i caps k
  | In negate items => one_char (set_matches negate items) s i caps k
  | At a => if at_matches a s i then k i caps else None
  | Cat p1 p2 => exec p1 s i caps (fun j caps1 => exec p2 s j caps1 k)
  | Branch p1 p2 => orelse (exec p1 s i caps k) (exec p2 s i caps k)
  | Subpattern None p1 => exec p1 s i caps k
  | Subpattern (Some g) p1 =>
      exec p1 s i caps (fun j caps1 => k j ((g, (i, j)) :: caps1))
  | Assert false negate p1 =>
      match exec p1 s i caps (fun j caps1 => Some (j, caps1)) with
      | Some (_, caps1) => if negate then None else k i caps1
      | None => if negate then k i caps else None
      end
  | Assert true negate p1 =>
      let back := fst (getwidth p1) in
      if Nat.ltb i back then (if negate then k i caps else None)
      else
        match exec p1 s (i - back) caps (fun j caps1 => Some (j, caps1)) with
        | Some (_, caps1) => if negate then None else k i caps1
        | None => if negate then k i caps else None
        end
  | Repeat greedy lo hi p1 =>
      (fix loop (fuel count i : nat) (caps : captures) {struct fuel}
         : option (nat * captures) :=
         match fuel with
         | O => None
         | S fuel' =>
             let more :=
               if match hi with Some h => Nat.ltb count h | None => true end
               then exec p1 s i caps (fun j caps1 =>
                      if Nat.eqb j i && Nat.leb lo count then k j caps1
                      else loop fuel' (S count) j caps1)
               else None in
             let stop := if Nat.leb lo count then k i caps else None in
             if greedy then orelse more stop else orelse stop more
         end) (S (lo + (length s - i))) O i caps
  end.

(** One attempt at position [st].  With [must_advance] an empty match at
    [st] is refused (the state of a scanner after an empty match). *)
Definition match_at (p : pattern) (s : list ascii) (st : nat)
    (must_advance : bool) : option (nat * captures) :=
  exec p s st [] (fun j caps =>
    if must_advance && Nat.eqb j st then None else Some (j, caps)).

(** A match object: start, end and the captured groups. *)
Record match_obj : Type := Match {
  m_start : nat;
  m_end : nat;
  m_groups : captures
}.

(** The search loop: the leftmost position where an attempt succeeds;
    [must_advance] holds for the first attempt only. *)
Fixpoint search_from (p : pattern) (s : list ascii) (tries st : nat)
    (must_advance : bool) : option match_obj :=
  match tries with
  | O => None
  | S tries' =>
      match match_at p s st must_advance with
      | Some (e, caps) => Some (Match st e caps)
      | None => search_from p s tries' (S st) false
      end
  end.

(** [Pattern.search(string)]. *)
Definition search (p : pattern) (s : list ascii) : option match_obj :=
  search_from p s (S (length s)) O false.

(** The scanner behind [Pattern.finditer]: every next search starts where
    the last match ended, and must advance when that match was empty.  Two
    consecutive matches cannot both be empty at one position, so twice the
    length of the text (and a little) bounds their number. *)
Fixpoint scan (fuel : nat) (p : pattern) (s : list ascii) (pos : nat)
    (must_advance : bool) : list match_obj :=
  match fuel with
  | O => []
  | S fuel' =>
      match search_from p s (S (length s) - pos) pos must_advance with
      | None => []
      | Some m => m :: scan fuel' p s (m_end m) (Nat.eqb (m_end m) (m_start m))
      end
  end.

(** [Pattern.finditer(string)], consumed to the end. *)
Definition finditer (p : pattern) (s : list ascii) : list match_obj :=
  scan (2 * length s + 3) p s O false.

End Re.

(** ** Syntax trees of the [ast] module *)

Module Ast.

(** [ast.arguments]: each parameter is carried by its name. *)
Record arguments : Type := Arguments {
  posonlyargs : list string;
  args : list string;
  vararg : option string;
  kwonlyargs : list string;
  kwarg : option string
}.

(** A node of the tree [ast.parse] returns, as far as [ast.walk] and the
    structural checker can tell nodes apart.  [FunctionDef] and
    [AsyncFunctionDef] are the two function-definition classes of [ast];
    [Node] is any other node (Module, ClassDef, If, For, Try,
    ExceptHandler, match_case, ...) with the children
    [ast.iter_child_nodes] yields for it, in that order.  A function
    definition is a statement and no expression contains a statement, so
    the expression children of a node (decorators, annotations, default
    values, the [arguments] node itself) hold no function definition; they
    are left out, which changes neither which function definitions are
    visited nor their relative order. *)
Inductive node : Type :=
| FunctionDef (name : string) (lineno : Z) (a : arguments) (body : list node)
| AsyncFunctionDef (name : string) (lineno : Z) (a : arguments) (body : list node)
| Node (children : list node).

Definition iter_child_nodes (n : node) : list node :=
  match n with
  | FunctionDef _ _ _ body | AsyncFunctionDef _ _ _ body => body
  | Node children => children
  end.

Fixpoint size (n : node) : nat :=
  match n with
  | FunctionDef _ _ _ body | AsyncFunctionDef _ _ _ body =>
      S (list_sum (map size body))
  | Node children => S (list_sum (map size children))
  end.

Definition forest_size (ts : list node) : nat := list_sum (map size ts).

(** [ast.walk]: a queue, [todo.popleft()] then
    [todo.extend(iter_child_nodes(node))].  Every step takes one node off
    the queue, so the number of nodes bounds the number of steps. *)
Fixpoint walk_queue (fuel : nat) (todo : list node) : list node :=
  match fuel, todo with
  | S fuel', n :: rest => n :: walk_queue fuel' (rest ++ iter_child_nodes n)
  | _, _ => []
  end.

Definition walk (tree : node) : list node := walk_queue (size tree) [tree].

(** What [ast.parse(code)] does: a tree, a [SyntaxError] with its
    [lineno] and [str(e)], or another exception ([ValueError] for a null
    byte, [RecursionError], [MemoryError]). *)
Inductive parse_outcome : Type :=
| ParseOk (tree : node)
| ParseSyntaxError (lineno : option Z) (text : string)
| ParseRaises (e : exn).

(** [n] is [tree] or one of its descendants. *)
Inductive subnode (n : node) : node -> Prop :=
| subnode_here : subnode n n
| subnode_child (t c : node) :
    In c (iter_child_nodes t) -> subnode n c -> subnode n t.

(** Level order: the nodes of a forest, then those of the forest of their
    children, and so on.  [depth] bounds the number of levels. *)
Fixpoint levels (depth : nat) (ts : list node) : list node :=
  match depth with
  | O => []
  | S depth' =>
      match ts with
      | [] => []
      | _ => ts ++ levels depth' (flat_map iter_child_nodes ts)
      end
  end.

Definition level_order (tree : node) : list node := levels (size tree) [tree].

(** Depth-first order, a node before its children and the children in
    source order. *)
Fixpoint preorder (n : node) : list node :=
  n :: match n with
       | FunctionDef _ _ _ body | AsyncFunctionDef _ _ _ body =>
           flat_map preorder body
       | Node children => flat_map preorder children
       end.

End Ast.

(** ** The world outside the process *)

Module World.

Inductive method : Type := GET | POST.

(** The arguments of one [requests.get] / [requests.post] call. *)
Record request : Type := Request {
  rq_method : method;
  rq_url : string;
  rq_params : list (string * pyval);
  rq_json : option pyval;
  rq_headers : list (string * string);
  rq_auth : option (string * string);
  rq_timeout : option Z
}.

(** What the program does to the world, in the order it does it. *)
Inductive event : Type :=
| EvHttp (r : request)
| EvSleep (seconds : Z)
| EvMkdtemp
| EvWrite (path content : string)
| EvRead (path : string)
| EvCleanup (dir : string).

(** A call of [requests] returns a response (status code and body text)
    or raises ([requests.exceptions.RequestException]). *)
Inductive http_outcome : Type :=
| Response (status_code : Z) (text : string)
| RequestRaises (e : exn).

(** The oracle: every answer of the world may depend on the events so
    far.  The library functions the program calls and this development
    does not define ([ast.parse], [json.loads], base64, [repr] of
    containers, the operations on floats) are fields too. *)
Record env : Type := Env {
  (* the world *)
  http : list event -> request -> http_outcome;
  uuid4_hex : string;
  mkdtemp : list event -> res string;
  fs_write : list event -> string -> string -> option exn;
  fs_read : list event -> string -> res string;
  getenv : string -> option string;
  (* libraries *)
  ast_parse : string -> Ast.parse_outcome;
  json_loads : string -> res pyval;
  b64encode : string -> string;
  repr_container : pyval -> string;
  float_of_str : string -> res string;
  float_of_int : Z -> res string;
  float_trunc : string -> res Z;
  float_gt : string -> Z -> bool;
  float_format_1f : string -> string
}.

(** Computations that act on the world: the trace so far in, the outcome
    and the extended trace out.  A raised exception keeps the events that
    happened before it. *)
Definition M (A : Type) : Type := list event -> res A * list event.

Definition ret {A : Type} (a : A) : M A := fun tr => (Ok a, tr).

Definition raise {A : Type} (e : exn) : M A := fun tr => (Raise e, tr).

Definition bind {A B : Type} (m : M A) (f : A -> M B) : M B :=
  fun tr =>
    match m tr with
    | (Ok a, tr') => f a tr'
    | (Raise e, tr') => (Raise e, tr')
    end.

Definition lift {A : Type} (r : res A) : M A := fun tr => (r, tr).

(** [try: m except Exception as e: h e]. *)
Definition try_except {A : Type} (m : M A) (h : exn -> M A) : M A :=
  fun tr =>
    match m tr with
    | (Ok a, tr') => (Ok a, tr')
    | (Raise e, tr') => h e tr'
    end.

(** [try: m finally: c], as the exit of a [with] block. *)
Definition finally {A : Type} (m : M A) (c : M unit) : M A :=
  fun tr =>
    match m tr with
    | (r, tr') =>
        match c tr' with
        | (Ok _, tr'') => (r, tr'')
        | (Raise e, tr'') => (Raise e, tr'')
        end
    end.

Definition emit (ev : event) : M unit := fun tr => (Ok tt, tr ++ [ev]).

Declare Scope world_scope.
Delimit Scope world_scope with world.
Notation "x <- m ;; k" := (bind m (fun x => k))
  (at level 100, m at next level, right associativity) : world_scope.
Notation "m ;;; k" := (bind m (fun _ => k))
  (at level 100, right associativity) : world_scope.

(** A response object. *)
Record response : Type := Resp { status_code : Z; text : string }.

(** [requests.get] / [requests.post]: the call is made whatever it
    answers. *)
Definition send (E : env) (r : request) : M response :=
  fun tr =>
    match http E tr r with
    | Response st body => (Ok (Resp st body), tr ++ [EvHttp r])
    | RequestRaises e => (Raise e, tr ++ [EvHttp r])
    end.

(** [time.sleep]. *)
Definition sleep (seconds : Z) : M unit := emit (EvSleep seconds).

(** [tempfile.TemporaryDirectory()]. *)
Definition temporary_directory (E : env) : M string :=
  fun tr => (mkdtemp E tr, tr ++ [EvMkdtemp]).

(** [open(path, 'w', encoding='utf-8')] and [f.write(content)]. *)
Definition write_file (E : env) (path content : string) : M unit :=
  fun tr =>
    match fs_write E tr path content with
    | None => (Ok tt, tr ++ [EvWrite path content])
    | Some e => (Raise e, tr ++ [EvWrite path content])
    end.

(** [open(path, 'r', encoding='utf-8')] and [f.read()]. *)
Definition read_file (E : env) (path : string) : M string :=
  fun tr => (fs_read E tr path, tr ++ [EvRead path]).

(** The HTTP requests of a trace. *)
Definition requests_of (tr : list event) : list request :=
  omap (fun ev => match ev with EvHttp r => Some r | _ => None end) tr.

End World.
Export World.

(** ** Built-in functions and methods the program calls *)

Module Builtins.

(** [for x in v]: the items a [for] loop over [v] visits. *)
Definition py_iter (v : pyval) : res (list pyval) :=
  match v with
  | PList l => Ok l
  | PDict d => Ok (map (fun kv => PStr (fst kv)) d)
  | PStr s => Ok (map (fun c => PStr (String c EmptyString)) (list_ascii_of_string s))
  | _ => Raise (PyExn "TypeError" "object is not iterable")
  end.

(** [v.lower()]. *)
Definition py_lower (v : pyval) : res string :=
  match v with
  | PStr s => Ok (lower s)
  | _ => Raise (PyExn "AttributeError" "object has no attribute 'lower'")
  end.

(** [str(v)], and [v] inside an f-string. *)
Definition py_str (E : env) (v : pyval) : string :=
  match v with
  | PStr s => s
  | PInt z => str_of_Z z
  | PNone => "None"
  | PBool true => "True"
  | PBool false => "False"
  | PFloat r => r
  | PList _ | PDict _ => repr_container E v
  end.

(** [int(s)] for a string: blanks around, a sign, decimal digits with
    single underscores between them. *)
Definition int_blank (c : ascii) : bool :=
  (in_range 9 13 c || N.eqb (code c) 32
   || N.eqb (code c) 133 || N.eqb (code c) 160)%bool.

Fixpoint strip_left (s : list ascii) : list ascii :=
  match s with
  | c :: s' => if int_blank c then strip_left s' else s
  | [] => []
  end.

Definition strip (s : list ascii) : list ascii :=
  rev (strip_left (rev (strip_left s))).

Definition digit_value (c : ascii) : option Z :=
  if Re.is_digit c then Some (Z.of_N (code c) - 48) else None.

(** [digits acc s prev_digit]: the value of [s] read after [acc];
    [prev_digit] tells whether the last character read was a digit. *)
Fixpoint digits (acc : Z) (s : list ascii) (prev_digit : bool) : option Z :=
  match s with
  | [] => if prev_digit then Some acc else None
  | c :: s' =>
      match digit_value c with
      | Some d => digits (10 * acc + d) s' true
      | None =>
          if N.eqb (code c) 95 && prev_digit then digits acc s' false
          else None
      end
  end.

Definition int_of_str (s : string) : res Z :=
  let bad := Raise (PyExn "ValueError" ("invalid literal for int() with base 10: '" +:+ s +:+ "'")) in
  let body := strip (list_ascii_of_string s) in
  let '(negative, ds) :=
    match body with
    | "-"%char :: ds => (true, ds)
    | "+"%char :: ds => (false, ds)
    | _ => (false, body)
    end in
  match digits 0 ds false with
  | Some z => Ok (if negative then - z else z)
  | None => bad
  end.

(** [int(v)]. *)
Definition py_int (E : env) (v : pyval) : res Z :=
  match v with
  | PInt z => Ok z
  | PBool b => Ok (if b then 1 else 0)
  | PFloat r => float_trunc E r
  | PStr s => int_of_str s
  | _ => Raise (PyExn "TypeError" "int() argument must be a string or a number")
  end.

(** [float(v)]; the float is carried by its [repr]. *)
Definition py_float (E : env) (v : pyval) : res string :=
  match v with
  | PFloat r => Ok r
  | PInt z => float_of_int E z
  | PBool b => float_of_int E (if b then 1 else 0)
  | PStr s => float_of_str E s
  | _ => Raise (PyExn "TypeError" "float() argument must be a string or a number")
  end.

(** [sep.join(parts)]. *)
Fixpoint join (sep : string) (parts : list string) : string :=
  match parts with
  | [] => ""
  | [p] => p
  | p :: ps => p +:+ sep +:+ join sep ps
  end.

(** [s.endswith(suffix)]. *)
Fixpoint starts_with (p s : list ascii) : bool :=
  match p, s with
  | [], _ => true
  | a :: p', b :: s' => N.eqb (code a) (code b) && starts_with p' s'
  | _ :: _, [] => false
  end.

Definition endswith (s suffix : string) : bool :=
  starts_with (rev (list_ascii_of_string suffix)) (rev (list_ascii_of_string s)).

Definition startswith (s prefix : string) : bool :=
  starts_with (list_ascii_of_string prefix) (list_ascii_of_string s).

(** [s[:n].count('\n')]. *)
Fixpoint count_newlines (n : nat) (s : list ascii) : nat :=
  match n, s with
  | S n', c :: s' =>
      ((if N.eqb (code c) 10 then 1 else 0) + count_newlines n' s')%nat
  | _, _ => O
  end.

(** [len(s.splitlines())]: a line ends at LF, CR, CR LF, VT, FF, FS, GS,
    RS or NEL; text after the last line end is one more line. *)
Definition is_line_end (c : ascii) : bool :=
  (in_range 10 13 c || in_range 28 30 c || N.eqb (code c) 133)%bool.

Fixpoint count_lines (s : list ascii) (pending : bool) : nat :=
  match s with
  | [] => if pending then 1%nat else O
  | c :: s' =>
      if is_line_end c then
        match s' with
        | c' :: s'' =>
            if N.eqb (code c) 13 && N.eqb (code c') 10
            then S (count_lines s'' false)
            else S (count_lines s' false)
        | [] => 1%nat
        end
      else count_lines s' true
  end.

Definition splitlines_len (s : string) : nat :=
  count_lines (list_ascii_of_string s) false.

(** [os.path.join(dir, name)] on POSIX, for a non-empty [dir]. *)
Definition path_join (dir name : string) : string :=
  if startswith name "/" then name
  else if endswith dir "/" then dir +:+ name
  else dir +:+ "/" +:+ name.

(** [os.path.splitext(p)[1].lstrip('.')]: the text after the last dot of
    the last path component, when something other than dots stands before
    that dot. *)
Fixpoint split_at_dot (s : list ascii) (acc : list ascii)
  : option (list ascii * list ascii) :=
  match s with
  | [] => None
  | c :: s' =>
      if N.eqb (code c) 46 then Some (acc, s')
      else if N.eqb (code c) 47 then None
      else split_at_dot s' (c :: acc)
  end.

Fixpoint has_non_dot (s : list ascii) : bool :=
  match s with
  | [] => false
  | c :: s' =>
      if N.eqb (code c) 47 then false
      else if N.eqb (code c) 46 then has_non_dot s'
      else true
  end.

Definition extension (filename : string) : string :=
  match split_at_dot (rev (list_ascii_of_string filename)) [] with
  | Some (ext, before_rev) =>
      if has_non_dot before_rev then string_of_list_ascii ext else ""
  | None => ""
  end.

End Builtins.
Export Builtins.

(** ** The dictionaries the analyzers return *)

Module Results.

(** One entry of an ["issues"] list.  [f_rule] is [None] when the dict has
    no ["rule"] key. *)
Record finding : Type := Finding {
  f_line : pyval;
  f_message : pyval;
  f_severity : string;
  f_type : string;
  f_rule : option pyval
}.

(** The ["metrics"] dict of [SonarCloudAnalyzer._format_results]; floats
    by their [repr]. *)
Record sonar_metrics : Type := SonarMetrics {
  lines_of_code : Z;
  complexity : Z;
  bugs : Z;
  vulnerabilities : Z;
  code_smells : Z;
  security_hotspots : Z;
  duplicate_lines_percentage : string;
  coverage : option string
}.

(** The ["metrics"] dict of [CodeQualityAnalyzer.analyze_code]. *)
Record local_metrics : Type := LocalMetrics {
  loc : nat;
  complexity_score : Z;
  issue_count : nat
}.

(** What an entry point returns: the success shape
    [{issues, metrics, summary}], or the error shape [{error}] /
    [{error, message}]. *)
Inductive analysis (metrics : Type) : Type :=
| Success (issues : list finding) (m : metrics) (summary : string)
| ErrorObj (error : string) (message : option string).
Arguments Success {metrics} issues m summary.
Arguments ErrorObj {metrics} error message.

Definition success_shaped {metrics : Type} (r : analysis metrics) : bool :=
  match r with Success _ _ _ => true | ErrorObj _ _ => false end.

Definition error_shaped {metrics : Type} (r : analysis metrics) : bool :=
  negb (success_shaped r).

Definition issues_of {metrics : Type} (r : analysis metrics) : list finding :=
  match r with Success issues _ _ => issues | ErrorObj _ _ => [] end.

End Results.
Export Results.

(** ** class SonarCloudAnalyzer *)

Module SonarCloudAnalyzer.

Local Open Scope world_scope.

Record self : Type := Self {
  token : string;
  organization : string
}.

(** [__init__]: [organization or "default-organization"]. *)
Definition init (token : string) (organization : option string) : self :=
  Self token
       (match organization with
        | None | Some EmptyString => "default-organization"
        | Some o => o
        end).

Definition base_url : string := "https://sonarcloud.io/api".

Definition auth (s : self) : option (string * string) := Some (token s, "").

Definition language_map : gmap string string :=
  list_to_map
    [("py", "python"); ("js", "js"); ("ts", "ts"); ("jsx", "js");
     ("tsx", "ts"); ("java", "java"); ("c", "c"); ("cpp", "cpp");
     ("cs", "cs"); ("go", "go"); ("php", "php"); ("ruby", "ruby");
     ("scala", "scala"); ("kt", "kotlin"); ("html", "web"); ("css", "web");
     ("xml", "xml"); ("json", "json")].

Definition exception (msg : string) : exn := PyExn "Exception" msg.

Definition status_in (r : response) (codes : list Z) : bool :=
  existsb (Z.eqb (status_code r)) codes.

Definition create_request (s : self) (project_key : string) : request :=
  Request POST (base_url +:+ "/projects/create")
    [("name", PStr project_key); ("project", PStr project_key);
     ("organization", PStr (organization s)); ("visibility", PStr "private")]
    None [] (auth s) None.

Definition _create_project (E : env) (s : self) (project_key : string) : M unit :=
  response <- send E (create_request s project_key) ;;
  if status_in response [200; 201] then ret tt
  else raise (exception ("Failed to create project: " +:+ text response)).

Definition json_headers : list (string * string) :=
  [("Content-Type", "application/json")].

Definition index_request (E : env) (s : self) (project_key filename content : string)
  : request :=
  let language := default "unknown" (language_map !! extension filename) in
  Request POST (base_url +:+ "/source/index") []
    (Some (PDict
       [("organization", PStr (organization s));
        ("projectKey", PStr project_key);
        ("sources", PList [PDict
           [("path", PStr filename);
            ("language", PStr language);
            ("content", PStr (b64encode E content))]])]))
    json_headers (auth s) None.

Definition submit_request (s : self) (project_key : string) : request :=
  Request POST (base_url +:+ "/analysis/submit") []
    (Some (PDict
       [("projectKey", PStr project_key);
        ("organization", PStr (organization s))]))
    json_headers (auth s) None.

Definition _run_scanner (E : env) (s : self) (source_dir project_key filename : string)
  : M unit :=
  let file_path := path_join source_dir filename in
  content <- read_file E file_path ;;
  response <- send E (index_request E s project_key filename content) ;;
  if negb (status_in response [200; 201])
  then raise (exception ("Failed to run analysis: " +:+ text response))
  else
    response <- send E (submit_request s project_key) ;;
    if negb (status_in response [200; 201; 202])
    then raise (exception ("Failed to submit analysis: " +:+ text response))
    else ret tt.

Definition issues_request (s : self) (project_key : string) : request :=
  Request GET (base_url +:+ "/issues/search")
    [("componentKeys", PStr project_key); ("ps", PInt 100)]
    None [] (auth s) None.

(** [response.json().get(key, dflt)]. *)
Definition json_get (E : env) (r : response) (key : string) (dflt : pyval) : res pyval :=
  rbind (json_loads E (text r)) (fun j => py_get j key dflt).

Definition _get_issues (E : env) (s : self) (project_key : string) : M pyval :=
  response <- send E (issues_request s project_key) ;;
  if Z.eqb (status_code response) 200
  then lift (json_get E response "issues" (PList []))
  else raise (exception ("Failed to get issues: " +:+ text response)).

Definition hotspots_request (s : self) (project_key : string) : request :=
  Request GET (base_url +:+ "/hotspots/search")
    [("projectKey", PStr project_key); ("ps", PInt 100)]
    None [] (auth s) None.

Definition _get_security_hotspots (E : env) (s : self) (project_key : string)
  : M pyval :=
  response <- send E (hotspots_request s project_key) ;;
  if Z.eqb (status_code response) 200
  then lift (json_get E response "hotspots" (PList []))
  else ret (PList []).

Definition metrics_request (s : self) (project_key : string) : request :=
  Request GET (base_url +:+ "/measures/component")
    [("component", PStr project_key);
     ("metricKeys", PStr "ncloc,complexity,bugs,vulnerabilities,code_smells,security_hotspots,duplicated_lines_density,coverage")]
    None [] (auth s) None.

(** [{m["metric"]: m["value"] for m in measures}].  The dict is only ever
    read at string keys, and a key that is not a string is equal to none
    of them, so an entry with such a key is not kept; a key that cannot be
    hashed raises. *)
Fixpoint measures_dict (measures : list pyval) (acc : gmap string pyval)
  : res (gmap string pyval) :=
  match measures with
  | [] => Ok acc
  | m :: rest =>
      rbind (py_getitem m "metric") (fun k =>
      rbind (py_getitem m "value") (fun v =>
      match k with
      | PStr key => measures_dict rest (<[key := v]> acc)
      | PList _ | PDict _ => Raise (PyExn "TypeError" "unhashable type")
      | _ => measures_dict rest acc
      end))
  end.

Definition _get_metrics (E : env) (s : self) (project_key : string)
  : M (gmap string pyval) :=
  response <- send E (metrics_request s project_key) ;;
  if Z.eqb (status_code response) 200
  then lift (rbind (json_get E response "component" (PDict [])) (fun c =>
             rbind (py_get c "measures" (PList [])) (fun ms =>
             rbind (py_iter ms) (fun measures =>
             measures_dict measures ∅))))
  else ret ∅.

Definition delete_request (s : self) (project_key : string) : request :=
  Request POST (base_url +:+ "/projects/delete")
    [("project", PStr project_key)] None [] (auth s) None.

Definition _delete_project (E : env) (s : self) (project_key : string) : M unit :=
  _ <- send E (delete_request s project_key) ;;
  ret tt.

Local Open Scope res_scope.

Definition format_issue (issue : pyval) : res finding :=
  line <~ py_get issue "line" (PInt 0) ;;
  message <~ py_get issue "message" (PStr "") ;;
  severity <~ rbind (py_get issue "severity" (PStr "")) py_lower ;;
  type <~ rbind (py_get issue "type" (PStr "CODE_SMELL")) py_lower ;;
  rule <~ py_get issue "rule" (PStr "") ;;
  Ok (Finding line message severity type (Some rule)).

Definition format_hotspot (E : env) (hotspot : pyval) : res finding :=
  line <~ py_get hotspot "line" (PInt 0) ;;
  message <~ py_get hotspot "message" (PStr "") ;;
  rule <~ py_get hotspot "ruleKey" (PStr "") ;;
  Ok (Finding line (PStr ("Security hotspot: " +:+ py_str E message))
        "warning" "security" (Some rule)).

(** [metrics.get(key, 0)]. *)
Definition metric (metrics : gmap string pyval) (key : string) : pyval :=
  default (PInt 0) (metrics !! key).

Definition bug_phrase (bugs : Z) : string :=
  str_of_Z bugs +:+ " potential bug" +:+ (if 1 <? bugs then "s" else "").

Definition vulnerability_phrase (vulnerabilities : Z) : string :=
  str_of_Z vulnerabilities +:+ " securit"
  +:+ (if 1 <? vulnerabilities then "ies" else "y") +:+ " "
  +:+ (if 1 <? vulnerabilities then "issues" else "issue").

Definition smell_phrase (code_smells : Z) : string :=
  str_of_Z code_smells +:+ " code smell" +:+ (if 1 <? code_smells then "s" else "").

Definition duplication_phrase (E : env) (duplication : string) : string :=
  float_format_1f E duplication +:+ "% code duplication".

(** The list [quality_issues] once the four tests are done. *)
Definition quality_issues (E : env) (bugs vulnerabilities code_smells : Z)
    (duplication : string) : list string :=
  (if 0 <? bugs then [bug_phrase bugs] else [])
  ++ (if 0 <? vulnerabilities then [vulnerability_phrase vulnerabilities] else [])
  ++ (if 0 <? code_smells then [smell_phrase code_smells] else [])
  ++ (if float_gt E duplication 10 then [duplication_phrase E duplication] else []).

Definition _generate_summary (E : env) (issues : list finding)
    (metrics : gmap string pyval) : res string :=
  loc <~ py_int E (metric metrics "ncloc") ;;
  if loc =? 0 then Ok "No code detected for analysis."
  else
    bugs <~ py_int E (metric metrics "bugs") ;;
    vulnerabilities <~ py_int E (metric metrics "vulnerabilities") ;;
    code_smells <~ py_int E (metric metrics "code_smells") ;;
    duplication <~ py_float E (metric metrics "duplicated_lines_density") ;;
    match quality_issues E bugs vulnerabilities code_smells duplication with
    | [] =>
        Ok ("No significant issues found in " +:+ str_of_Z loc
            +:+ " lines of code. Good job!")
    | phrases =>
        Ok ("Found " +:+ join ", " phrases +:+ " in " +:+ str_of_Z loc
            +:+ " lines of code.")
    end.

Definition format_metrics (E : env) (metrics : gmap string pyval) : res sonar_metrics :=
  lines_of_code <~ py_int E (metric metrics "ncloc") ;;
  complexity <~ py_int E (metric metrics "complexity") ;;
  bugs <~ py_int E (metric metrics "bugs") ;;
  vulnerabilities <~ py_int E (metric metrics "vulnerabilities") ;;
  code_smells <~ py_int E (metric metrics "code_smells") ;;
  security_hotspots <~ py_int E (metric metrics "security_hotspots") ;;
  duplication <~ py_float E (metric metrics "duplicated_lines_density") ;;
  coverage <~ match metrics !! "coverage" with
              | Some v => rbind (py_float E v) (fun c => Ok (Some c))
              | None => Ok None
              end ;;
  Ok (SonarMetrics lines_of_code complexity bugs vulnerabilities code_smells
        security_hotspots duplication coverage).

(** The two loops that fill [formatted_issues]. *)
Definition format_issues (E : env) (issues hotspots : pyval) : res (list finding) :=
  issue_list <~ py_iter issues ;;
  from_issues <~ traverse format_issue issue_list ;;
  hotspot_list <~ py_iter hotspots ;;
  from_hotspots <~ traverse (format_hotspot E) hotspot_list ;;
  Ok (from_issues ++ from_hotspots).

Definition _format_results (E : env) (issues hotspots : pyval)
    (metrics : gmap string pyval) : res (analysis sonar_metrics) :=
  formatted_issues <~ format_issues E issues hotspots ;;
  summary <~ _generate_summary E formatted_issues metrics ;;
  formatted_metrics <~ format_metrics E metrics ;;
  Ok (Success formatted_issues formatted_metrics summary).

Local Close Scope res_scope.

(** What the [with tempfile.TemporaryDirectory()] block of [analyze_code]
    does. *)
Definition analyze_in (E : env) (s : self) (code filename project_key temp_dir : string)
  : M (analysis sonar_metrics) :=
  write_file E (path_join temp_dir filename) code ;;;
  _run_scanner E s temp_dir project_key filename ;;;
  sleep 5 ;;;
  issues <- _get_issues E s project_key ;;
  hotspots <- _get_security_hotspots E s project_key ;;
  metrics <- _get_metrics E s project_key ;;
  _delete_project E s project_key ;;;
  lift (_format_results E issues hotspots metrics).

Definition project_key_of (E : env) : string :=
  "temp-analysis-" +:+ substring 0 8 (uuid4_hex E).

Definition analyze_code (E : env) (s : self) (code filename : string)
  : M (analysis sonar_metrics) :=
  try_except
    (let project_key := project_key_of E in
     _create_project E s project_key ;;;
     temp_dir <- temporary_directory E ;;
     finally (analyze_in E s code filename project_key temp_dir)
             (emit (EvCleanup temp_dir)))
    (fun e => ret (ErrorObj "SonarCloud analysis failed" (Some (exn_str e)))).

End SonarCloudAnalyzer.

(** ** class CodeQualityAnalyzer *)

Module CodeQualityAnalyzer.

(** [__init__]: the table [self.code_smells], in insertion order, which is
    the order [dict.items()] iterates in. *)
Definition code_smell_table : list (string * string) :=
  [("import \*",
    "Avoid wildcard imports as they can lead to namespace pollution");
   ("except:(?!\s*#)",
    "Avoid bare except clauses; catch specific exceptions");
   ("print\(",
    "Consider using logging instead of print statements in production code");
   ("\.get\([^)]*\)(?!\s*\.)",
    "Dictionary get() calls should provide a default value");
   ("os\.path\.join\(.*?\+.*?\)",
    "Use os.path.join for path concatenation instead of string concatenation");
   ("for\s+\w+\s+in\s+range\(len\((\w+)\)\)",
    "Consider using enumerate() instead of range(len())");
   ("(?<!#.*)TODO|FIXME",
    "Resolve TODO/FIXME comments before finalizing code");
   ("\bpass\b",
    "Empty pass statements might indicate incomplete code");
   ("if\s+(\w+)\s*==\s*True|if\s+(\w+)\s*==\s*False",
    "Redundant comparison with boolean literals")].

Record self : Type := Self {
  gemini_api_key : option string;
  sonarcloud_token : option string;
  sonarcloud_org : option string;
  sonarcloud : option SonarCloudAnalyzer.self;
  code_smells : list (string * string)
}.

(** Truth of an optional string: [None] and the empty string are false. *)
Definition truthy (s : option string) : bool :=
  match s with
  | None | Some EmptyString => false
  | Some _ => true
  end.

Definition init (gemini_api_key sonarcloud_token sonarcloud_org : option string)
  : self :=
  Self gemini_api_key sonarcloud_token sonarcloud_org
       (match sonarcloud_token with
        | Some t => if truthy sonarcloud_token
                    then Some (SonarCloudAnalyzer.init t sonarcloud_org)
                    else None
        | None => None
        end)
       code_smell_table.

(** The dict appended for one match of a rule. *)
Definition smell (code : string) (message : string) (m : Re.match_obj) : finding :=
  let line_number :=
    (count_newlines (Re.m_start m) (list_ascii_of_string code) + 1)%nat in
  Finding (PInt (Z.of_nat line_number)) (PStr message) "warning" "code_smell" None.

(** The loop of [_check_local_patterns] over [self.code_smells.items()],
    started with the issues found so far.  [re.finditer] compiles its
    pattern when it is called, so the patterns before a bad one are
    matched first. *)
Fixpoint check_rules (table : list (string * string)) (code : string)
    (issues : list finding) : res (list finding) :=
  match table with
  | [] => Ok issues
  | (pattern, message) :: rest =>
      match Re.compile pattern with
      | Re.Parsed p _ =>
          let matches := Re.finditer p (list_ascii_of_string code) in
          check_rules rest code (issues ++ map (smell code message) matches)
      | Re.ReError msg => Raise (Re.re_error msg)
      | Re.Beyond => Raise (PyExn "OutsideModel" pattern)
      end
  end.

Definition _check_local_patterns (s : self) (code : string) : res (list finding) :=
  check_rules (code_smells s) code [].

Definition too_long (name : string) (lineno : Z) (body_lines : nat) : finding :=
  Finding (PInt lineno)
    (PStr ("Function '" +:+ name +:+ "' is too long ("
           +:+ str_of_nat body_lines +:+ " lines). Consider refactoring."))
    "warning" "complexity" None.

Definition too_many_parameters (name : string) (lineno : Z) (arg_count : nat)
  : finding :=
  Finding (PInt lineno)
    (PStr ("Function '" +:+ name +:+ "' has too many parameters ("
           +:+ str_of_nat arg_count +:+ "). Consider refactoring."))
    "warning" "complexity" None.

(** The body of the loop over [ast.walk(tree)]: what one node appends. *)
Definition check_node (n : Ast.node) : list finding :=
  match n with
  | Ast.FunctionDef name lineno a body =>
      let body_lines := length body in
      let arg_count := length (Ast.args a) in
      (if (30 <? body_lines)%nat then [too_long name lineno body_lines] else [])
      ++ (if (5 <? arg_count)%nat
          then [too_many_parameters name lineno arg_count] else [])
  | _ => []
  end.

Definition syntax_finding (lineno : option Z) (text : string) : finding :=
  Finding (PInt (match lineno with
                 | Some l => l
                 | None => 0
                 end))
    (PStr ("Syntax error: " +:+ text)) "error" "syntax" None.

Definition _check_ast_patterns (E : env) (code : string) : res (list finding) :=
  match ast_parse E code with
  | Ast.ParseOk tree => Ok (flat_map check_node (Ast.walk tree))
  | Ast.ParseSyntaxError lineno text => Ok [syntax_finding lineno text]
  | Ast.ParseRaises e => Raise e
  end.

(** [_generate_summary] of this class.  The density
    [issue_count / max(1, loc) * 100] is compared as the exact quotient. *)
Definition _generate_summary (issues : list finding) (loc : nat) (complexity : Z)
  : string :=
  match issues with
  | [] => "No issues detected. Code appears to follow good practices."
  | _ =>
      let issue_count := Z.of_nat (length issues) in
      let lines := Z.max 1 (Z.of_nat loc) in
      let quality :=
        if issue_count * 100 <? 2 * lines then "good"
        else if issue_count * 100 <? 5 * lines then "acceptable"
        else "needs improvement" in
      "Found " +:+ str_of_Z issue_count +:+ " issues in " +:+ str_of_nat loc
      +:+ " lines of code. Overall quality is " +:+ quality +:+ "."
  end.

Local Open Scope res_scope.

Definition analyze_code (E : env) (s : self) (code filename : string)
  : res (analysis local_metrics) :=
  let is_python := endswith filename ".py" in
  issues <~ _check_local_patterns s code ;;
  issues <~ (if is_python
             then more <~ _check_ast_patterns E code ;; Ok (issues ++ more)
             else Ok issues) ;;
  let loc := splitlines_len code in
  let complexity_score :=
    Z.min 10 (Z.max 1 (Z.of_nat (length issues) / 5 + 1)) in
  Ok (Success issues
        (LocalMetrics loc complexity_score (length issues))
        (_generate_summary issues loc complexity_score)).

Local Close Scope res_scope.

(** *** The generative review *)

Definition dq : string := String (ascii_of_nat 34) "".
Definition nl : string := String (ascii_of_nat 10) "".
Definition quoted (s : string) : string := dq +:+ s +:+ dq.

(** The f-string [prompt]. *)
Definition prompt (language code : string) : string :=
  join nl
    ["Analyze the following " +:+ language +:+ " code for quality issues:";
     "        ";
     "        ```" +:+ language;
     "        " +:+ code;
     "        ```";
     "        ";
     "        Provide a JSON response with the following structure:";
     "        {";
     "            " +:+ quoted "issues" +:+ ": [";
     "                {";
     "                    " +:+ quoted "line" +:+ ": <line_number>,";
     "                    " +:+ quoted "message" +:+ ": "
       +:+ quoted "<description of the issue>" +:+ ",";
     "                    " +:+ quoted "severity" +:+ ": "
       +:+ quoted "<info|warning|error>" +:+ ",";
     "                    " +:+ quoted "type" +:+ ": "
       +:+ quoted "<code_smell|security|performance|style|bug>";
     "                }";
     "            ],";
     "            " +:+ quoted "suggestions" +:+ ": [";
     "                " +:+ quoted "<suggestion for improvement>";
     "            ],";
     "            " +:+ quoted "summary" +:+ ": "
       +:+ quoted "<brief summary of code quality>";
     "        }";
     "        ";
     "        Focus on:";
     "        - Code smells";
     "        - Security issues";
     "        - Performance optimizations";
     "        - Best practices";
     "        - Deprecated API usage";
     "        "].

(** The pattern that looks for the JSON text in the answer. *)
Definition json_pattern : string :=
  "```json\s*([\s\S]*?)\s*```|{\s*" +:+ quoted "issues" +:+ "[\s\S]*?}".

Definition slice (s : string) (span : nat * nat) : string :=
  substring (fst span) (snd span - fst span) s.

(** [json_match.group(1) or json_match.group(0)]. *)
Definition matched_json (result_text : string) (m : Re.match_obj) : string :=
  match Re.capture_get 1 (Re.m_groups m) with
  | Some span =>
      match slice result_text span with
      | EmptyString => slice result_text (Re.m_start m, Re.m_end m)
      | g1 => g1
      end
  | None => slice result_text (Re.m_start m, Re.m_end m)
  end.

(** [re.search(pattern, string)]. *)
Definition re_search (pattern : string) (subject : pyval) : res (option Re.match_obj) :=
  match Re.compile pattern with
  | Re.Parsed p _ =>
      match subject with
      | PStr s => Ok (Re.search p (list_ascii_of_string s))
      | _ => Raise (PyExn "TypeError" "expected string or bytes-like object")
      end
  | Re.ReError msg => Raise (Re.re_error msg)
  | Re.Beyond => Raise (PyExn "OutsideModel" pattern)
  end.

Definition unstructured (result_text : pyval) : pyval :=
  PDict
    [("raw_response", result_text);
     ("issues", PList []);
     ("suggestions", PList [PStr "Unable to parse AI response as JSON"]);
     ("summary",
      PStr "AI analysis completed but results could not be structured properly.")].

Local Open Scope res_scope.

(** The branch [response.status_code == 200]. *)
Definition read_answer (E : env) (response : response) : res pyval :=
  response_json <~ json_loads E (text response) ;;
  candidates <~ py_getitem response_json "candidates" ;;
  candidate <~ py_getitem0 candidates ;;
  content <~ py_getitem candidate "content" ;;
  parts <~ py_getitem content "parts" ;;
  part <~ py_getitem0 parts ;;
  result_text <~ py_getitem part "text" ;;
  json_match <~ re_search json_pattern result_text ;;
  match json_match, result_text with
  | Some m, PStr s =>
      match json_loads E (matched_json s m) with
      | Ok v => Ok v
      | Raise (PyExn "JSONDecodeError" _) => Ok (unstructured result_text)
      | Raise e => Raise e
      end
  | _, _ => Ok (unstructured result_text)
  end.

Local Close Scope res_scope.
Local Open Scope world_scope.

Definition gemini_request (E : env) (key prompt_text : string) : request :=
  let url := match getenv E "GEMINI_API_URL" with
             | Some u => u
             | None => "None"
             end in
  Request POST (url +:+ "?key=" +:+ key) []
    (Some (PDict [("contents", PList [PDict
       [("parts", PList [PDict [("text", PStr prompt_text)]])]])]))
    [("Content-Type", "application/json")] None (Some 30).

Definition analyze_with_ai (E : env) (s : self) (code filename : string) : M pyval :=
  if negb (truthy (gemini_api_key s))
  then ret (PDict [("error", PStr "API key is required for AI-powered analysis")])
  else
    let key := default "" (gemini_api_key s) in
    let extension := extension filename in
    let language := match extension with
                    | EmptyString => "unknown"
                    | _ => extension
                    end in
    try_except
      (response <- send E (gemini_request E key (prompt language code)) ;;
       if Z.eqb (status_code response) 200
       then lift (read_answer E response)
       else ret (PDict
              [("error", PStr ("API error: " +:+ str_of_Z (status_code response)));
               ("message", PStr (text response))]))
      (fun e => ret (PDict
         [("error", PStr "Failed to analyze with AI");
          ("message", PStr (exn_str e))])).

Definition analyze_with_sonarcloud (E : env) (s : self) (code filename : string)
  : M (analysis sonar_metrics) :=
  match sonarcloud s with
  | None =>
      ret (ErrorObj "SonarCloud token is required for SonarCloud analysis" None)
  | Some sonar => SonarCloudAnalyzer.analyze_code E sonar code filename
  end.

End CodeQualityAnalyzer.

(** ** The phases of a remote analysis *)

Module Phases.

Import SonarCloudAnalyzer.
Local Open Scope world_scope.

(** The statements of [SonarCloudAnalyzer.analyze_code] before the results
    are read: create the project, write the file, run the scanner, wait.
    The value is the temporary directory. *)
Definition prepare (E : env) (s : self) (code filename : string) : M string :=
  _create_project E s (project_key_of E) ;;;
  temp_dir <- temporary_directory E ;;
  write_file E (path_join temp_dir filename) code ;;;
  _run_scanner E s temp_dir (project_key_of E) filename ;;;
  sleep 5 ;;;
  ret temp_dir.

(** The three statements that read the results. *)
Definition fetch (E : env) (s : self) : M (pyval * pyval * gmap string pyval) :=
  issues <- _get_issues E s (project_key_of E) ;;
  hotspots <- _get_security_hotspots E s (project_key_of E) ;;
  metrics <- _get_metrics E s (project_key_of E) ;;
  ret (issues, hotspots, metrics).

(** What the [except Exception] clause makes of an outcome. *)
Definition collapse (r : res (analysis sonar_metrics)) : analysis sonar_metrics :=
  match r with
  | Ok a => a
  | Raise e => ErrorObj "SonarCloud analysis failed" (Some (exn_str e))
  end.

(** The request that deletes the project of this call. *)
Definition deletion (E : env) (s : self) : event :=
  EvHttp (delete_request s (project_key_of E)).

(** The service keeps to the page size request [rq] asks for: when [rq]
    carries [ps = n], no field of the decoded answer has more than [n]
    items. *)
Definition honours_page_size (E : env) (rq : request) : Prop :=
  forall (tr : list event) (st : Z) (body : string) (n : nat)
         (d : list (string * pyval)) (key : string) (v : pyval) (items : list pyval),
    http E tr rq = Response st body ->
    In ("ps", PInt (Z.of_nat n)) (rq_params rq) ->
    json_loads E body = Ok (PDict d) ->
    assoc_get key d = Some v ->
    py_iter v = Ok items ->
    (length items <= n)%nat.

End Phases.

(** ** The normal form of remote results, in the words of the specification *)

Module Normal.

(** A field of a raw issue is text when it is reported as a string or not
    reported at all. *)
Definition textual (d : list (string * pyval)) (field : string) : Prop :=
  match assoc_get field d with
  | None | Some (PStr _) => True
  | Some _ => False
  end.

(** A finding normalizes a raw issue: type and severity are the reported
    ones in lower case, the type being [code_smell] when none is
    reported. *)
Definition issue_normalized (d : list (string * pyval)) (f : finding) : Prop :=
  (forall t, assoc_get "type" d = Some (PStr t) -> f_type f = lower t)
  /\ (assoc_get "type" d = None -> f_type f = "code_smell")
  /\ (forall sv, assoc_get "severity" d = Some (PStr sv) -> f_severity f = lower sv).

(** A finding normalizes a raw hotspot: severity warning, type security,
    the message after [Security hotspot: ], the rule key as rule. *)
Definition hotspot_normalized (d : list (string * pyval)) (f : finding) : Prop :=
  f_severity f = "warning"
  /\ f_type f = "security"
  /\ (forall msg, assoc_get "message" d = Some (PStr msg) ->
      f_message f = PStr ("Security hotspot: " +:+ msg))
  /\ (forall k, assoc_get "ruleKey" d = Some k -> f_rule f = Some k).

(** The phrases of the summary, by number. *)
Definition bugs_in_words (n : Z) : list string :=
  if n =? 1 then ["1 potential bug"]
  else if 1 <? n then [str_of_Z n +:+ " potential bugs"]
  else [].

Definition vulnerabilities_in_words (n : Z) : list string :=
  if n =? 1 then ["1 security issue"]
  else if 1 <? n then [str_of_Z n +:+ " securities issues"]
  else [].

End Normal.

(** ** Concrete worlds, used to run the program *)

Module Scenarios.

(** The text last written to [path], as the file system gives it back. *)
Fixpoint last_written (tr : list event) (path : string) (found : option string)
  : option string :=
  match tr with
  | [] => found
  | EvWrite p content :: tr' =>
      last_written tr' path (if String.eqb p path then Some content else found)
  | _ :: tr' => last_written tr' path found
  end.

(** A world given by its HTTP service, its parser and its JSON decoder.
    Temporary files work; floats are the texts of their decimal
    numerals. *)
Definition world (service : list event -> request -> http_outcome)
    (parser : string -> Ast.parse_outcome)
    (decoder : string -> res pyval) : env :=
  {| http := service;
     uuid4_hex := "3f2a9c1e5b7d4e60a1b2c3d4e5f60718";
     mkdtemp := fun _ => Ok "/tmp/tmpq1w2e3r4";
     fs_write := fun _ _ _ => None;
     fs_read := fun tr path =>
       match last_written tr path None with
       | Some content => Ok content
       | None => Raise (PyExn "FileNotFoundError" path)
       end;
     getenv := fun _ => None;
     ast_parse := parser;
     json_loads := decoder;
     b64encode := fun s => "base64:" +:+ s;
     repr_container := fun _ => "[...]";
     float_of_str := fun s => Ok s;
     float_of_int := fun z => Ok (str_of_Z z +:+ ".0");
     float_trunc := fun r => Raise (PyExn "ValueError" r);
     float_gt := fun _ _ => false;
     float_format_1f := fun r => r |}.

Definition unreachable : list event -> request -> http_outcome :=
  fun _ _ => RequestRaises (PyExn "ConnectionError" "Max retries exceeded").

Definition no_parser : string -> Ast.parse_outcome :=
  fun _ => Ast.ParseSyntaxError (Some 1) "invalid syntax (<unknown>, line 1)".

Definition no_decoder : string -> res pyval :=
  fun s => Raise (PyExn "JSONDecodeError" "Expecting value: line 1 column 1 (char 0)").

(** A process with no network, for the local checkers. *)
Definition offline : env := world unreachable no_parser no_decoder.

Definition newline : string := String (ascii_of_nat 10) "".

(** A wildcard import on line 3, and nothing else a rule looks for. *)
Definition wildcard_on_line_3 : string :=
  "x = 1" +:+ newline +:+ "y = 2" +:+ newline +:+ "from os import *" +:+ newline.

(** The rule table without its seventh entry. *)
Definition rules_without_todo : list (string * string) :=
  firstn 6 CodeQualityAnalyzer.code_smell_table
  ++ skipn 7 CodeQualityAnalyzer.code_smell_table.

Definition params (n : nat) : Ast.arguments :=
  Ast.Arguments [] (map (fun i => "p" +:+ str_of_nat i) (seq 0 n)) None [] None.

Definition pass_statement : Ast.node := Ast.Node [].

(** Three functions of six parameters each, one of them nested. *)
Definition nested_source : string :=
  "def a(p0, p1, p2, p3, p4, p5):" +:+ newline
  +:+ "    def b(p0, p1, p2, p3, p4, p5):" +:+ newline
  +:+ "        pass" +:+ newline
  +:+ "def c(p0, p1, p2, p3, p4, p5):" +:+ newline
  +:+ "    pass" +:+ newline.

(** The tree of [nested_source]: a Module whose body is [a] and [c], [b]
    being the body of [a]. *)
Definition nested_tree : Ast.node :=
  Ast.Node
    [Ast.FunctionDef "a" 1 (params 6)
       [Ast.FunctionDef "b" 2 (params 6) [pass_statement]];
     Ast.FunctionDef "c" 4 (params 6) [pass_statement]].

Definition nested_parser (code : string) : Ast.parse_outcome :=
  if String.eqb code nested_source then Ast.ParseOk nested_tree
  else no_parser code.

Definition nested_world : env := world unreachable nested_parser no_decoder.

(** *** A remote service *)

(** The statuses the service answers with, per endpoint. *)
Record statuses : Type := Statuses {
  st_create : Z;
  st_index : Z;
  st_submit : Z;
  st_issues : Z;
  st_hotspots : Z;
  st_measures : Z;
  st_delete : Z
}.

Definition all_fine : statuses := Statuses 200 200 202 200 200 200 204.

(** A service that answers by endpoint, the same at any time. *)
Definition service (st : statuses) : list event -> request -> http_outcome :=
  fun _ rq =>
    let at_ (path : string) := endswith (rq_url rq) path in
    if at_ "/projects/create" then Response (st_create st) "created"
    else if at_ "/source/index" then Response (st_index st) "indexed"
    else if at_ "/analysis/submit" then Response (st_submit st) "submitted"
    else if at_ "/issues/search" then Response (st_issues st) "issues page"
    else if at_ "/hotspots/search" then Response (st_hotspots st) "hotspots page"
    else if at_ "/measures/component" then Response (st_measures st) "measures"
    else if at_ "/projects/delete" then Response (st_delete st) "deleted"
    else Response 404 "no such endpoint".

Definition unused_import_fields : list (string * pyval) :=
  [("line", PInt 3); ("message", PStr "Remove this unused import");
   ("severity", PStr "MINOR"); ("type", PStr "CODE_SMELL");
   ("rule", PStr "python:S1128")].

Definition division_by_zero_fields : list (string * pyval) :=
  [("line", PInt 7); ("message", PStr "Fix this division by zero");
   ("severity", PStr "CRITICAL"); ("rule", PStr "python:S3518")].

Definition hard_coded_password_fields : list (string * pyval) :=
  [("line", PInt 9); ("message", PStr "Review this hard-coded password");
   ("ruleKey", PStr "python:S2068")].

Definition unused_import : pyval := PDict unused_import_fields.
Definition division_by_zero : pyval := PDict division_by_zero_fields.
Definition hard_coded_password : pyval := PDict hard_coded_password_fields.

Definition measure (name value : string) : pyval :=
  PDict [("metric", PStr name); ("value", PStr value)].

(** The bodies of the service, decoded. *)
Definition decoder (body : string) : res pyval :=
  if String.eqb body "issues page"
  then Ok (PDict [("total", PInt 2);
                  ("issues", PList [unused_import; division_by_zero])])
  else if String.eqb body "hotspots page"
  then Ok (PDict [("hotspots", PList [hard_coded_password])])
  else if String.eqb body "measures"
  then Ok (PDict [("component", PDict [("measures",
         PList [measure "ncloc" "12"; measure "bugs" "1";
                measure "vulnerabilities" "0"; measure "code_smells" "1"])])])
  else no_decoder body.

Definition remote (st : statuses) : env := world (service st) no_parser decoder.

Definition sonar : SonarCloudAnalyzer.self :=
  SonarCloudAnalyzer.init "sample-token" (Some "pokementor").

Definition sample_issues : pyval := PList [unused_import; division_by_zero].

Definition sample_hotspots : pyval := PList [hard_coded_password].

Definition sample_metrics : gmap string pyval :=
  <["code_smells" := PStr "1"]>
    (<["vulnerabilities" := PStr "0"]>
       (<["bugs" := PStr "1"]> (<["ncloc" := PStr "12"]> ∅))).

Definition sample_code : string := "import os" +:+ newline +:+ "print(1)" +:+ newline.

(** The sample service with one endpoint out of reach: the request to
    [path] raises, the others are answered as by [service all_fine]. *)
Definition down (path : string) : list event -> request -> http_outcome :=
  fun tr rq =>
    if endswith (rq_url rq) path
    then RequestRaises (PyExn "ConnectionError" "Connection reset by peer")
    else service all_fine tr rq.

Definition remote_down (path : string) : env := world (down path) no_parser decoder.

(** A text with a null byte, and a parser that refuses it as [ast.parse]
    does up to Python 3.11: with [ValueError], not [SyntaxError]. *)
Definition null_byte_source : string := "x = 1" +:+ String (ascii_of_nat 0) "".

Definition has_null_byte (code : string) : bool :=
  existsb (fun c => N.eqb (Py.code c) 0) (list_ascii_of_string code).

Definition null_byte_parser (code : string) : Ast.parse_outcome :=
  if has_null_byte code
  then Ast.ParseRaises
         (PyExn "ValueError" "source code string cannot contain null bytes")
  else no_parser code.

Definition null_byte_world : env := world unreachable null_byte_parser no_decoder.

End Scenarios.

(** ** The order of the requests, the measures, the answer of the model *)

Module Protocol.

Import SonarCloudAnalyzer.

(** The requests of one remote analysis, in the order of the statements
    that send them; [content] is what [_run_scanner] read back from the
    temporary file. *)
Definition protocol (E : env) (s : self) (filename content : string) : list request :=
  let key := project_key_of E in
  [create_request s key; index_request E s key filename content;
   submit_request s key; issues_request s key; hotspots_request s key;
   metrics_request s key; delete_request s key].

(** A computation follows the list of requests [F content]: it only adds
    events, and the requests among them are all of [F content] when it
    returns, the first so many of them when it raises. *)
Definition follows {A : Type} (m : M A) (F : string -> list request) : Prop :=
  forall tr, exists content added,
    snd (m tr) = tr ++ added
    /\ if is_ok (fst (m tr)) then requests_of added = F content
       else exists k, requests_of added = firstn k (F content).

(** A measure of the metrics answer: a dict with a string under ["metric"]
    and something under ["value"]. *)
Definition measure_fields (d : list (string * pyval)) (name : string) (value : pyval)
  : Prop :=
  assoc_get "metric" d = Some (PStr name) /\ assoc_get "value" d = Some value.

(** The value of the last measure of [ds] named [name]. *)
Fixpoint last_measure (name : string) (ds : list (list (string * pyval)))
    (found : option pyval) : option pyval :=
  match ds with
  | [] => found
  | d :: ds' =>
      last_measure name ds'
        (match assoc_get "metric" d, assoc_get "value" d with
         | Some (PStr k), Some v => if String.eqb k name then Some v else found
         | _, _ => found
         end)
  end.

(** [response_json['candidates'][0]['content']['parts'][0]['text']]. *)
Definition answer_text (response_json : pyval) : res pyval :=
  rbind (py_getitem response_json "candidates") (fun candidates =>
  rbind (py_getitem0 candidates) (fun candidate =>
  rbind (py_getitem candidate "content") (fun content =>
  rbind (py_getitem content "parts") (fun parts =>
  rbind (py_getitem0 parts) (fun part =>
  py_getitem part "text"))))).

(** The language tag of the prompt, and the request that carries it. *)
Definition language_of (filename : string) : string :=
  match extension filename with
  | EmptyString => "unknown"
  | _ => extension filename
  end.

Definition review_request (E : env) (key code filename : string) : request :=
  CodeQualityAnalyzer.gemini_request E key
    (CodeQualityAnalyzer.prompt (language_of filename) code).

(** *** More worlds *)

(** The answer of the language model: a fenced block around [INNER], with
    prose on both sides. *)
Definition model_text : string :=
  "Here is the review: ```json INNER ``` Hope this helps.".

Definition model_answer (t : string) : pyval :=
  PDict [("candidates", PList [PDict [("content",
    PDict [("parts", PList [PDict [("text", PStr t)]]); ("role", PStr "model")])]])].

Definition review : pyval :=
  PDict [("issues", PList []); ("suggestions", PList [PStr "Add tests"]);
         ("summary", PStr "Looks fine")].

Definition model_decoder (body : string) : res pyval :=
  if String.eqb body "answer" then Ok (model_answer model_text)
  else if String.eqb body "prose" then Ok (model_answer "No JSON here, sorry.")
  else if String.eqb body "INNER" then Ok review
  else Scenarios.no_decoder body.

(** A generative endpoint that answers [status] with [body]. *)
Definition gemini (status : Z) (body : string) : env :=
  Scenarios.world (fun _ _ => Response status body) Scenarios.no_parser model_decoder.

Definition reviewer : CodeQualityAnalyzer.self :=
  CodeQualityAnalyzer.init (Some "sample-key") None None.

(** A metrics answer in which [bugs] is reported twice. *)
Definition repeated_measures : list (list (string * pyval)) :=
  [[("metric", PStr "bugs"); ("value", PStr "1")];
   [("metric", PStr "ncloc"); ("value", PStr "12")];
   [("metric", PStr "bugs"); ("value", PStr "4"); ("bestValue", PBool false)]].

Definition measures_answer : pyval :=
  PDict [("component",
          PDict [("key", PStr "temp-analysis-3f2a9c1e");
                 ("measures", PList (map PDict repeated_measures))])].

Definition measuring : env :=
  Scenarios.world (fun _ _ => Response 200 "measures") Scenarios.no_parser
    (fun _ => Ok measures_answer).

End Protocol.

(** * Properties *)

Import Scenarios.
Import Phases.
Import Normal.

(** ** The rule table and the [re] module *)

Lemma compile_wildcard :
  exists p, Re.compile "import \*" = Re.Parsed p [].
Proof. eexists. vm_compute. reflexivity. Qed.

(** Every pattern of the table is inside the modelled fragment of the
    pattern language. *)
Lemma code_smell_table_modelled :
  Forall (fun rule => Re.compile (fst rule) <> Re.Beyond)
         CodeQualityAnalyzer.code_smell_table.
Proof. repeat constructor; vm_compute; discriminate. Qed.

Lemma json_pattern_modelled :
  exists p, Re.compile CodeQualityAnalyzer.json_pattern = Re.Parsed p [].
Proof. eexists. vm_compute. reflexivity. Qed.

(** The width of the look-behind of the seventh pattern: at least one
    character, and no upper bound. *)
Lemma todo_lookbehind_width :
  Re.getwidth (Re.Cat (Re.Literal "#") (Re.Repeat true 0 None Re.AnyChar))
  = (1%nat, None).
Proof. reflexivity. Qed.

Lemma compile_todo :
  Re.compile "(?<!#.*)TODO|FIXME"
  = Re.ReError "look-behind requires fixed-width pattern".
Proof. vm_compute. reflexivity. Qed.

(** The loop over the table stops at the first pattern that does not
    compile, whatever the patterns before it matched. *)
Lemma check_rules_stops (before after : list (string * string))
    (pattern message msg code : string) (issues : list finding) :
  Forall (fun rule => exists p, Re.compile (fst rule) = Re.Parsed p []) before ->
  Re.compile pattern = Re.ReError msg ->
  CodeQualityAnalyzer.check_rules (before ++ (pattern, message) :: after) code issues
  = Raise (Re.re_error msg).
Proof.
  intros Hbefore Hbad. revert issues.
  induction Hbefore as [| [pat m] rest [p Hp] _ IH]; intros issues; simpl.
  - rewrite Hbad. reflexivity.
  - simpl in Hp. rewrite Hp. apply IH.
Qed.

Lemma check_rules_table (code : string) (issues : list finding) :
  CodeQualityAnalyzer.check_rules CodeQualityAnalyzer.code_smell_table code issues
  = Raise (Re.re_error "look-behind requires fixed-width pattern").
Proof.
  change CodeQualityAnalyzer.code_smell_table
    with (firstn 6 CodeQualityAnalyzer.code_smell_table
          ++ ("(?<!#.*)TODO|FIXME",
              "Resolve TODO/FIXME comments before finalizing code")
          :: skipn 7 CodeQualityAnalyzer.code_smell_table).
  apply check_rules_stops.
  - repeat constructor; eexists; vm_compute; reflexivity.
  - exact compile_todo.
Qed.

(** C1, as the code behaves: for every analyzer built by [__init__], every
    source text and every filename, [CodeQualityAnalyzer.analyze_code]
    raises [re.error] out of [_check_local_patterns]; it returns no
    result, success-shaped or not. *)
Theorem analyze_code_raises
    (E : env) (gemini_api_key sonarcloud_token sonarcloud_org : option string)
    (code filename : string) :
  CodeQualityAnalyzer.analyze_code E
    (CodeQualityAnalyzer.init gemini_api_key sonarcloud_token sonarcloud_org)
    code filename
  = Raise (Re.re_error "look-behind requires fixed-width pattern").
Proof.
  unfold CodeQualityAnalyzer.analyze_code, CodeQualityAnalyzer._check_local_patterns.
  simpl CodeQualityAnalyzer.code_smells.
  rewrite check_rules_table. reflexivity.
Qed.

Example analyze_code_empty_text :
  CodeQualityAnalyzer.analyze_code offline
    (CodeQualityAnalyzer.init None None None) "" ""
  = Raise (PyExn "re.error" "look-behind requires fixed-width pattern").
Proof. vm_compute. reflexivity. Qed.

(** The text of [wildcard_on_line_3] has one wildcard import, at offset 20,
    after two newlines; no other rule that compiles matches it. *)
Lemma wildcard_on_line_3_matches :
  CodeQualityAnalyzer.check_rules rules_without_todo wildcard_on_line_3 []
  = Ok [Finding (PInt 3)
          (PStr "Avoid wildcard imports as they can lead to namespace pollution")
          "warning" "code_smell" None].
Proof. vm_compute. reflexivity. Qed.

(** C2, as the code behaves: on a text whose only smell is a wildcard
    import on line 3, [_check_local_patterns] raises [re.error] when it
    reaches the seventh rule, and the finding of line 3 is lost. *)
Theorem check_local_patterns_line_3_raises
    (gemini_api_key sonarcloud_token sonarcloud_org : option string) :
  CodeQualityAnalyzer._check_local_patterns
    (CodeQualityAnalyzer.init gemini_api_key sonarcloud_token sonarcloud_org)
    wildcard_on_line_3
  = Raise (Re.re_error "look-behind requires fixed-width pattern").
Proof.
  unfold CodeQualityAnalyzer._check_local_patterns.
  simpl CodeQualityAnalyzer.code_smells.
  apply check_rules_table.
Qed.

(** ** [ast.walk] visits level by level *)

Section Walk.

Import Ast.

Let kids := flat_map iter_child_nodes.

Lemma size_children (n : node) :
  size n = S (forest_size (iter_child_nodes n)).
Proof. destruct n; reflexivity. Qed.

Lemma forest_size_app (ts us : list node) :
  forest_size (ts ++ us) = (forest_size ts + forest_size us)%nat.
Proof. unfold forest_size. rewrite map_app, list_sum_app. reflexivity. Qed.

Lemma forest_size_kids (ts : list node) :
  forest_size ts = (length ts + forest_size (kids ts))%nat.
Proof.
  induction ts as [| t ts IH]; [reflexivity |].
  change (forest_size (t :: ts)) with (size t + forest_size ts)%nat.
  change (kids (t :: ts)) with (iter_child_nodes t ++ kids ts).
  rewrite forest_size_app, size_children, IH. simpl. lia.
Qed.

Lemma kids_snoc (p : list node) (x : node) :
  kids (p ++ [x]) = kids p ++ iter_child_nodes x.
Proof. unfold kids. rewrite flat_map_app. simpl. rewrite app_nil_r. reflexivity. Qed.

(** The queue of [ast.walk] holds the rest [q] of a level followed by the
    children [kids p] of the part [p] of that level already visited: the
    walk yields [q] and then the levels below. *)
Lemma walk_queue_levels (m : nat) :
  forall (q p : list node) (fuel depth : nat),
    (forest_size (q ++ kids p) <= m)%nat ->
    (m <= fuel)%nat ->
    (forest_size (kids (p ++ q)) <= depth)%nat ->
    walk_queue fuel (q ++ kids p) = q ++ levels depth (kids (p ++ q)).
Proof.
  induction m as [| m IH].
  - intros q p fuel depth Hm _ _.
    rewrite forest_size_app, (forest_size_kids q) in Hm.
    destruct q as [| x q]; [| simpl in Hm; lia].
    rewrite app_nil_r. simpl.
    destruct (kids p) as [| y r] eqn:Hk.
    + destruct fuel, depth; reflexivity.
    + change (forest_size (y :: r)) with (size y + forest_size r)%nat in Hm.
      rewrite size_children in Hm. lia.
  - assert (Hcons : forall (x : node) (q p : list node) (fuel depth : nat),
               (forest_size ((x :: q) ++ kids p) <= S m)%nat ->
               (S m <= fuel)%nat ->
               (forest_size (kids (p ++ x :: q)) <= depth)%nat ->
               walk_queue fuel ((x :: q) ++ kids p)
               = (x :: q) ++ levels depth (kids (p ++ x :: q))).
    { intros x q p fuel depth Hm Hfuel Hdepth.
      destruct fuel as [| fuel]; [lia |].
      simpl. f_equal.
      rewrite <- app_assoc, <- kids_snoc.
      replace (p ++ x :: q) with ((p ++ [x]) ++ q) in *
        by (rewrite <- app_assoc; reflexivity).
      apply IH; [| lia | exact Hdepth].
      rewrite forest_size_app, kids_snoc, forest_size_app.
      change (forest_size ((x :: q) ++ kids p))
        with (size x + forest_size (q ++ kids p))%nat in Hm.
      rewrite forest_size_app, size_children in Hm. lia. }
    intros [| x q] p fuel depth Hm Hfuel Hdepth; [| apply Hcons; assumption].
    rewrite app_nil_r in *. simpl in *.
    destruct (kids p) as [| y r] eqn:Hk.
    + destruct fuel, depth; reflexivity.
    + destruct depth as [| depth].
      { change (forest_size (y :: r)) with (size y + forest_size r)%nat in Hdepth.
        rewrite size_children in Hdepth. lia. }
      change (levels (S depth) (y :: r))
        with ((y :: r) ++ levels depth (kids (y :: r))).
      specialize (Hcons y r [] fuel depth).
      change (kids []) with (@nil node) in Hcons.
      rewrite app_nil_r in Hcons. apply Hcons; [exact Hm | exact Hfuel |].
      rewrite (forest_size_kids (y :: r)) in Hdepth. simpl in Hdepth |- *. lia.
Qed.

Lemma walk_level_order (tree : node) : walk tree = level_order tree.
Proof.
  unfold walk, level_order.
  pose proof (walk_queue_levels (size tree) [tree] [] (size tree)
                (forest_size (iter_child_nodes tree))) as H.
  change (kids []) with (@nil node) in H.
  change (kids ([] ++ [tree])) with (iter_child_nodes tree ++ []) in H.
  rewrite !app_nil_r in H.
  rewrite H.
  - rewrite (size_children tree). simpl. rewrite app_nil_r. reflexivity.
  - unfold forest_size. simpl. lia.
  - lia.
  - lia.
Qed.

Lemma levels_subnode (n t : node) :
  subnode n t ->
  forall (ts : list node) (depth : nat),
    (forest_size ts <= depth)%nat -> In t ts -> In n (levels depth ts).
Proof.
  induction 1 as [| t c Hc _ IH]; intros ts depth Hdepth Hin.
  - destruct depth as [| depth].
    + rewrite forest_size_kids in Hdepth. destruct ts; [contradiction | simpl in Hdepth; lia].
    + destruct ts as [| u us]; [contradiction |].
      change (levels (S depth) (u :: us))
        with ((u :: us) ++ levels depth (kids (u :: us))).
      apply in_or_app. left. exact Hin.
  - destruct depth as [| depth].
    + rewrite forest_size_kids in Hdepth. destruct ts; [contradiction | simpl in Hdepth; lia].
    + destruct ts as [| u us]; [contradiction |].
      change (levels (S depth) (u :: us))
        with ((u :: us) ++ levels depth (kids (u :: us))).
      apply in_or_app. right. apply IH.
      * rewrite (forest_size_kids (u :: us)) in Hdepth.
        change (length (u :: us)) with (S (length us)) in Hdepth. lia.
      * unfold kids. apply in_flat_map. exists t. split; assumption.
Qed.

(** Every node of the tree, at any depth, is visited. *)
Lemma level_order_complete (n tree : node) :
  subnode n tree -> In n (level_order tree).
Proof.
  intros H. unfold level_order.
  apply (levels_subnode n tree H).
  - unfold forest_size. simpl. lia.
  - left. reflexivity.
Qed.

End Walk.

(** ** The structural checker *)

Section StructuralChecker.

Import CodeQualityAnalyzer.

(** What one function definition appends, by the counts of its body and of
    its positional parameters ([node.args.args]). *)
Lemma check_function (name : string) (lineno : Z) (a : Ast.arguments)
    (body : list Ast.node) :
  let f := Ast.FunctionDef name lineno a body in
  let long := too_long name lineno (length body) in
  let many := too_many_parameters name lineno (length (Ast.args a)) in
  ((30 < length body)%nat -> (length (Ast.args a) <= 5)%nat -> check_node f = [long])
  /\ ((length body <= 30)%nat -> (5 < length (Ast.args a))%nat -> check_node f = [many])
  /\ ((30 < length body)%nat -> (5 < length (Ast.args a))%nat -> check_node f = [long; many])
  /\ ((length body <= 30)%nat -> (length (Ast.args a) <= 5)%nat -> check_node f = []).
Proof.
  simpl. repeat split; intros Hb Ha;
    destruct (Nat.ltb_spec 30 (length body));
    destruct (Nat.ltb_spec 5 (length (Ast.args a))); try lia; reflexivity.
Qed.

(** Only [FunctionDef] nodes are reported: an [async def] is a node of
    another class. *)
Lemma check_node_other (name : string) (lineno : Z) (a : Ast.arguments)
    (body children : list Ast.node) :
  check_node (Ast.AsyncFunctionDef name lineno a body) = []
  /\ check_node (Ast.Node children) = [].
Proof. split; reflexivity. Qed.

(** C5, the order of the findings as the claim states it, refuted: on the
    tree of [nested_tree] the checker reports the functions as a, c, b,
    while depth-first source order is a, b, c. *)
Lemma check_ast_patterns_not_depth_first :
  ast_parse nested_world nested_source = Ast.ParseOk nested_tree
  /\ _check_ast_patterns nested_world nested_source
     = Ok [too_many_parameters "a" 1 6; too_many_parameters "c" 4 6;
           too_many_parameters "b" 2 6]
  /\ flat_map check_node (Ast.preorder nested_tree)
     = [too_many_parameters "a" 1 6; too_many_parameters "b" 2 6;
        too_many_parameters "c" 4 6]
  /\ _check_ast_patterns nested_world nested_source
     <> Ok (flat_map check_node (Ast.preorder nested_tree)).
Proof.
  split; [reflexivity |]. split; [vm_compute; reflexivity |].
  split; [vm_compute; reflexivity |]. vm_compute. discriminate.
Qed.

(** C5, amended: on parse success the checker visits every node of the
    tree, nested ones included, in level order (breadth first, each level
    in source order), and reports for each [FunctionDef] a too-long
    warning exactly when its body has more than 30 statements and a
    too-many-parameters warning exactly when it has more than 5 positional
    parameters, the too-long one first. *)
Theorem check_ast_patterns_level_order (E : env) (code : string) (tree : Ast.node) :
  ast_parse E code = Ast.ParseOk tree ->
  _check_ast_patterns E code = Ok (flat_map check_node (Ast.level_order tree))
  /\ (forall n, Ast.subnode n tree -> In n (Ast.level_order tree))
  /\ (forall name lineno a body,
        let f := Ast.FunctionDef name lineno a body in
        let long := too_long name lineno (length body) in
        let many := too_many_parameters name lineno (length (Ast.args a)) in
        f_severity long = "warning" /\ f_type long = "complexity"
        /\ f_severity many = "warning" /\ f_type many = "complexity"
        /\ ((30 < length body)%nat -> (length (Ast.args a) <= 5)%nat ->
            check_node f = [long])
        /\ ((length body <= 30)%nat -> (5 < length (Ast.args a))%nat ->
            check_node f = [many])
        /\ ((30 < length body)%nat -> (5 < length (Ast.args a))%nat ->
            check_node f = [long; many])
        /\ ((length body <= 30)%nat -> (length (Ast.args a) <= 5)%nat ->
            check_node f = [])).
Proof.
  intros Hparse. split; [| split].
  - unfold _check_ast_patterns. rewrite Hparse, walk_level_order. reflexivity.
  - intros n. apply level_order_complete.
  - intros name lineno a body. cbv zeta.
    repeat (split; [reflexivity |]).
    apply check_function.
Qed.

Lemma check_ast_patterns_level_order_witness :
  ast_parse nested_world nested_source = Ast.ParseOk nested_tree
  /\ _check_ast_patterns nested_world nested_source
     = Ok (flat_map check_node (Ast.level_order nested_tree)).
Proof.
  split; [reflexivity |].
  apply (check_ast_patterns_level_order nested_world nested_source nested_tree).
  reflexivity.
Defined.

(** C6, as the claim states it, refuted: a text with a null byte fails to
    parse with [ValueError], which the [except SyntaxError] clause does not
    catch; the checker raises and returns no finding. *)
Lemma check_ast_patterns_null_byte :
  ast_parse null_byte_world null_byte_source
  = Ast.ParseRaises (PyExn "ValueError" "source code string cannot contain null bytes")
  /\ _check_ast_patterns null_byte_world null_byte_source
     = Raise (PyExn "ValueError" "source code string cannot contain null bytes")
  /\ forall found, _check_ast_patterns null_byte_world null_byte_source <> Ok found.
Proof.
  split; [reflexivity |]. split; [reflexivity |].
  intros found. vm_compute. discriminate.
Qed.

(** C6, amended: when the parser raises [SyntaxError], the checker returns
    exactly one finding, with severity error, type syntax, the line the
    parser reports (0 when it reports none) and the message of the parser
    after [Syntax error: ]; when the parser raises another exception, the
    checker raises it and returns nothing. *)
Theorem check_ast_patterns_syntax_error (E : env) (code : string) :
  (forall (lineno : option Z) (text : string),
      ast_parse E code = Ast.ParseSyntaxError lineno text ->
      _check_ast_patterns E code
      = Ok [Finding (PInt (default 0 lineno)) (PStr ("Syntax error: " +:+ text))
              "error" "syntax" None])
  /\ (forall e : exn,
         ast_parse E code = Ast.ParseRaises e ->
         _check_ast_patterns E code = Raise e).
Proof.
  split.
  - intros lineno text Hparse. unfold _check_ast_patterns. rewrite Hparse.
    destruct lineno; reflexivity.
  - intros e Hparse. unfold _check_ast_patterns. rewrite Hparse. reflexivity.
Qed.

Lemma check_ast_patterns_syntax_error_witness :
  (ast_parse offline "def f(:"
   = Ast.ParseSyntaxError (Some 1) "invalid syntax (<unknown>, line 1)"
   /\ _check_ast_patterns offline "def f(:"
      = Ok [Finding (PInt 1) (PStr "Syntax error: invalid syntax (<unknown>, line 1)")
              "error" "syntax" None])
  /\ _check_ast_patterns null_byte_world null_byte_source
     = Raise (PyExn "ValueError" "source code string cannot contain null bytes").
Proof.
  split; [split; [reflexivity |] |].
  - apply (proj1 (check_ast_patterns_syntax_error offline "def f(:") (Some 1)
             "invalid syntax (<unknown>, line 1)").
    reflexivity.
  - apply (proj2 (check_ast_patterns_syntax_error null_byte_world null_byte_source)).
    reflexivity.
Defined.

End StructuralChecker.

(** ** The generative review *)

(** C9: without an API key ([None] or the empty string), [analyze_with_ai]
    returns the error dict at once, whatever the text and the filename;
    the trace is the one it started with, so no request was made. *)
Theorem analyze_with_ai_requires_key (E : env) (s : CodeQualityAnalyzer.self)
    (code filename : string) (tr : list event) :
  CodeQualityAnalyzer.truthy (CodeQualityAnalyzer.gemini_api_key s) = false ->
  exists msg,
    CodeQualityAnalyzer.analyze_with_ai E s code filename tr
    = (Ok (PDict [("error", PStr msg)]), tr)
    /\ startswith msg "API key is required" = true
    /\ requests_of (snd (CodeQualityAnalyzer.analyze_with_ai E s code filename tr))
       = requests_of tr.
Proof.
  intros Hkey. exists "API key is required for AI-powered analysis".
  unfold CodeQualityAnalyzer.analyze_with_ai. rewrite Hkey. simpl.
  repeat split; reflexivity.
Qed.

Lemma analyze_with_ai_requires_key_witness :
  CodeQualityAnalyzer.truthy
    (CodeQualityAnalyzer.gemini_api_key (CodeQualityAnalyzer.init None None None))
  = false
  /\ exists msg,
       CodeQualityAnalyzer.analyze_with_ai offline
         (CodeQualityAnalyzer.init None None None) "print(1)" "main.py" []
       = (Ok (PDict [("error", PStr msg)]), [])
       /\ startswith msg "API key is required" = true
       /\ requests_of
            (snd (CodeQualityAnalyzer.analyze_with_ai offline
                    (CodeQualityAnalyzer.init None None None) "print(1)" "main.py" []))
          = requests_of [].
Proof.
  split; [reflexivity |].
  apply (analyze_with_ai_requires_key offline
           (CodeQualityAnalyzer.init None None None) "print(1)" "main.py" []).
  reflexivity.
Defined.

(** ** Reasoning about computations on the world *)

Lemma bind_ok {A B : Type} (m : M A) (f : A -> M B) (tr tr1 : list event) (a : A) :
  m tr = (Ok a, tr1) -> bind m f tr = f a tr1.
Proof. intros H. unfold bind. rewrite H. reflexivity. Qed.

Lemma bind_raise {A B : Type} (m : M A) (f : A -> M B) (tr tr1 : list event) (e : exn) :
  m tr = (Raise e, tr1) -> bind m f tr = (Raise e, tr1).
Proof. intros H. unfold bind. rewrite H. reflexivity. Qed.

Lemma bind_ok_inv {A B : Type} (m : M A) (f : A -> M B) (tr tr' : list event) (b : B) :
  bind m f tr = (Ok b, tr') ->
  exists a tr1, m tr = (Ok a, tr1) /\ f a tr1 = (Ok b, tr').
Proof.
  unfold bind. destruct (m tr) as [[a | e] tr1]; intros H.
  - exists a, tr1. split; [reflexivity | exact H].
  - discriminate.
Qed.

Lemma send_trace (E : env) (rq : request) (tr : list event) :
  snd (send E rq tr) = tr ++ [EvHttp rq].
Proof. unfold send. destruct (http E tr rq); reflexivity. Qed.

Lemma send_ok_inv (E : env) (rq : request) (tr tr' : list event) (r : response) :
  send E rq tr = (Ok r, tr') ->
  http E tr rq = Response (status_code r) (text r) /\ tr' = tr ++ [EvHttp rq].
Proof.
  unfold send. destruct (http E tr rq) as [st body | e]; intros H.
  - injection H as <- <-. split; reflexivity.
  - discriminate.
Qed.

Lemma send_response (E : env) (rq : request) (tr : list event) (st : Z) (body : string) :
  http E tr rq = Response st body ->
  send E rq tr = (Ok (Resp st body), tr ++ [EvHttp rq]).
Proof. intros H. unfold send. rewrite H. reflexivity. Qed.

(** ** The remote analysis, phase by phase *)

Section Remote.

Import SonarCloudAnalyzer.

Variable E : env.
Variable s : self.

Let key := project_key_of E.

(** A call whose preparation and whose three reads return goes on to
    delete the project, then formats. *)
Lemma analyze_code_after_fetch (code filename dir : string)
    (tr0 tr3 tr6 : list event) (i h : pyval) (m : gmap string pyval) :
  prepare E s code filename tr0 = (Ok dir, tr3) ->
  fetch E s tr3 = (Ok (i, h, m), tr6) ->
  analyze_code E s code filename tr0
  = (Ok (collapse
           match http E tr6 (delete_request s key) with
           | Response _ _ => _format_results E i h m
           | RequestRaises e => Raise e
           end),
     tr6 ++ [deletion E s; EvCleanup dir]).
Proof.
  intros Hprep Hfetch.
  unfold prepare in Hprep.
  apply bind_ok_inv in Hprep as (u1 & t1 & Hcreate & Hprep).
  apply bind_ok_inv in Hprep as (d & t2 & Hdir & Hprep).
  apply bind_ok_inv in Hprep as (u2 & t3 & Hwrite & Hprep).
  apply bind_ok_inv in Hprep as (u3 & t4 & Hscan & Hprep).
  apply bind_ok_inv in Hprep as (u4 & t5 & Hsleep & Hprep).
  injection Hprep as -> ->.
  unfold fetch in Hfetch.
  apply bind_ok_inv in Hfetch as (i' & t6 & Hissues & Hfetch).
  apply bind_ok_inv in Hfetch as (h' & t7 & Hhotspots & Hfetch).
  apply bind_ok_inv in Hfetch as (m' & t8 & Hmetrics & Hfetch).
  injection Hfetch as -> -> -> ->.
  unfold analyze_code, try_except.
  rewrite (bind_ok _ _ _ _ _ Hcreate), (bind_ok _ _ _ _ _ Hdir).
  unfold finally, analyze_in.
  rewrite (bind_ok _ _ _ _ _ Hwrite), (bind_ok _ _ _ _ _ Hscan),
    (bind_ok _ _ _ _ _ Hsleep), (bind_ok _ _ _ _ _ Hissues),
    (bind_ok _ _ _ _ _ Hhotspots), (bind_ok _ _ _ _ _ Hmetrics).
  unfold bind, _delete_project, bind, send, lift, ret, emit, deletion. fold key.
  destruct (http E tr6 (delete_request s key)) as [st body | e]; simpl.
  - destruct (_format_results E i h m); simpl; rewrite <- app_assoc; reflexivity.
  - rewrite <- app_assoc. reflexivity.
Qed.

(** A call whose preparation returns and in which one of the three reads
    raises returns the error shape. *)
Lemma analyze_code_fetch_raises (code filename dir : string)
    (tr0 tr3 tr6 : list event) (e : exn) :
  prepare E s code filename tr0 = (Ok dir, tr3) ->
  fetch E s tr3 = (Raise e, tr6) ->
  analyze_code E s code filename tr0
  = (Ok (ErrorObj "SonarCloud analysis failed" (Some (exn_str e))),
     tr6 ++ [EvCleanup dir]).
Proof.
  intros Hprep Hfetch.
  unfold prepare in Hprep.
  apply bind_ok_inv in Hprep as (u1 & t1 & Hcreate & Hprep).
  apply bind_ok_inv in Hprep as (d & t2 & Hdir & Hprep).
  apply bind_ok_inv in Hprep as (u2 & t3 & Hwrite & Hprep).
  apply bind_ok_inv in Hprep as (u3 & t4 & Hscan & Hprep).
  apply bind_ok_inv in Hprep as (u4 & t5 & Hsleep & Hprep).
  injection Hprep as -> ->.
  unfold analyze_code, try_except.
  rewrite (bind_ok _ _ _ _ _ Hcreate), (bind_ok _ _ _ _ _ Hdir).
  unfold finally, analyze_in.
  rewrite (bind_ok _ _ _ _ _ Hwrite), (bind_ok _ _ _ _ _ Hscan),
    (bind_ok _ _ _ _ _ Hsleep).
  unfold fetch in Hfetch. fold key in Hfetch. fold key.
  unfold bind in Hfetch |- *.
  destruct (_get_issues E s key tr3) as [[i | e1] ti].
  - destruct (_get_security_hotspots E s key ti) as [[h | e2] th].
    + destruct (_get_metrics E s key th) as [[m | e3] tm].
      * discriminate.
      * injection Hfetch as -> ->. reflexivity.
    + injection Hfetch as -> ->. reflexivity.
  - injection Hfetch as -> ->. reflexivity.
Qed.

(** The three reads, one by one. *)
Lemma get_issues_refused (tr : list event) (st : Z) (body : string) :
  http E tr (issues_request s key) = Response st body ->
  st <> 200 ->
  _get_issues E s key tr
  = (Raise (exception ("Failed to get issues: " +:+ body)),
     tr ++ [EvHttp (issues_request s key)]).
Proof.
  intros Hhttp Hst. unfold _get_issues.
  rewrite (bind_ok _ _ _ _ _ (send_response _ _ _ _ _ Hhttp)). simpl.
  destruct (Z.eqb_spec st 200); [contradiction | reflexivity].
Qed.

Lemma get_security_hotspots_refused (tr : list event) (st : Z) (body : string) :
  http E tr (hotspots_request s key) = Response st body ->
  st <> 200 ->
  _get_security_hotspots E s key tr
  = (Ok (PList []), tr ++ [EvHttp (hotspots_request s key)]).
Proof.
  intros Hhttp Hst. unfold _get_security_hotspots.
  rewrite (bind_ok _ _ _ _ _ (send_response _ _ _ _ _ Hhttp)). simpl.
  destruct (Z.eqb_spec st 200); [contradiction | reflexivity].
Qed.

Lemma get_metrics_refused (tr : list event) (st : Z) (body : string) :
  http E tr (metrics_request s key) = Response st body ->
  st <> 200 ->
  _get_metrics E s key tr = (Ok ∅, tr ++ [EvHttp (metrics_request s key)]).
Proof.
  intros Hhttp Hst. unfold _get_metrics.
  rewrite (bind_ok _ _ _ _ _ (send_response _ _ _ _ _ Hhttp)). simpl.
  destruct (Z.eqb_spec st 200); [contradiction | reflexivity].
Qed.

(** With no metric at all the summary and the metrics are the defaults. *)
Lemma format_results_no_metrics (i h : pyval) (fs : list finding) (zero : string) :
  format_issues E i h = Ok fs ->
  float_of_int E 0 = Ok zero ->
  _format_results E i h ∅
  = Ok (Success fs (SonarMetrics 0 0 0 0 0 0 zero None)
          "No code detected for analysis.").
Proof.
  intros Hfs Hzero. unfold _format_results. rewrite Hfs. simpl.
  unfold format_metrics, metric. rewrite !lookup_empty. simpl.
  rewrite Hzero. reflexivity.
Qed.

(** The findings of a result formatted with no hotspot come from the
    issues alone. *)
Lemma format_results_no_hotspots (i : pyval) (m : gmap string pyval)
    (r : analysis sonar_metrics) :
  _format_results E i (PList []) m = Ok r ->
  success_shaped r = true
  /\ exists il, py_iter i = Ok il /\ traverse format_issue il = Ok (issues_of r).
Proof.
  unfold _format_results, format_issues. intros H.
  destruct (py_iter i) as [il | e]; [| discriminate]. simpl in H.
  destruct (traverse format_issue il) as [fi | e] eqn:Hfi; [| discriminate].
  simpl in H. rewrite app_nil_r in H.
  destruct (_generate_summary E fi m); [| discriminate]. simpl in H.
  destruct (format_metrics E m); [| discriminate]. simpl in H.
  injection H as <-. split; [reflexivity |]. exists il. split; [reflexivity | exact Hfi].
Qed.

End Remote.

(** ** The life of the remote project *)

(** C3, as the claim states it, refuted: the project is created, the
    service refuses the source, the call returns the error shape, and no
    request to delete the project was made. *)
Lemma analyze_code_leaves_project :
  let E := remote (Statuses 200 500 202 200 200 200 204) in
  let run := SonarCloudAnalyzer.analyze_code E sonar sample_code "main.py" [] in
  SonarCloudAnalyzer._create_project E sonar (SonarCloudAnalyzer.project_key_of E) []
  = (Ok tt, [EvHttp (SonarCloudAnalyzer.create_request sonar
                       (SonarCloudAnalyzer.project_key_of E))])
  /\ fst run = Ok (ErrorObj "SonarCloud analysis failed"
                     (Some "Failed to run analysis: indexed"))
  /\ ~ In (deletion E sonar) (snd run).
Proof.
  cbv zeta. split; [vm_compute; reflexivity |]. split; [vm_compute; reflexivity |].
  vm_compute. intros H.
  repeat (destruct H as [H | H]; [discriminate H |]). exact H.
Qed.

(** C3, amended: in every call whose steps up to the three reads of the
    results all return, a request to delete the project is made before the
    call returns, as its last request; whatever status the service answers
    it with, the call returns what the formatting of the results gives,
    success-shaped or error-shaped. *)
Theorem analyze_code_deletes_after_fetch (E : env) (s : SonarCloudAnalyzer.self)
    (code filename dir : string) (tr0 tr3 tr6 : list event)
    (i h : pyval) (m : gmap string pyval) :
  prepare E s code filename tr0 = (Ok dir, tr3) ->
  fetch E s tr3 = (Ok (i, h, m), tr6) ->
  exists r,
    SonarCloudAnalyzer.analyze_code E s code filename tr0
    = (Ok r, tr6 ++ [deletion E s; EvCleanup dir])
    /\ (forall st body,
          http E tr6 (SonarCloudAnalyzer.delete_request s
                        (SonarCloudAnalyzer.project_key_of E))
          = Response st body ->
          r = collapse (SonarCloudAnalyzer._format_results E i h m)).
Proof.
  intros Hprep Hfetch.
  rewrite (analyze_code_after_fetch E s code filename dir tr0 tr3 tr6 i h m Hprep Hfetch).
  eexists. split; [reflexivity |].
  intros st body Hdel. rewrite Hdel. reflexivity.
Qed.

(** The deletion is refused with status 403; the result is the success
    shape all the same. *)
Lemma analyze_code_deletes_after_fetch_witness :
  let E := remote (Statuses 200 200 202 200 404 200 403) in
  let tr3 := snd (prepare E sonar sample_code "main.py" []) in
  let tr6 := snd (fetch E sonar tr3) in
  prepare E sonar sample_code "main.py" [] = (Ok "/tmp/tmpq1w2e3r4", tr3)
  /\ fetch E sonar tr3 = (Ok (sample_issues, PList [], sample_metrics), tr6)
  /\ exists r,
       SonarCloudAnalyzer.analyze_code E sonar sample_code "main.py" []
       = (Ok r, tr6 ++ [deletion E sonar; EvCleanup "/tmp/tmpq1w2e3r4"])
       /\ (forall st body,
             http E tr6 (SonarCloudAnalyzer.delete_request sonar
                           (SonarCloudAnalyzer.project_key_of E))
             = Response st body ->
             r = collapse (SonarCloudAnalyzer._format_results E
                             sample_issues (PList []) sample_metrics)).
Proof.
  cbv zeta.
  split; [vm_compute; reflexivity |]. split; [vm_compute; reflexivity |].
  apply (analyze_code_deletes_after_fetch
           (remote (Statuses 200 200 202 200 404 200 403)) sonar sample_code
           "main.py" "/tmp/tmpq1w2e3r4" []
           (snd (prepare (remote (Statuses 200 200 202 200 404 200 403)) sonar
                   sample_code "main.py" []))).
  - vm_compute. reflexivity.
  - vm_compute. reflexivity.
Defined.

(** ** Failures of the three reads *)

(** C4, as the claim states it, refuted: with every other request
    answered, a hotspots request that raises, and likewise a metrics
    request that raises, turns the whole call into the error shape, though
    the issues were fetched. *)
Lemma analyze_code_fetch_raise_is_fatal :
  let key := SonarCloudAnalyzer.project_key_of (remote_down "") in
  let run (path : string) :=
    SonarCloudAnalyzer.analyze_code (remote_down path) sonar sample_code "main.py" [] in
  let issues (path : string) :=
    SonarCloudAnalyzer._get_issues (remote_down path) sonar key
      (snd (prepare (remote_down path) sonar sample_code "main.py" [])) in
  let hotspots (path : string) :=
    SonarCloudAnalyzer._get_security_hotspots (remote_down path) sonar key
      (snd (issues path)) in
  let failed :=
    ErrorObj (metrics := sonar_metrics) "SonarCloud analysis failed"
      (Some "Connection reset by peer") in
  (fst (issues "/hotspots/search") = Ok sample_issues
   /\ http (remote_down "/hotspots/search") (snd (issues "/hotspots/search"))
        (SonarCloudAnalyzer.hotspots_request sonar key)
      = RequestRaises (PyExn "ConnectionError" "Connection reset by peer")
   /\ fst (run "/hotspots/search") = Ok failed)
  /\ (fst (issues "/measures/component") = Ok sample_issues
      /\ fst (hotspots "/measures/component") = Ok sample_hotspots
      /\ http (remote_down "/measures/component")
           (snd (hotspots "/measures/component"))
           (SonarCloudAnalyzer.metrics_request sonar key)
         = RequestRaises (PyExn "ConnectionError" "Connection reset by peer")
      /\ fst (run "/measures/component") = Ok failed)
  /\ success_shaped failed = false.
Proof.
  cbv zeta. repeat split; vm_compute; reflexivity.
Qed.

(** C4, amended: once the steps before the reads have returned,
    - an issues fetch that raises (the service answers it with a status
      other than 200, or the request itself fails) turns the whole call
      into the error shape;
    - a hotspots fetch answered with a status other than 200 counts as an
      empty list: the call returns the success shape formatted from the
      issues and the metrics, and its findings are those derived from the
      issues;
    - a metrics fetch answered with a status other than 200 counts as an
      empty map: the call returns the success shape with the findings of
      the issues and the hotspots and the metrics of an empty map;
    - a hotspots fetch or a metrics fetch that raises turns the whole call
      into the error shape, with the text of the exception as message; no
      later request is made, the project is not deleted;
    - they raise when the request itself fails, and when the body of an
      answer with status 200 cannot be decoded. *)
Theorem analyze_code_fetch_failures :
  (forall (E : env) (s : SonarCloudAnalyzer.self) (code filename dir : string)
          (tr0 tr3 tr4 : list event) (e : exn),
      prepare E s code filename tr0 = (Ok dir, tr3) ->
      SonarCloudAnalyzer._get_issues E s (SonarCloudAnalyzer.project_key_of E) tr3
      = (Raise e, tr4) ->
      exists r tr',
        SonarCloudAnalyzer.analyze_code E s code filename tr0 = (Ok r, tr')
        /\ error_shaped r = true)
  /\ (forall (E : env) (s : SonarCloudAnalyzer.self) (code filename dir : string)
             (tr0 tr3 : list event) (st : Z) (body : string),
         prepare E s code filename tr0 = (Ok dir, tr3) ->
         http E tr3 (SonarCloudAnalyzer.issues_request s
                       (SonarCloudAnalyzer.project_key_of E))
         = Response st body ->
         st <> 200 ->
         SonarCloudAnalyzer.analyze_code E s code filename tr0
         = (Ok (ErrorObj "SonarCloud analysis failed"
                  (Some ("Failed to get issues: " +:+ body))),
            tr3 ++ [EvHttp (SonarCloudAnalyzer.issues_request s
                              (SonarCloudAnalyzer.project_key_of E));
                    EvCleanup dir]))
  /\ (forall (E : env) (s : SonarCloudAnalyzer.self) (code filename dir : string)
             (tr0 tr3 tr4 tr6 : list event) (i : pyval) (m : gmap string pyval)
             (st st' : Z) (body body' : string) (r : analysis sonar_metrics),
         let key := SonarCloudAnalyzer.project_key_of E in
         prepare E s code filename tr0 = (Ok dir, tr3) ->
         SonarCloudAnalyzer._get_issues E s key tr3 = (Ok i, tr4) ->
         http E tr4 (SonarCloudAnalyzer.hotspots_request s key) = Response st body ->
         st <> 200 ->
         SonarCloudAnalyzer._get_metrics E s key
           (tr4 ++ [EvHttp (SonarCloudAnalyzer.hotspots_request s key)])
         = (Ok m, tr6) ->
         http E tr6 (SonarCloudAnalyzer.delete_request s key) = Response st' body' ->
         SonarCloudAnalyzer._format_results E i (PList []) m = Ok r ->
         SonarCloudAnalyzer.analyze_code E s code filename tr0
         = (Ok r, tr6 ++ [deletion E s; EvCleanup dir])
         /\ success_shaped r = true
         /\ exists il,
              py_iter i = Ok il
              /\ traverse SonarCloudAnalyzer.format_issue il = Ok (issues_of r))
  /\ (forall (E : env) (s : SonarCloudAnalyzer.self) (code filename dir : string)
             (tr0 tr3 tr4 tr5 : list event) (i h : pyval)
             (st st' : Z) (body body' zero : string) (fs : list finding),
         let key := SonarCloudAnalyzer.project_key_of E in
         let tr6 := tr5 ++ [EvHttp (SonarCloudAnalyzer.metrics_request s key)] in
         prepare E s code filename tr0 = (Ok dir, tr3) ->
         SonarCloudAnalyzer._get_issues E s key tr3 = (Ok i, tr4) ->
         SonarCloudAnalyzer._get_security_hotspots E s key tr4 = (Ok h, tr5) ->
         http E tr5 (SonarCloudAnalyzer.metrics_request s key) = Response st body ->
         st <> 200 ->
         http E tr6 (SonarCloudAnalyzer.delete_request s key) = Response st' body' ->
         SonarCloudAnalyzer.format_issues E i h = Ok fs ->
         float_of_int E 0 = Ok zero ->
         SonarCloudAnalyzer.analyze_code E s code filename tr0
         = (Ok (Success fs (SonarMetrics 0 0 0 0 0 0 zero None)
                  "No code detected for analysis."),
            tr6 ++ [deletion E s; EvCleanup dir]))
  /\ (forall (E : env) (s : SonarCloudAnalyzer.self) (code filename dir : string)
             (tr0 tr3 tr4 tr5 : list event) (i : pyval) (e : exn),
         let key := SonarCloudAnalyzer.project_key_of E in
         prepare E s code filename tr0 = (Ok dir, tr3) ->
         SonarCloudAnalyzer._get_issues E s key tr3 = (Ok i, tr4) ->
         SonarCloudAnalyzer._get_security_hotspots E s key tr4 = (Raise e, tr5) ->
         SonarCloudAnalyzer.analyze_code E s code filename tr0
         = (Ok (ErrorObj "SonarCloud analysis failed" (Some (exn_str e))),
            tr5 ++ [EvCleanup dir]))
  /\ (forall (E : env) (s : SonarCloudAnalyzer.self) (code filename dir : string)
             (tr0 tr3 tr4 tr5 tr6 : list event) (i h : pyval) (e : exn),
         let key := SonarCloudAnalyzer.project_key_of E in
         prepare E s code filename tr0 = (Ok dir, tr3) ->
         SonarCloudAnalyzer._get_issues E s key tr3 = (Ok i, tr4) ->
         SonarCloudAnalyzer._get_security_hotspots E s key tr4 = (Ok h, tr5) ->
         SonarCloudAnalyzer._get_metrics E s key tr5 = (Raise e, tr6) ->
         SonarCloudAnalyzer.analyze_code E s code filename tr0
         = (Ok (ErrorObj "SonarCloud analysis failed" (Some (exn_str e))),
            tr6 ++ [EvCleanup dir]))
  /\ (forall (E : env) (s : SonarCloudAnalyzer.self) (project_key : string)
             (tr : list event) (e : exn),
         let hotspots := SonarCloudAnalyzer.hotspots_request s project_key in
         let metrics := SonarCloudAnalyzer.metrics_request s project_key in
         (http E tr hotspots = RequestRaises e ->
          SonarCloudAnalyzer._get_security_hotspots E s project_key tr
          = (Raise e, tr ++ [EvHttp hotspots]))
         /\ (forall body,
                http E tr hotspots = Response 200 body ->
                json_loads E body = Raise e ->
                SonarCloudAnalyzer._get_security_hotspots E s project_key tr
                = (Raise e, tr ++ [EvHttp hotspots]))
         /\ (http E tr metrics = RequestRaises e ->
             SonarCloudAnalyzer._get_metrics E s project_key tr
             = (Raise e, tr ++ [EvHttp metrics]))
         /\ (forall body,
                http E tr metrics = Response 200 body ->
                json_loads E body = Raise e ->
                SonarCloudAnalyzer._get_metrics E s project_key tr
                = (Raise e, tr ++ [EvHttp metrics]))).
Proof.
  split; [| split; [| split; [| split; [| split; [| split]]]]].
  - intros E s code filename dir tr0 tr3 tr4 e Hprep Hissues.
    do 2 eexists. split.
    + apply (analyze_code_fetch_raises E s code filename dir tr0 tr3 tr4 e Hprep).
      unfold fetch. apply bind_raise. exact Hissues.
    + reflexivity.
  - intros E s code filename dir tr0 tr3 st body Hprep Hhttp Hst.
    rewrite (analyze_code_fetch_raises E s code filename dir tr0 tr3 _ _ Hprep
               (bind_raise _ _ _ _ _ (get_issues_refused E s tr3 st body Hhttp Hst))).
    rewrite <- app_assoc. reflexivity.
  - intros E s code filename dir tr0 tr3 tr4 tr6 i m st st' body body' r key
      Hprep Hissues Hhot Hst Hmetrics Hdel Hformat.
    assert (Hfetch : fetch E s tr3 = (Ok (i, PList [], m), tr6)).
    { unfold fetch. fold key.
      rewrite (bind_ok _ _ _ _ _ Hissues).
      rewrite (bind_ok _ _ _ _ _ (get_security_hotspots_refused E s tr4 st body Hhot Hst)).
      rewrite (bind_ok _ _ _ _ _ Hmetrics). reflexivity. }
    rewrite (analyze_code_after_fetch E s code filename dir tr0 tr3 tr6 _ _ _ Hprep Hfetch).
    fold key. rewrite Hdel, Hformat. split; [reflexivity |].
    apply (format_results_no_hotspots E i m r Hformat).
  - intros E s code filename dir tr0 tr3 tr4 tr5 i h st st' body body' zero fs key tr6
      Hprep Hissues Hhot Hhttp Hst Hdel Hfs Hzero.
    assert (Hfetch : fetch E s tr3 = (Ok (i, h, ∅), tr6)).
    { unfold fetch. fold key.
      rewrite (bind_ok _ _ _ _ _ Hissues), (bind_ok _ _ _ _ _ Hhot).
      rewrite (bind_ok _ _ _ _ _ (get_metrics_refused E s tr5 st body Hhttp Hst)).
      reflexivity. }
    rewrite (analyze_code_after_fetch E s code filename dir tr0 tr3 tr6 _ _ _ Hprep Hfetch).
    fold key. rewrite Hdel, (format_results_no_metrics E i h fs zero Hfs Hzero).
    reflexivity.
  - intros E s code filename dir tr0 tr3 tr4 tr5 i e key Hprep Hissues Hhot.
    apply (analyze_code_fetch_raises E s code filename dir tr0 tr3 tr5 e Hprep).
    unfold fetch. fold key.
    rewrite (bind_ok _ _ _ _ _ Hissues). apply bind_raise. exact Hhot.
  - intros E s code filename dir tr0 tr3 tr4 tr5 tr6 i h e key
      Hprep Hissues Hhot Hmetrics.
    apply (analyze_code_fetch_raises E s code filename dir tr0 tr3 tr6 e Hprep).
    unfold fetch. fold key.
    rewrite (bind_ok _ _ _ _ _ Hissues), (bind_ok _ _ _ _ _ Hhot).
    apply bind_raise. exact Hmetrics.
  - intros E s project_key tr e hotspots metrics.
    split; [| split; [| split]].
    + intros Hhttp. unfold SonarCloudAnalyzer._get_security_hotspots.
      apply bind_raise. unfold send. fold hotspots. rewrite Hhttp. reflexivity.
    + intros body Hhttp Hjson. unfold SonarCloudAnalyzer._get_security_hotspots.
      fold hotspots.
      rewrite (bind_ok _ _ _ _ _ (send_response E hotspots tr 200 body Hhttp)).
      cbn [status_code text]. change (200 =? 200) with true. cbv iota.
      unfold lift, SonarCloudAnalyzer.json_get. cbn [text]. rewrite Hjson.
      reflexivity.
    + intros Hhttp. unfold SonarCloudAnalyzer._get_metrics.
      apply bind_raise. unfold send. fold metrics. rewrite Hhttp. reflexivity.
    + intros body Hhttp Hjson. unfold SonarCloudAnalyzer._get_metrics.
      fold metrics.
      rewrite (bind_ok _ _ _ _ _ (send_response E metrics tr 200 body Hhttp)).
      cbn [status_code text]. change (200 =? 200) with true. cbv iota.
      unfold lift, SonarCloudAnalyzer.json_get. cbn [text]. rewrite Hjson.
      reflexivity.
Qed.

(** The failures on the sample service: issues refused with 500,
    hotspots with 404, metrics with 503, and a hotspots request that
    raises. *)
Lemma analyze_code_fetch_failures_witness :
  let run (st : statuses) :=
    SonarCloudAnalyzer.analyze_code (remote st) sonar sample_code "main.py" [] in
  (exists r tr',
      run (Statuses 200 200 202 500 200 200 204) = (Ok r, tr')
      /\ error_shaped r = true)
  /\ fst (run (Statuses 200 200 202 500 200 200 204))
     = Ok (ErrorObj "SonarCloud analysis failed"
             (Some "Failed to get issues: issues page"))
  /\ (exists r,
         fst (run (Statuses 200 200 202 200 404 200 204)) = Ok r
         /\ success_shaped r = true
         /\ traverse SonarCloudAnalyzer.format_issue [unused_import; division_by_zero]
            = Ok (issues_of r))
  /\ (exists fs,
         fst (run (Statuses 200 200 202 200 200 503 204))
         = Ok (Success fs (SonarMetrics 0 0 0 0 0 0 "0.0" None)
                 "No code detected for analysis.")
         /\ length fs = 3%nat)
  /\ fst (SonarCloudAnalyzer.analyze_code (remote_down "/hotspots/search") sonar
            sample_code "main.py" [])
     = Ok (ErrorObj "SonarCloud analysis failed" (Some "Connection reset by peer")).
Proof.
  cbv zeta.
  destruct analyze_code_fetch_failures
    as (Hraise & Hissues & Hhotspots & Hmetrics & Hhotraise & _ & _).
  split; [| split; [| split; [| split]]].
  - set (E := remote (Statuses 200 200 202 500 200 200 204)).
    apply (Hraise E sonar sample_code "main.py" "/tmp/tmpq1w2e3r4" []
             (snd (prepare E sonar sample_code "main.py" []))
             (snd (SonarCloudAnalyzer._get_issues E sonar
                     (SonarCloudAnalyzer.project_key_of E)
                     (snd (prepare E sonar sample_code "main.py" []))))
             (SonarCloudAnalyzer.exception "Failed to get issues: issues page")).
    + vm_compute. reflexivity.
    + vm_compute. reflexivity.
  - set (E := remote (Statuses 200 200 202 500 200 200 204)).
    rewrite (Hissues E sonar sample_code "main.py" "/tmp/tmpq1w2e3r4" []
               (snd (prepare E sonar sample_code "main.py" []))
               500 "issues page").
    + reflexivity.
    + vm_compute. reflexivity.
    + vm_compute. reflexivity.
    + discriminate.
  - set (E := remote (Statuses 200 200 202 200 404 200 204)).
    set (tr3 := snd (prepare E sonar sample_code "main.py" [])).
    set (tr4 := snd (SonarCloudAnalyzer._get_issues E sonar
                       (SonarCloudAnalyzer.project_key_of E) tr3)).
    set (tr6 := snd (SonarCloudAnalyzer._get_metrics E sonar
                       (SonarCloudAnalyzer.project_key_of E)
                       (tr4 ++ [EvHttp (SonarCloudAnalyzer.hotspots_request sonar
                                          (SonarCloudAnalyzer.project_key_of E))]))).
    destruct (SonarCloudAnalyzer._format_results E sample_issues (PList [])
                sample_metrics) as [r | e] eqn:Hformat;
      [| vm_compute in Hformat; discriminate Hformat].
    destruct (Hhotspots E sonar sample_code "main.py" "/tmp/tmpq1w2e3r4" []
                tr3 tr4 tr6 sample_issues sample_metrics 404 204
                "hotspots page" "deleted" r) as (Hrun & Hshape & il & Hil & Hfs).
    + vm_compute. reflexivity.
    + vm_compute. reflexivity.
    + vm_compute. reflexivity.
    + discriminate.
    + vm_compute. reflexivity.
    + vm_compute. reflexivity.
    + exact Hformat.
    + exists r. rewrite Hrun. split; [reflexivity |]. split; [exact Hshape |].
      injection Hil as <-. exact Hfs.
  - set (E := remote (Statuses 200 200 202 200 200 503 204)).
    set (tr3 := snd (prepare E sonar sample_code "main.py" [])).
    set (tr4 := snd (SonarCloudAnalyzer._get_issues E sonar
                       (SonarCloudAnalyzer.project_key_of E) tr3)).
    set (tr5 := snd (SonarCloudAnalyzer._get_security_hotspots E sonar
                       (SonarCloudAnalyzer.project_key_of E) tr4)).
    destruct (SonarCloudAnalyzer.format_issues E sample_issues sample_hotspots)
      as [fs | e] eqn:Hfs; [| vm_compute in Hfs; discriminate Hfs].
    exists fs.
    rewrite (Hmetrics E sonar sample_code "main.py" "/tmp/tmpq1w2e3r4" []
               tr3 tr4 tr5 sample_issues sample_hotspots 503 204
               "measures" "deleted" "0.0" fs).
    + split; [reflexivity |]. vm_compute in Hfs. injection Hfs as <-. reflexivity.
    + vm_compute. reflexivity.
    + vm_compute. reflexivity.
    + vm_compute. reflexivity.
    + vm_compute. reflexivity.
    + discriminate.
    + vm_compute. reflexivity.
    + exact Hfs.
    + reflexivity.
  - set (E := remote_down "/hotspots/search").
    set (tr3 := snd (prepare E sonar sample_code "main.py" [])).
    set (tr4 := snd (SonarCloudAnalyzer._get_issues E sonar
                       (SonarCloudAnalyzer.project_key_of E) tr3)).
    set (tr5 := snd (SonarCloudAnalyzer._get_security_hotspots E sonar
                       (SonarCloudAnalyzer.project_key_of E) tr4)).
    rewrite (Hhotraise E sonar sample_code "main.py" "/tmp/tmpq1w2e3r4" []
               tr3 tr4 tr5 sample_issues
               (PyExn "ConnectionError" "Connection reset by peer")).
    + reflexivity.
    + vm_compute. reflexivity.
    + vm_compute. reflexivity.
    + vm_compute. reflexivity.
Defined.

(** ** Normalization of the remote results *)

Section Normalization.

Import SonarCloudAnalyzer.

Variable E : env.

Lemma format_issue_dict (d : list (string * pyval)) :
  textual d "severity" -> textual d "type" ->
  exists f, format_issue (PDict d) = Ok f /\ issue_normalized d f.
Proof.
  unfold textual, format_issue, issue_normalized. intros Hsev Htype. simpl.
  destruct (assoc_get "severity" d) as [[| | | | sv | |] |] eqn:Hs; try contradiction;
    destruct (assoc_get "type" d) as [[| | | | t | |] |] eqn:Ht; try contradiction;
    simpl; eexists; (split; [reflexivity |]); simpl;
    repeat split; intros; congruence.
Qed.

Lemma format_hotspot_dict (d : list (string * pyval)) :
  exists f, format_hotspot E (PDict d) = Ok f /\ hotspot_normalized d f.
Proof.
  unfold format_hotspot, hotspot_normalized. simpl.
  eexists. split; [reflexivity |]. simpl.
  repeat split.
  - intros msg Hmsg. rewrite Hmsg. reflexivity.
  - intros k Hk. rewrite Hk. reflexivity.
Qed.

Lemma traverse_dicts (format : pyval -> res finding)
    (ok : list (string * pyval) -> Prop)
    (normalized : list (string * pyval) -> finding -> Prop)
    (raw : list (list (string * pyval))) :
  (forall d, ok d -> exists f, format (PDict d) = Ok f /\ normalized d f) ->
  Forall ok raw ->
  exists fs, traverse format (map PDict raw) = Ok fs /\ Forall2 normalized raw fs.
Proof.
  intros Hformat Hraw.
  induction Hraw as [| d raw Hd _ (fs & Hfs & Hall)].
  - exists []. split; [reflexivity | constructor].
  - destruct (Hformat d Hd) as (f & Hf & Hn).
    exists (f :: fs). simpl. rewrite Hf, Hfs. split; [reflexivity |].
    constructor; assumption.
Qed.

End Normalization.

(** C7: for every list of raw issues (dicts whose type and severity, when
    reported, are strings) and every list of raw hotspots, the formatted
    list is the findings of the issues, in order, followed by the findings
    of the hotspots, in order; an issue gives a finding with its type in
    lower case ([code_smell] when it reports none) and its severity in
    lower case, a hotspot a finding with severity warning, type security,
    its message after [Security hotspot: ] and its rule key as rule. *)
Theorem format_issues_normalizes (E : env)
    (issues hotspots : list (list (string * pyval))) :
  Forall (fun d => textual d "severity" /\ textual d "type") issues ->
  exists from_issues from_hotspots,
    SonarCloudAnalyzer.format_issues E (PList (map PDict issues))
      (PList (map PDict hotspots))
    = Ok (from_issues ++ from_hotspots)
    /\ Forall2 issue_normalized issues from_issues
    /\ Forall2 hotspot_normalized hotspots from_hotspots.
Proof.
  intros Hissues.
  destruct (traverse_dicts SonarCloudAnalyzer.format_issue
              (fun d => textual d "severity" /\ textual d "type")
              issue_normalized issues) as (fi & Hfi & Hni).
  { intros d [Hs Ht]. apply format_issue_dict; assumption. }
  { exact Hissues. }
  destruct (traverse_dicts (SonarCloudAnalyzer.format_hotspot E)
              (fun _ => True) hotspot_normalized hotspots) as (fh & Hfh & Hnh).
  { intros d _. apply format_hotspot_dict. }
  { apply Forall_forall. intros; exact I. }
  exists fi, fh. unfold SonarCloudAnalyzer.format_issues. simpl.
  rewrite Hfi. simpl. rewrite Hfh. simpl. repeat split; assumption.
Qed.

Lemma format_issues_normalizes_witness :
  Forall (fun d => textual d "severity" /\ textual d "type")
    [unused_import_fields; division_by_zero_fields]
  /\ exists from_issues from_hotspots,
       SonarCloudAnalyzer.format_issues offline
         (PList (map PDict [unused_import_fields; division_by_zero_fields]))
         (PList (map PDict [hard_coded_password_fields]))
       = Ok (from_issues ++ from_hotspots)
       /\ Forall2 issue_normalized
            [unused_import_fields; division_by_zero_fields] from_issues
       /\ Forall2 hotspot_normalized [hard_coded_password_fields] from_hotspots.
Proof.
  assert (H : Forall (fun d => textual d "severity" /\ textual d "type")
                [unused_import_fields; division_by_zero_fields]).
  { repeat constructor. }
  split; [exact H |].
  exact (format_issues_normalizes offline
           [unused_import_fields; division_by_zero_fields]
           [hard_coded_password_fields] H).
Defined.

(** ** The summary of the remote analysis *)

Lemma bug_phrase_in_words (n : Z) :
  (if 0 <? n then [SonarCloudAnalyzer.bug_phrase n] else []) = bugs_in_words n.
Proof.
  unfold bugs_in_words, SonarCloudAnalyzer.bug_phrase.
  destruct (Z.eqb_spec n 1) as [-> | Hne]; [reflexivity |].
  destruct (Z.ltb_spec 1 n), (Z.ltb_spec 0 n); try lia; reflexivity.
Qed.

Lemma vulnerability_phrase_in_words (n : Z) :
  (if 0 <? n then [SonarCloudAnalyzer.vulnerability_phrase n] else [])
  = vulnerabilities_in_words n.
Proof.
  unfold vulnerabilities_in_words, SonarCloudAnalyzer.vulnerability_phrase.
  destruct (Z.eqb_spec n 1) as [-> | Hne]; [reflexivity |].
  destruct (Z.ltb_spec 1 n), (Z.ltb_spec 0 n); try lia; reflexivity.
Qed.

(** C8: when the lines-of-code metric is 0 the summary is
    [No code detected for analysis.], whatever the other metrics are (they
    are not even read); otherwise the phrases collected start with the
    phrase of the bugs ([1 potential bug], [<n> potential bugs] for n > 1,
    none for n <= 0), then that of the vulnerabilities
    ([1 security issue], [<n> securities issues] for n > 1, none for
    n <= 0), and the summary is made of the phrases collected. *)
Theorem generate_summary_phrases (E : env) (issues : list finding)
    (metrics : gmap string pyval) :
  (py_int E (SonarCloudAnalyzer.metric metrics "ncloc") = Ok 0 ->
   SonarCloudAnalyzer._generate_summary E issues metrics
   = Ok "No code detected for analysis.")
  /\ (forall (loc bugs vulnerabilities code_smells : Z) (duplication : string),
        py_int E (SonarCloudAnalyzer.metric metrics "ncloc") = Ok loc ->
        loc <> 0 ->
        py_int E (SonarCloudAnalyzer.metric metrics "bugs") = Ok bugs ->
        py_int E (SonarCloudAnalyzer.metric metrics "vulnerabilities")
        = Ok vulnerabilities ->
        py_int E (SonarCloudAnalyzer.metric metrics "code_smells") = Ok code_smells ->
        py_float E (SonarCloudAnalyzer.metric metrics "duplicated_lines_density")
        = Ok duplication ->
        exists others,
          let phrases :=
            bugs_in_words bugs ++ vulnerabilities_in_words vulnerabilities ++ others in
          SonarCloudAnalyzer._generate_summary E issues metrics
          = Ok (match phrases with
                | [] => "No significant issues found in " +:+ str_of_Z loc
                        +:+ " lines of code. Good job!"
                | _ => "Found " +:+ join ", " phrases +:+ " in " +:+ str_of_Z loc
                       +:+ " lines of code."
                end)).
Proof.
  split.
  - intros Hloc. unfold SonarCloudAnalyzer._generate_summary.
    rewrite Hloc. reflexivity.
  - intros loc bugs vulnerabilities code_smells duplication
      Hloc Hnz Hbugs Hvuln Hsmells Hdup.
    unfold SonarCloudAnalyzer._generate_summary.
    rewrite Hloc. simpl.
    destruct (Z.eqb_spec loc 0); [contradiction |].
    rewrite Hbugs, Hvuln, Hsmells, Hdup. simpl.
    unfold SonarCloudAnalyzer.quality_issues.
    rewrite bug_phrase_in_words, vulnerability_phrase_in_words.
    exists ((if 0 <? code_smells
             then [SonarCloudAnalyzer.smell_phrase code_smells] else [])
            ++ (if float_gt E duplication 10
                then [SonarCloudAnalyzer.duplication_phrase E duplication] else [])).
    cbv zeta.
    destruct (bugs_in_words bugs ++ vulnerabilities_in_words vulnerabilities ++ _);
      reflexivity.
Qed.

(** One bug, no vulnerability, one code smell in twelve lines. *)
Lemma generate_summary_phrases_witness :
  SonarCloudAnalyzer._generate_summary offline [] (<["ncloc" := PStr "0"]> sample_metrics)
  = Ok "No code detected for analysis."
  /\ exists others,
       SonarCloudAnalyzer._generate_summary offline [] sample_metrics
       = Ok (match bugs_in_words 1 ++ vulnerabilities_in_words 0 ++ others with
             | [] => "No significant issues found in " +:+ str_of_Z 12
                     +:+ " lines of code. Good job!"
             | phrases => "Found " +:+ join ", " phrases +:+ " in " +:+ str_of_Z 12
                          +:+ " lines of code."
             end).
Proof.
  split.
  - apply (proj1 (generate_summary_phrases offline []
                    (<["ncloc" := PStr "0"]> sample_metrics))).
    vm_compute. reflexivity.
  - apply (proj2 (generate_summary_phrases offline [] sample_metrics)
             12 1 0 1 "0.0");
      solve [vm_compute; reflexivity | discriminate].
Defined.

Example generate_summary_sample :
  SonarCloudAnalyzer._generate_summary offline [] sample_metrics
  = Ok "Found 1 potential bug, 1 code smell in 12 lines of code.".
Proof. vm_compute. reflexivity. Qed.

(** ** One page of issues, one page of hotspots *)

Section Pages.

Import SonarCloudAnalyzer.

Variable E : env.
Variable s : self.

Let key := project_key_of E.

Lemma traverse_length {A B : Type} (f : A -> res B) (l : list A) (ys : list B) :
  traverse f l = Ok ys -> length ys = length l.
Proof.
  revert ys. induction l as [| x l IH]; intros ys H; simpl in H.
  - injection H as <-. reflexivity.
  - destruct (f x); [| discriminate].
    destruct (traverse f l) as [zs |]; [| discriminate].
    injection H as <-. simpl. f_equal. apply IH. reflexivity.
Qed.

(** A success-shaped result comes out of a call in which every step
    returned. *)
Lemma analyze_code_success_inv (code filename : string) (tr0 tr' : list event)
    (fs : list finding) (mt : sonar_metrics) (sm : string) :
  analyze_code E s code filename tr0 = (Ok (Success fs mt sm), tr') ->
  exists dir tr3 tr6 i h m,
    prepare E s code filename tr0 = (Ok dir, tr3)
    /\ fetch E s tr3 = (Ok (i, h, m), tr6)
    /\ _format_results E i h m = Ok (Success fs mt sm)
    /\ tr' = tr6 ++ [deletion E s; EvCleanup dir].
Proof.
  unfold analyze_code, try_except. fold key.
  destruct (bind _ _ tr0) as [[r | e] tr] eqn:Hrun; intros H; [| discriminate].
  injection H as -> ->.
  apply bind_ok_inv in Hrun as (u1 & t1 & Hcreate & Hrun).
  apply bind_ok_inv in Hrun as (dir & t2 & Hdir & Hrun).
  unfold finally in Hrun.
  destruct (analyze_in E s code filename key dir t2) as [r t9] eqn:Hin.
  unfold emit in Hrun. injection Hrun as -> <-.
  unfold analyze_in in Hin.
  apply bind_ok_inv in Hin as (u2 & t3 & Hwrite & Hin).
  apply bind_ok_inv in Hin as (u3 & t4 & Hscan & Hin).
  apply bind_ok_inv in Hin as (u4 & t5 & Hsleep & Hin).
  apply bind_ok_inv in Hin as (i & t6 & Hissues & Hin).
  apply bind_ok_inv in Hin as (h & t7 & Hhotspots & Hin).
  apply bind_ok_inv in Hin as (m & t8 & Hmetrics & Hin).
  apply bind_ok_inv in Hin as (u5 & t8' & Hdelete & Hin).
  unfold lift in Hin. injection Hin as Hformat ->.
  unfold _delete_project in Hdelete.
  apply bind_ok_inv in Hdelete as (rsp & t8'' & Hsend & Hdelete).
  apply send_ok_inv in Hsend as [_ ->].
  unfold ret in Hdelete. injection Hdelete as _ <-.
  exists dir, t5, t8, i, h, m.
  split; [| split; [| split]].
  - unfold prepare. fold key.
    rewrite (bind_ok _ _ _ _ _ Hcreate), (bind_ok _ _ _ _ _ Hdir),
      (bind_ok _ _ _ _ _ Hwrite), (bind_ok _ _ _ _ _ Hscan),
      (bind_ok _ _ _ _ _ Hsleep).
    reflexivity.
  - unfold fetch. fold key.
    rewrite (bind_ok _ _ _ _ _ Hissues), (bind_ok _ _ _ _ _ Hhotspots),
      (bind_ok _ _ _ _ _ Hmetrics). reflexivity.
  - exact Hformat.
  - unfold deletion. fold key. rewrite <- app_assoc. reflexivity.
Qed.

(** What a read that returned was answered. *)
Lemma get_issues_inv (tr tr' : list event) (i : pyval) :
  _get_issues E s key tr = (Ok i, tr') ->
  tr' = tr ++ [EvHttp (issues_request s key)]
  /\ exists body d,
       http E tr (issues_request s key) = Response 200 body
       /\ json_loads E body = Ok (PDict d)
       /\ i = default (PList []) (assoc_get "issues" d).
Proof.
  unfold _get_issues. intros H.
  apply bind_ok_inv in H as (a & t & Hsend & H).
  apply send_ok_inv in Hsend as [Hhttp ->].
  destruct a as [st body]. simpl in *.
  destruct (Z.eqb_spec st 200) as [-> |]; [| discriminate].
  unfold lift, json_get in H. simpl in H.
  destruct (json_loads E body) as [j |] eqn:Hj; [| discriminate].
  destruct j; try discriminate. simpl in H.
  injection H as <- <-. split; [reflexivity |].
  exists body, d. repeat split; assumption.
Qed.

Lemma get_security_hotspots_inv (tr tr' : list event) (h : pyval) :
  _get_security_hotspots E s key tr = (Ok h, tr') ->
  tr' = tr ++ [EvHttp (hotspots_request s key)]
  /\ (h = PList []
      \/ exists body d,
           http E tr (hotspots_request s key) = Response 200 body
           /\ json_loads E body = Ok (PDict d)
           /\ h = default (PList []) (assoc_get "hotspots" d)).
Proof.
  unfold _get_security_hotspots. intros H.
  apply bind_ok_inv in H as (a & t & Hsend & H).
  apply send_ok_inv in Hsend as [Hhttp ->].
  destruct a as [st body]. simpl in *.
  destruct (Z.eqb_spec st 200) as [-> |].
  - unfold lift, json_get in H. simpl in H.
    destruct (json_loads E body) as [j |] eqn:Hj; [| discriminate].
    destruct j; try discriminate. simpl in H.
    injection H as <- <-. split; [reflexivity |].
    right. exists body, d. repeat split; assumption.
  - unfold ret in H. injection H as <- <-. split; [reflexivity |]. left. reflexivity.
Qed.

Lemma get_metrics_trace (tr tr' : list event) (r : res (gmap string pyval)) :
  _get_metrics E s key tr = (r, tr') ->
  tr' = tr ++ [EvHttp (metrics_request s key)].
Proof.
  unfold _get_metrics, bind. intros H.
  pose proof (send_trace E (metrics_request s key) tr) as Htr.
  destruct (send E (metrics_request s key) tr) as [[a | e] tr1]; simpl in Htr; subst tr1.
  - destruct (status_code a =? 200); unfold lift, ret in H;
      injection H as _ <-; reflexivity.
  - injection H as _ <-. reflexivity.
Qed.

(** The two loops of a formatting that returned. *)
Lemma format_results_inv (i h : pyval) (m : gmap string pyval)
    (fs : list finding) (mt : sonar_metrics) (sm : string) :
  _format_results E i h m = Ok (Success fs mt sm) ->
  exists il hl fi fh,
    py_iter i = Ok il /\ traverse format_issue il = Ok fi
    /\ py_iter h = Ok hl /\ traverse (format_hotspot E) hl = Ok fh
    /\ fs = fi ++ fh.
Proof.
  unfold _format_results, format_issues. intros H.
  destruct (py_iter i) as [il |] eqn:Hil; [| discriminate]. simpl in H.
  destruct (traverse format_issue il) as [fi |] eqn:Hfi; [| discriminate].
  simpl in H.
  destruct (py_iter h) as [hl |] eqn:Hhl; [| discriminate]. simpl in H.
  destruct (traverse (format_hotspot E) hl) as [fh |] eqn:Hfh; [| discriminate].
  simpl in H.
  destruct (_generate_summary E (fi ++ fh) m); [| discriminate]. simpl in H.
  destruct (format_metrics E m); [| discriminate]. simpl in H.
  injection H as <- _ _.
  exists il, hl, fi, fh. repeat split; first [assumption | reflexivity].
Qed.

(** The items of a field read from an answer to a request for a page of
    100. *)
Lemma page_of_100 (tr : list event) (rq : request) (body field : string)
    (d : list (string * pyval)) (items : list pyval) :
  honours_page_size E rq ->
  In ("ps", PInt 100) (rq_params rq) ->
  http E tr rq = Response 200 body ->
  json_loads E body = Ok (PDict d) ->
  py_iter (default (PList []) (assoc_get field d)) = Ok items ->
  (length items <= 100)%nat.
Proof.
  intros Hpage Hps Hhttp Hjson Hitems.
  destruct (assoc_get field d) as [v |] eqn:Hv; simpl in Hitems.
  - exact (Hpage tr 200 body 100%nat d field v items Hhttp Hps Hjson Hv Hitems).
  - injection Hitems as <-. simpl. lia.
Qed.

End Pages.

(** C10: the issues and the hotspots are each read with one request, for
    one page of 100 ([ps = 100], no page number), and nothing asks for a
    second page.  With a service that keeps to the page size it is asked
    for, every success-shaped result has at most 100 findings derived
    from issues followed by at most 100 derived from hotspots. *)
Theorem analyze_code_one_page_each (E : env) (s : SonarCloudAnalyzer.self)
    (code filename : string) (tr0 tr' : list event)
    (fs : list finding) (mt : sonar_metrics) (sm : string) :
  honours_page_size E
    (SonarCloudAnalyzer.issues_request s (SonarCloudAnalyzer.project_key_of E)) ->
  honours_page_size E
    (SonarCloudAnalyzer.hotspots_request s (SonarCloudAnalyzer.project_key_of E)) ->
  SonarCloudAnalyzer.analyze_code E s code filename tr0
  = (Ok (Success fs mt sm), tr') ->
  let key := SonarCloudAnalyzer.project_key_of E in
  exists dir tr3 issues hotspots from_issues from_hotspots,
    prepare E s code filename tr0 = (Ok dir, tr3)
    /\ tr' = tr3 ++ [EvHttp (SonarCloudAnalyzer.issues_request s key);
                     EvHttp (SonarCloudAnalyzer.hotspots_request s key);
                     EvHttp (SonarCloudAnalyzer.metrics_request s key);
                     deletion E s; EvCleanup dir]
    /\ rq_params (SonarCloudAnalyzer.issues_request s key)
       = [("componentKeys", PStr key); ("ps", PInt 100)]
    /\ rq_params (SonarCloudAnalyzer.hotspots_request s key)
       = [("projectKey", PStr key); ("ps", PInt 100)]
    /\ traverse SonarCloudAnalyzer.format_issue issues = Ok from_issues
    /\ traverse (SonarCloudAnalyzer.format_hotspot E) hotspots = Ok from_hotspots
    /\ fs = from_issues ++ from_hotspots
    /\ (length from_issues <= 100)%nat
    /\ (length from_hotspots <= 100)%nat.
Proof.
  intros Hpage Hpage' Hrun key.
  apply analyze_code_success_inv in Hrun
    as (dir & tr3 & tr6 & i & h & m & Hprep & Hfetch & Hformat & ->).
  unfold fetch in Hfetch. fold key in Hfetch.
  apply bind_ok_inv in Hfetch as (i' & t4 & Hissues & Hfetch).
  apply bind_ok_inv in Hfetch as (h' & t5 & Hhotspots & Hfetch).
  apply bind_ok_inv in Hfetch as (m' & t6 & Hmetrics & Hfetch).
  injection Hfetch as -> -> -> ->.
  apply get_issues_inv in Hissues as (-> & bi & di & Hhi & Hji & ->).
  apply get_security_hotspots_inv in Hhotspots as (-> & Hh).
  apply get_metrics_trace in Hmetrics as ->.
  apply format_results_inv in Hformat
    as (il & hl & fi & fh & Hil & Hfi & Hhl & Hfh & ->).
  exists dir, tr3, il, hl, fi, fh.
  split; [exact Hprep |]. split; [rewrite <- !app_assoc; reflexivity |].
  split; [reflexivity |]. split; [reflexivity |].
  split; [exact Hfi |]. split; [exact Hfh |]. split; [reflexivity |].
  split.
  - rewrite (traverse_length _ _ _ Hfi).
    apply (page_of_100 E tr3 (SonarCloudAnalyzer.issues_request s key) bi "issues" di il
             Hpage); [right; left; reflexivity | exact Hhi | exact Hji | exact Hil].
  - rewrite (traverse_length _ _ _ Hfh).
    destruct Hh as [-> | (bh & dh & Hhh & Hjh & ->)].
    + injection Hhl as <-. simpl. lia.
    + eapply (page_of_100 E); [exact Hpage' | | exact Hhh | exact Hjh | exact Hhl].
      right. left. reflexivity.
Qed.

Lemma remote_honours_page_size (st : statuses) (rq : request) :
  rq = SonarCloudAnalyzer.issues_request sonar
         (SonarCloudAnalyzer.project_key_of (remote st))
  \/ rq = SonarCloudAnalyzer.hotspots_request sonar
            (SonarCloudAnalyzer.project_key_of (remote st)) ->
  honours_page_size (remote st) rq.
Proof.
  intros Hrq tr st' body n d field v items Hhttp Hps Hjson Hv Hitems.
  assert (Hn : n = 100%nat).
  { destruct Hrq as [-> | ->]; simpl in Hps;
      destruct Hps as [Hps | [Hps | []]]; try discriminate Hps;
      injection Hps as Hps; lia. }
  subst n.
  destruct Hrq as [-> | ->]; vm_compute in Hhttp; injection Hhttp as _ <-;
    vm_compute in Hjson; injection Hjson as <-; simpl in Hv.
  - destruct (String.eqb field "total"); [injection Hv as <-; discriminate Hitems |].
    destruct (String.eqb field "issues"); [| discriminate Hv].
    injection Hv as <-. injection Hitems as <-. simpl. lia.
  - destruct (String.eqb field "hotspots"); [| discriminate Hv].
    injection Hv as <-. injection Hitems as <-. simpl. lia.
Qed.

(** Two issues and one hotspot on the sample service. *)
Lemma analyze_code_one_page_each_witness :
  let E := remote all_fine in
  let key := SonarCloudAnalyzer.project_key_of E in
  let run := SonarCloudAnalyzer.analyze_code E sonar sample_code "main.py" [] in
  honours_page_size E (SonarCloudAnalyzer.issues_request sonar key)
  /\ honours_page_size E (SonarCloudAnalyzer.hotspots_request sonar key)
  /\ success_shaped (collapse (fst run)) = true
  /\ exists fs dir tr3 issues hotspots from_issues from_hotspots,
       prepare E sonar sample_code "main.py" [] = (Ok dir, tr3)
       /\ snd run
          = tr3 ++ [EvHttp (SonarCloudAnalyzer.issues_request sonar key);
                    EvHttp (SonarCloudAnalyzer.hotspots_request sonar key);
                    EvHttp (SonarCloudAnalyzer.metrics_request sonar key);
                    deletion E sonar; EvCleanup dir]
       /\ rq_params (SonarCloudAnalyzer.issues_request sonar key)
          = [("componentKeys", PStr key); ("ps", PInt 100)]
       /\ rq_params (SonarCloudAnalyzer.hotspots_request sonar key)
          = [("projectKey", PStr key); ("ps", PInt 100)]
       /\ traverse SonarCloudAnalyzer.format_issue issues = Ok from_issues
       /\ traverse (SonarCloudAnalyzer.format_hotspot E) hotspots = Ok from_hotspots
       /\ fs = from_issues ++ from_hotspots
       /\ (length from_issues <= 100)%nat
       /\ (length from_hotspots <= 100)%nat.
Proof.
  cbv zeta.
  assert (Hi := remote_honours_page_size all_fine _ (or_introl eq_refl)).
  assert (Hh := remote_honours_page_size all_fine _ (or_intror eq_refl)).
  split; [exact Hi |]. split; [exact Hh |]. split; [vm_compute; reflexivity |].
  destruct (SonarCloudAnalyzer.analyze_code (remote all_fine) sonar sample_code
              "main.py" []) as [[[fs mt sm | err msg] | e] tr'] eqn:Hrun;
    [| vm_compute in Hrun; discriminate Hrun | vm_compute in Hrun; discriminate Hrun].
  exists fs.
  exact (analyze_code_one_page_each (remote all_fine) sonar sample_code "main.py"
           [] tr' fs mt sm Hi Hh Hrun).
Defined.

(** * Further properties *)

Import Protocol.

(** ** The remote adapter never raises *)

Section RemoteBoundary.

Import SonarCloudAnalyzer.

Variable E : env.
Variable s : self.

Let key := project_key_of E.

(** Formatting returns the success shape or raises. *)
Lemma format_results_success (i h : pyval) (m : gmap string pyval)
    (r : analysis sonar_metrics) :
  _format_results E i h m = Ok r -> success_shaped r = true.
Proof.
  unfold _format_results. intros H.
  destruct (format_issues E i h); [| discriminate]. simpl in H.
  destruct (_generate_summary E a m); [| discriminate]. simpl in H.
  destruct (format_metrics E m); [| discriminate]. simpl in H.
  injection H as <-. reflexivity.
Qed.

(** What the block inside [try] returns, it got from the formatting. *)
Lemma analyze_in_ok (code filename dir : string) (tr tr' : list event)
    (r : analysis sonar_metrics) :
  analyze_in E s code filename key dir tr = (Ok r, tr') ->
  success_shaped r = true.
Proof.
  unfold analyze_in. intros Hin.
  apply bind_ok_inv in Hin as (u2 & t3 & _ & Hin).
  apply bind_ok_inv in Hin as (u3 & t4 & _ & Hin).
  apply bind_ok_inv in Hin as (u4 & t5 & _ & Hin).
  apply bind_ok_inv in Hin as (i & t6 & _ & Hin).
  apply bind_ok_inv in Hin as (h & t7 & _ & Hin).
  apply bind_ok_inv in Hin as (m & t8 & _ & Hin).
  apply bind_ok_inv in Hin as (u5 & t9 & _ & Hin).
  unfold lift in Hin. injection Hin as Hformat _.
  exact (format_results_success i h m r Hformat).
Qed.

End RemoteBoundary.

(** X1: [SonarCloudAnalyzer.analyze_code] never raises.  Whatever the
    service, the file system and the decoder do, it returns a dict: the
    success shape, or the error shape whose [error] is
    [SonarCloud analysis failed] and whose [message] is the text of the
    exception. *)
Theorem sonar_analyze_code_returns (E : env) (s : SonarCloudAnalyzer.self)
    (code filename : string) (tr : list event) :
  exists r tr',
    SonarCloudAnalyzer.analyze_code E s code filename tr = (Ok r, tr')
    /\ (success_shaped r = true
        \/ exists msg, r = ErrorObj "SonarCloud analysis failed" (Some msg)).
Proof.
  unfold SonarCloudAnalyzer.analyze_code, try_except.
  destruct (bind _ _ tr) as [[r | e] tr'] eqn:Hrun.
  - exists r, tr'. split; [reflexivity |]. left.
    apply bind_ok_inv in Hrun as (u1 & t1 & _ & Hrun).
    apply bind_ok_inv in Hrun as (dir & t2 & _ & Hrun).
    unfold finally in Hrun.
    destruct (SonarCloudAnalyzer.analyze_in E s code filename
                (SonarCloudAnalyzer.project_key_of E) dir t2) as [x t9] eqn:Hin.
    unfold emit in Hrun. injection Hrun as -> _.
    exact (analyze_in_ok E s code filename dir t2 t9 r Hin).
  - eexists _, tr'. split; [reflexivity |]. right. eexists. reflexivity.
Qed.

(** X2: when the service refuses to create the project (a status other
    than 200 and 201), the call stops there: the result is the error shape
    with [Failed to create project: ] and the body of the answer, and the
    creation is the only thing it did (no temporary directory, no other
    request). *)
Theorem analyze_code_create_refused (E : env) (s : SonarCloudAnalyzer.self)
    (code filename : string) (tr : list event) (st : Z) (body : string) :
  let create :=
    SonarCloudAnalyzer.create_request s (SonarCloudAnalyzer.project_key_of E) in
  http E tr create = Response st body ->
  st <> 200 -> st <> 201 ->
  SonarCloudAnalyzer.analyze_code E s code filename tr
  = (Ok (ErrorObj "SonarCloud analysis failed"
           (Some ("Failed to create project: " +:+ body))),
     tr ++ [EvHttp create]).
Proof.
  intros create Hhttp H200 H201.
  assert (Hcreate :
    SonarCloudAnalyzer._create_project E s (SonarCloudAnalyzer.project_key_of E) tr
    = (Raise (SonarCloudAnalyzer.exception ("Failed to create project: " +:+ body)),
       tr ++ [EvHttp create])).
  { unfold SonarCloudAnalyzer._create_project.
    rewrite (bind_ok _ _ _ _ _ (send_response E _ tr st body Hhttp)).
    unfold SonarCloudAnalyzer.status_in. simpl.
    destruct (Z.eqb_spec st 200); [contradiction |].
    destruct (Z.eqb_spec st 201); [contradiction |].
    reflexivity. }
  unfold SonarCloudAnalyzer.analyze_code, try_except.
  rewrite (bind_raise _ _ _ _ _ Hcreate). reflexivity.
Qed.

Lemma analyze_code_create_refused_witness :
  let E := remote (Statuses 403 200 202 200 200 200 204) in
  let create :=
    SonarCloudAnalyzer.create_request sonar (SonarCloudAnalyzer.project_key_of E) in
  http E [] create = Response 403 "created"
  /\ SonarCloudAnalyzer.analyze_code E sonar sample_code "main.py" []
     = (Ok (ErrorObj "SonarCloud analysis failed"
              (Some "Failed to create project: created")),
        [EvHttp create]).
Proof.
  cbv zeta. split; [reflexivity |].
  apply (analyze_code_create_refused
           (remote (Statuses 403 200 202 200 200 200 204)) sonar sample_code
           "main.py" [] 403 "created"); [reflexivity | discriminate | discriminate].
Defined.

(** ** The order of the requests *)

Section Order.

Lemma requests_of_app (a b : list event) :
  requests_of (a ++ b) = requests_of a ++ requests_of b.
Proof. unfold requests_of. apply omap_app. Qed.

Lemma firstn_prefix {A : Type} (k : nat) (P Q : list A) :
  exists k', firstn k P = firstn k' (P ++ Q).
Proof.
  exists (Nat.min k (length P)).
  rewrite firstn_app.
  replace (Nat.min k (length P) - length P)%nat with O by lia.
  rewrite firstn_O, app_nil_r.
  destruct (Nat.le_ge_cases k (length P)) as [Hle | Hge].
  - rewrite Nat.min_l by exact Hle. reflexivity.
  - rewrite Nat.min_r by exact Hge. rewrite !(firstn_all2 P) by lia. reflexivity.
Qed.

Lemma firstn_past {A : Type} (k : nat) (P Q : list A) :
  P ++ firstn k Q = firstn (length P + k) (P ++ Q).
Proof.
  rewrite firstn_app. rewrite (firstn_all2 P) by lia.
  replace (length P + k - length P)%nat with k by lia. reflexivity.
Qed.

Lemma follows_ret {A : Type} (a : A) : follows (ret a) (fun _ => []).
Proof. intros tr. exists "", []. simpl. rewrite app_nil_r. split; reflexivity. Qed.

Lemma follows_raise {A : Type} (e : exn) : follows (@raise A e) (fun _ => []).
Proof.
  intros tr. exists "", []. simpl. rewrite app_nil_r.
  split; [reflexivity | exists O; reflexivity].
Qed.

Lemma follows_lift_nil {A : Type} (r : res A) : follows (lift r) (fun _ => []).
Proof.
  intros tr. exists "", []. simpl. rewrite app_nil_r. split; [reflexivity |].
  destruct r; simpl; [reflexivity | exists O; reflexivity].
Qed.

Lemma follows_send (E : env) (rq : request) : follows (send E rq) (fun _ => [rq]).
Proof.
  intros tr. exists "", [EvHttp rq]. unfold send.
  destruct (http E tr rq); simpl; (split; [reflexivity |]);
    [reflexivity | exists 1%nat; reflexivity].
Qed.

Lemma follows_sleep (n : Z) : follows (sleep n) (fun _ => []).
Proof. intros tr. exists "", [EvSleep n]. simpl. split; reflexivity. Qed.

Lemma follows_temporary_directory (E : env) :
  follows (temporary_directory E) (fun _ => []).
Proof.
  intros tr. exists "", [EvMkdtemp]. unfold temporary_directory. simpl.
  split; [reflexivity |]. destruct (mkdtemp E tr); simpl;
    [reflexivity | exists O; reflexivity].
Qed.

Lemma follows_write_file (E : env) (path content : string) :
  follows (write_file E path content) (fun _ => []).
Proof.
  intros tr. exists "", [EvWrite path content]. unfold write_file.
  destruct (fs_write E tr path content); simpl; (split; [reflexivity |]);
    [exists O; reflexivity | reflexivity].
Qed.

Lemma follows_read_file (E : env) (path : string) :
  follows (read_file E path) (fun _ => []).
Proof.
  intros tr. exists "", [EvRead path]. unfold read_file. simpl.
  split; [reflexivity |]. destruct (fs_read E tr path); simpl;
    [reflexivity | exists O; reflexivity].
Qed.

(** Sequencing, when the requests of the first part are known. *)
Lemma follows_bind {A B : Type} (m : M A) (f : A -> M B)
    (P : list request) (G : string -> list request) :
  follows m (fun _ => P) ->
  (forall a, follows (f a) G) ->
  follows (bind m f) (fun content => P ++ G content).
Proof.
  intros Hm Hf tr. unfold bind.
  destruct (Hm tr) as (_ & added & Htr & Hreq).
  destruct (m tr) as [[a | e] tr1]; simpl in *; subst tr1.
  - destruct (Hf a (tr ++ added)) as (content & added' & Htr' & Hreq').
    exists content, (added ++ added'). rewrite Htr', app_assoc.
    split; [reflexivity |]. rewrite requests_of_app, Hreq.
    destruct (is_ok (fst (f a (tr ++ added)))).
    + rewrite Hreq'. reflexivity.
    + destruct Hreq' as (k & ->). exists (length P + k)%nat. apply firstn_past.
  - exists "", added. split; [reflexivity |].
    destruct Hreq as (k & ->). apply firstn_prefix.
Qed.

(** Sequencing, when the requests of the second part are known. *)
Lemma follows_bind_then {A B : Type} (m : M A) (f : A -> M B)
    (F : string -> list request) (Q : list request) :
  follows m F ->
  (forall a, follows (f a) (fun _ => Q)) ->
  follows (bind m f) (fun content => F content ++ Q).
Proof.
  intros Hm Hf tr. unfold bind.
  destruct (Hm tr) as (content & added & Htr & Hreq).
  destruct (m tr) as [[a | e] tr1]; simpl in *; subst tr1.
  - destruct (Hf a (tr ++ added)) as (_ & added' & Htr' & Hreq').
    exists content, (added ++ added'). rewrite Htr', app_assoc.
    split; [reflexivity |]. rewrite requests_of_app, Hreq.
    destruct (is_ok (fst (f a (tr ++ added)))).
    + rewrite Hreq'. reflexivity.
    + destruct Hreq' as (k & ->). exists (length (F content) + k)%nat.
      apply firstn_past.
  - exists content, added. split; [reflexivity |].
    destruct Hreq as (k & ->). apply firstn_prefix.
Qed.

(** Sequencing after a step that sends nothing and whose value decides
    the requests that follow. *)
Lemma follows_bind_value {B : Type} (m : M string) (f : string -> M B)
    (G : string -> list request) :
  follows m (fun _ => []) ->
  (forall a, follows (f a) (fun _ => G a)) ->
  follows (bind m f) G.
Proof.
  intros Hm Hf tr. unfold bind.
  destruct (Hm tr) as (_ & added & Htr & Hreq).
  destruct (m tr) as [[a | e] tr1]; simpl in *; subst tr1.
  - destruct (Hf a (tr ++ added)) as (_ & added' & Htr' & Hreq').
    exists a, (added ++ added'). rewrite Htr', app_assoc.
    split; [reflexivity |]. rewrite requests_of_app, Hreq. exact Hreq'.
  - exists "", added. split; [reflexivity |].
    destruct Hreq as (k & ->). exists O. destruct k; reflexivity.
Qed.

Lemma follows_finally {A : Type} (m : M A) (ev : event) (F : string -> list request) :
  requests_of [ev] = [] ->
  follows m F -> follows (finally m (emit ev)) F.
Proof.
  intros Hev Hm tr. unfold finally, emit.
  destruct (Hm tr) as (content & added & Htr & Hreq).
  destruct (m tr) as [r tr1]; simpl in Htr, Hreq |- *; subst tr1.
  exists content, (added ++ [ev]). rewrite app_assoc. split; [reflexivity |].
  rewrite requests_of_app, Hev, app_nil_r. exact Hreq.
Qed.

End Order.

Section RemoteOrder.

Import SonarCloudAnalyzer.
Variable E : env.
Variable s : self.
Let key := project_key_of E.

Lemma follows_create_project : follows (_create_project E s key) (fun _ => [create_request s key]).
Proof.
  unfold _create_project.
  apply (follows_bind_then _ _ (fun _ => [create_request s key]) []
           (follows_send E _)).
  intros r. destruct (status_in r [200; 201]); [apply follows_ret | apply follows_raise].
Qed.

Lemma follows_run_scanner (dir filename : string) :
  follows (_run_scanner E s dir key filename)
    (fun content => [index_request E s key filename content; submit_request s key]).
Proof.
  unfold _run_scanner.
  apply follows_bind_value; [apply follows_read_file |].
  intros content.
  apply (follows_bind _ _ [index_request E s key filename content]
           (fun _ => [submit_request s key]) (follows_send E _)).
  intros r. destruct (negb (status_in r [200; 201])).
  - intros tr. destruct (follows_raise (A:=unit) (exception ("Failed to run analysis: " +:+ text r)) tr)
      as (c & added & Htr & Hreq).
    exists c, added. split; [exact Htr |]. simpl in *.
    destruct Hreq as (k & ->). exists O. destruct k; reflexivity.
  - apply (follows_bind_then _ _ (fun _ => [submit_request s key]) []
             (follows_send E _)).
    intros r'. destruct (negb (status_in r' [200; 201; 202]));
      [apply follows_raise | apply follows_ret].
Qed.

Lemma follows_get_issues :
  follows (_get_issues E s key) (fun _ => [issues_request s key]).
Proof.
  unfold _get_issues.
  apply (follows_bind_then _ _ (fun _ => [issues_request s key]) []
           (follows_send E _)).
  intros r. destruct (status_code r =? 200);
    [apply follows_lift_nil | apply follows_raise].
Qed.

Lemma follows_get_security_hotspots :
  follows (_get_security_hotspots E s key) (fun _ => [hotspots_request s key]).
Proof.
  unfold _get_security_hotspots.
  apply (follows_bind_then _ _ (fun _ => [hotspots_request s key]) []
           (follows_send E _)).
  intros r. destruct (status_code r =? 200);
    [apply follows_lift_nil | apply follows_ret].
Qed.

Lemma follows_get_metrics :
  follows (_get_metrics E s key) (fun _ => [metrics_request s key]).
Proof.
  unfold _get_metrics.
  apply (follows_bind_then _ _ (fun _ => [metrics_request s key]) []
           (follows_send E _)).
  intros r. destruct (status_code r =? 200);
    [apply follows_lift_nil | apply follows_ret].
Qed.

Lemma follows_delete_project :
  follows (_delete_project E s key) (fun _ => [delete_request s key]).
Proof.
  unfold _delete_project.
  apply (follows_bind_then _ _ (fun _ => [delete_request s key]) []
           (follows_send E _)).
  intros r. apply follows_ret.
Qed.

Lemma follows_analyze_in (code filename dir : string) :
  follows (analyze_in E s code filename key dir)
    (fun content =>
       [index_request E s key filename content; submit_request s key;
        issues_request s key; hotspots_request s key; metrics_request s key;
        delete_request s key]).
Proof.
  unfold analyze_in.
  apply (follows_bind _ _ [] _ (follows_write_file E _ _)). intros _.
  apply (follows_bind_then _ _ _ [issues_request s key; hotspots_request s key;
                                  metrics_request s key; delete_request s key]
           (follows_run_scanner dir filename)). intros _.
  apply (follows_bind _ _ [] (fun _ => _) (follows_sleep 5)). intros _.
  apply (follows_bind _ _ [issues_request s key] (fun _ => _) follows_get_issues).
  intros i.
  apply (follows_bind _ _ [hotspots_request s key] (fun _ => _)
           follows_get_security_hotspots).
  intros h.
  apply (follows_bind _ _ [metrics_request s key] (fun _ => _) follows_get_metrics).
  intros m.
  apply (follows_bind_then _ _ (fun _ => [delete_request s key]) []
           follows_delete_project).
  intros _. apply follows_lift_nil.
Qed.

End RemoteOrder.

(** X3: the requests of a call are the first so many of the fixed
    sequence create, index, submit, issues, hotspots, metrics, delete, in
    that order: no step is skipped or repeated, nothing else is requested,
    and the project is deleted only after the six other requests were
    made. *)
Theorem analyze_code_follows_protocol (E : env) (s : SonarCloudAnalyzer.self)
    (code filename : string) (tr : list event) :
  exists content k,
    requests_of (snd (SonarCloudAnalyzer.analyze_code E s code filename tr))
    = requests_of tr ++ firstn k (protocol E s filename content).
Proof.
  assert (H : follows
            (bind (SonarCloudAnalyzer._create_project E s
                     (SonarCloudAnalyzer.project_key_of E))
               (fun _ => bind (temporary_directory E) (fun temp_dir =>
                  finally (SonarCloudAnalyzer.analyze_in E s code filename
                             (SonarCloudAnalyzer.project_key_of E) temp_dir)
                          (emit (EvCleanup temp_dir)))))
            (protocol E s filename)).
  { apply (follows_bind _ _ [_] _ (follows_create_project E s)). intros _.
    apply (follows_bind _ _ [] _ (follows_temporary_directory E)). intros dir.
    apply follows_finally; [reflexivity |].
    apply (follows_analyze_in E s code filename dir). }
  unfold SonarCloudAnalyzer.analyze_code, try_except.
  destruct (H tr) as (content & added & Htr & Hreq).
  exists content.
  destruct (bind _ _ tr) as [[r | e] tr'] eqn:Hrun; simpl in Htr, Hreq |- *; subst tr'.
  - exists (length (protocol E s filename content)).
    rewrite requests_of_app, Hreq, firstn_all. reflexivity.
  - destruct Hreq as (k & Hk). exists k. rewrite requests_of_app, Hk. reflexivity.
Qed.

(** ** Failures of the scanner *)

Section Scanner.

Import SonarCloudAnalyzer.

Variable E : env.
Variable s : self.

Let key := project_key_of E.

(** The call up to the moment the scanner runs. *)
Lemma analyze_code_scanner_raises (code filename dir : string)
    (tr0 tr1 tr2 tr3 tr' : list event) (e : exn) :
  _create_project E s key tr0 = (Ok tt, tr1) ->
  temporary_directory E tr1 = (Ok dir, tr2) ->
  write_file E (path_join dir filename) code tr2 = (Ok tt, tr3) ->
  _run_scanner E s dir key filename tr3 = (Raise e, tr') ->
  analyze_code E s code filename tr0
  = (Ok (ErrorObj "SonarCloud analysis failed" (Some (exn_str e))),
     tr' ++ [EvCleanup dir]).
Proof.
  intros Hcreate Hdir Hwrite Hscan.
  unfold analyze_code, try_except. fold key.
  rewrite (bind_ok _ _ _ _ _ Hcreate), (bind_ok _ _ _ _ _ Hdir).
  unfold finally, analyze_in.
  rewrite (bind_ok _ _ _ _ _ Hwrite), (bind_raise _ _ _ _ _ Hscan).
  reflexivity.
Qed.

End Scanner.

(** X4: once the project is created and the file written, a refusal of
    the source (a status other than 200 and 201 for the index request)
    ends the call with [Failed to run analysis: ] and the body, without
    the request that starts the analysis; a refusal of that request (a
    status other than 200, 201 and 202) ends it with
    [Failed to submit analysis: ] and the body.  In both cases the last
    thing done is the removal of the temporary directory: no result is
    read and the project is not deleted. *)
Theorem analyze_code_scanner_refused (E : env) (s : SonarCloudAnalyzer.self)
    (code filename dir content : string) (tr0 tr1 tr2 tr3 : list event)
    (st : Z) (body : string) :
  let key := SonarCloudAnalyzer.project_key_of E in
  let path := path_join dir filename in
  let index := SonarCloudAnalyzer.index_request E s key filename content in
  let submit := SonarCloudAnalyzer.submit_request s key in
  SonarCloudAnalyzer._create_project E s key tr0 = (Ok tt, tr1) ->
  temporary_directory E tr1 = (Ok dir, tr2) ->
  write_file E path code tr2 = (Ok tt, tr3) ->
  fs_read E tr3 path = Ok content ->
  (http E (tr3 ++ [EvRead path]) index = Response st body ->
   st <> 200 -> st <> 201 ->
   SonarCloudAnalyzer.analyze_code E s code filename tr0
   = (Ok (ErrorObj "SonarCloud analysis failed"
            (Some ("Failed to run analysis: " +:+ body))),
      tr3 ++ [EvRead path; EvHttp index; EvCleanup dir]))
  /\ (forall st' body',
        http E (tr3 ++ [EvRead path]) index = Response st' body' ->
        st' = 200 \/ st' = 201 ->
        http E (tr3 ++ [EvRead path; EvHttp index]) submit = Response st body ->
        st <> 200 -> st <> 201 -> st <> 202 ->
        SonarCloudAnalyzer.analyze_code E s code filename tr0
        = (Ok (ErrorObj "SonarCloud analysis failed"
                 (Some ("Failed to submit analysis: " +:+ body))),
           tr3 ++ [EvRead path; EvHttp index; EvHttp submit; EvCleanup dir])).
Proof.
  intros key path index submit Hcreate Hdir Hwrite Hread.
  assert (Hreadfile : read_file E path tr3 = (Ok content, tr3 ++ [EvRead path])).
  { unfold read_file. rewrite Hread. reflexivity. }
  split.
  - intros Hindex H200 H201.
    rewrite (analyze_code_scanner_raises E s code filename dir tr0 tr1 tr2 tr3
               ((tr3 ++ [EvRead path]) ++ [EvHttp index])
               (SonarCloudAnalyzer.exception ("Failed to run analysis: " +:+ body))
               Hcreate Hdir Hwrite).
    + rewrite <- !app_assoc. reflexivity.
    + unfold SonarCloudAnalyzer._run_scanner. fold path key.
      rewrite (bind_ok _ _ _ _ _ Hreadfile). fold index.
      rewrite (bind_ok _ _ _ _ _ (send_response E index _ st body Hindex)).
      unfold SonarCloudAnalyzer.status_in. simpl.
      destruct (Z.eqb_spec st 200); [contradiction |].
      destruct (Z.eqb_spec st 201); [contradiction |]. reflexivity.
  - intros st' body' Hindex Hok Hsubmit H200 H201 H202.
    rewrite (analyze_code_scanner_raises E s code filename dir tr0 tr1 tr2 tr3
               (((tr3 ++ [EvRead path]) ++ [EvHttp index]) ++ [EvHttp submit])
               (SonarCloudAnalyzer.exception ("Failed to submit analysis: " +:+ body))
               Hcreate Hdir Hwrite).
    + rewrite <- !app_assoc. reflexivity.
    + unfold SonarCloudAnalyzer._run_scanner. fold path key.
      rewrite (bind_ok _ _ _ _ _ Hreadfile). fold index.
      rewrite (bind_ok _ _ _ _ _ (send_response E index _ st' body' Hindex)).
      assert (Hst' : SonarCloudAnalyzer.status_in (Resp st' body') [200; 201] = true).
      { unfold SonarCloudAnalyzer.status_in. simpl.
        destruct Hok as [-> | ->]; reflexivity. }
      rewrite Hst'. change (negb true) with false. cbv iota. fold submit.
      assert (Hsubmit' :
        http E ((tr3 ++ [EvRead path]) ++ [EvHttp index]) submit = Response st body).
      { rewrite <- app_assoc. exact Hsubmit. }
      rewrite (bind_ok _ _ _ _ _ (send_response E submit _ st body Hsubmit')).
      unfold SonarCloudAnalyzer.status_in. simpl.
      destruct (Z.eqb_spec st 200); [contradiction |].
      destruct (Z.eqb_spec st 201); [contradiction |].
      destruct (Z.eqb_spec st 202); [contradiction |].
      rewrite <- !app_assoc. reflexivity.
Qed.

(** The source refused with 500, then the start of the analysis refused
    with 500. *)
Lemma analyze_code_scanner_refused_witness :
  let run (st : statuses) :=
    fst (SonarCloudAnalyzer.analyze_code (remote st) sonar sample_code "main.py" []) in
  run (Statuses 200 500 202 200 200 200 204)
  = Ok (ErrorObj "SonarCloud analysis failed"
          (Some "Failed to run analysis: indexed"))
  /\ run (Statuses 200 200 500 200 200 200 204)
     = Ok (ErrorObj "SonarCloud analysis failed"
             (Some "Failed to submit analysis: submitted")).
Proof.
  cbv zeta. split.
  - set (E := remote (Statuses 200 500 202 200 200 200 204)).
    set (key := SonarCloudAnalyzer.project_key_of E).
    set (path := path_join "/tmp/tmpq1w2e3r4" "main.py").
    set (tr1 := snd (SonarCloudAnalyzer._create_project E sonar key [])).
    set (tr2 := snd (temporary_directory E tr1)).
    set (tr3 := snd (write_file E path sample_code tr2)).
    assert (H1 : SonarCloudAnalyzer._create_project E sonar key [] = (Ok tt, tr1))
      by (vm_compute; reflexivity).
    assert (H2 : temporary_directory E tr1 = (Ok "/tmp/tmpq1w2e3r4", tr2))
      by (vm_compute; reflexivity).
    assert (H3 : write_file E path sample_code tr2 = (Ok tt, tr3))
      by (vm_compute; reflexivity).
    assert (H4 : fs_read E tr3 path = Ok sample_code) by (vm_compute; reflexivity).
    rewrite (proj1 (analyze_code_scanner_refused E sonar sample_code "main.py"
                      "/tmp/tmpq1w2e3r4" sample_code [] tr1 tr2 tr3 500 "indexed"
                      H1 H2 H3 H4));
      [reflexivity | vm_compute; reflexivity | discriminate | discriminate].
  - set (E := remote (Statuses 200 200 500 200 200 200 204)).
    set (key := SonarCloudAnalyzer.project_key_of E).
    set (path := path_join "/tmp/tmpq1w2e3r4" "main.py").
    set (tr1 := snd (SonarCloudAnalyzer._create_project E sonar key [])).
    set (tr2 := snd (temporary_directory E tr1)).
    set (tr3 := snd (write_file E path sample_code tr2)).
    assert (H1 : SonarCloudAnalyzer._create_project E sonar key [] = (Ok tt, tr1))
      by (vm_compute; reflexivity).
    assert (H2 : temporary_directory E tr1 = (Ok "/tmp/tmpq1w2e3r4", tr2))
      by (vm_compute; reflexivity).
    assert (H3 : write_file E path sample_code tr2 = (Ok tt, tr3))
      by (vm_compute; reflexivity).
    assert (H4 : fs_read E tr3 path = Ok sample_code) by (vm_compute; reflexivity).
    rewrite (proj2 (analyze_code_scanner_refused E sonar sample_code "main.py"
                      "/tmp/tmpq1w2e3r4" sample_code [] tr1 tr2 tr3 500 "submitted"
                      H1 H2 H3 H4) 200 "indexed");
      [reflexivity | vm_compute; reflexivity | left; reflexivity
      | vm_compute; reflexivity | discriminate | discriminate | discriminate].
Defined.

(** ** The temporary directory *)

(** X5: once the project is created and the temporary directory exists,
    the last thing every call does is to remove that directory, whether it
    returns the success shape or the error shape. *)
Theorem analyze_code_removes_directory (E : env) (s : SonarCloudAnalyzer.self)
    (code filename dir : string) (tr0 tr1 tr2 : list event) :
  SonarCloudAnalyzer._create_project E s (SonarCloudAnalyzer.project_key_of E) tr0
  = (Ok tt, tr1) ->
  temporary_directory E tr1 = (Ok dir, tr2) ->
  exists r done,
    SonarCloudAnalyzer.analyze_code E s code filename tr0
    = (Ok r, tr2 ++ done ++ [EvCleanup dir]).
Proof.
  intros Hcreate Hdir.
  unfold SonarCloudAnalyzer.analyze_code, try_except.
  rewrite (bind_ok _ _ _ _ _ Hcreate), (bind_ok _ _ _ _ _ Hdir).
  unfold finally, emit.
  destruct (follows_analyze_in E s code filename dir tr2)
    as (content & added & Htr & _).
  destruct (SonarCloudAnalyzer.analyze_in E s code filename
              (SonarCloudAnalyzer.project_key_of E) dir tr2) as [[r | e] tr'];
    simpl in Htr; subst tr'; eexists _, added; rewrite <- app_assoc; reflexivity.
Qed.

Lemma analyze_code_removes_directory_witness :
  let E := remote (Statuses 200 200 202 500 200 200 204) in
  let key := SonarCloudAnalyzer.project_key_of E in
  let tr1 := snd (SonarCloudAnalyzer._create_project E sonar key []) in
  let tr2 := snd (temporary_directory E tr1) in
  SonarCloudAnalyzer._create_project E sonar key [] = (Ok tt, tr1)
  /\ temporary_directory E tr1 = (Ok "/tmp/tmpq1w2e3r4", tr2)
  /\ exists r done,
       SonarCloudAnalyzer.analyze_code E sonar sample_code "main.py" []
       = (Ok r, tr2 ++ done ++ [EvCleanup "/tmp/tmpq1w2e3r4"]).
Proof.
  cbv zeta.
  split; [vm_compute; reflexivity |]. split; [vm_compute; reflexivity |].
  apply (analyze_code_removes_directory
           (remote (Statuses 200 200 202 500 200 200 204)) sonar sample_code
           "main.py" "/tmp/tmpq1w2e3r4" []
           (snd (SonarCloudAnalyzer._create_project
                   (remote (Statuses 200 200 202 500 200 200 204)) sonar
                   (SonarCloudAnalyzer.project_key_of
                      (remote (Statuses 200 200 202 500 200 200 204))) []))).
  - vm_compute. reflexivity.
  - vm_compute. reflexivity.
Defined.

(** ** The facade *)

(** X6: [analyze_with_sonarcloud] on an analyzer built without a token
    ([None] or the empty string) returns the one-field error dict and does
    nothing else; on one built with a token it is
    [SonarCloudAnalyzer.analyze_code] of the analyzer [__init__] made from
    the token and the organization. *)
Theorem analyze_with_sonarcloud_passes_through (E : env)
    (gemini_api_key sonarcloud_token sonarcloud_org : option string)
    (code filename : string) (tr : list event) :
  let s := CodeQualityAnalyzer.init gemini_api_key sonarcloud_token sonarcloud_org in
  (CodeQualityAnalyzer.truthy sonarcloud_token = false ->
   CodeQualityAnalyzer.analyze_with_sonarcloud E s code filename tr
   = (Ok (ErrorObj "SonarCloud token is required for SonarCloud analysis" None), tr))
  /\ (forall token,
        sonarcloud_token = Some token ->
        CodeQualityAnalyzer.truthy sonarcloud_token = true ->
        CodeQualityAnalyzer.analyze_with_sonarcloud E s code filename tr
        = SonarCloudAnalyzer.analyze_code E
            (SonarCloudAnalyzer.init token sonarcloud_org) code filename tr).
Proof.
  cbv zeta. unfold CodeQualityAnalyzer.analyze_with_sonarcloud. split.
  - intros Hno. destruct sonarcloud_token as [[| c t] |];
      [reflexivity | discriminate Hno | reflexivity].
  - intros token -> Hyes. destruct token as [| c t]; [discriminate Hyes | reflexivity].
Qed.

Lemma analyze_with_sonarcloud_passes_through_witness :
  CodeQualityAnalyzer.analyze_with_sonarcloud offline
    (CodeQualityAnalyzer.init None (Some "") None) sample_code "main.py" []
  = (Ok (ErrorObj "SonarCloud token is required for SonarCloud analysis" None), [])
  /\ CodeQualityAnalyzer.analyze_with_sonarcloud (remote all_fine)
       (CodeQualityAnalyzer.init None (Some "sample-token") (Some "pokementor"))
       sample_code "main.py" []
     = SonarCloudAnalyzer.analyze_code (remote all_fine) sonar sample_code "main.py" [].
Proof.
  split.
  - apply (proj1 (analyze_with_sonarcloud_passes_through offline None (Some "") None
                    sample_code "main.py" [])).
    reflexivity.
  - apply (proj2 (analyze_with_sonarcloud_passes_through (remote all_fine) None
                    (Some "sample-token") (Some "pokementor") sample_code "main.py" [])
             "sample-token"); reflexivity.
Defined.

(** ** The generative adapter, with a key *)

Section Generative.

Import CodeQualityAnalyzer.

Variable E : env.
Variable s : self.
Variable key : string.
Hypothesis Hkey : gemini_api_key s = Some key.
Hypothesis Hset : truthy (Some key) = true.

(** The call, once the guard is passed. *)
Lemma analyze_with_ai_unfold (code filename : string) (tr : list event) :
  analyze_with_ai E s code filename tr
  = match http E tr (review_request E key code filename) with
    | Response st body =>
        (Ok (if st =? 200
             then match read_answer E (Resp st body) with
                  | Ok v => v
                  | Raise e =>
                      PDict [("error", PStr "Failed to analyze with AI");
                             ("message", PStr (exn_str e))]
                  end
             else PDict [("error", PStr ("API error: " +:+ str_of_Z st));
                         ("message", PStr body)]),
         tr ++ [EvHttp (review_request E key code filename)])
    | RequestRaises e =>
        (Ok (PDict [("error", PStr "Failed to analyze with AI");
                    ("message", PStr (exn_str e))]),
         tr ++ [EvHttp (review_request E key code filename)])
    end.
Proof using Hkey Hset.
  unfold analyze_with_ai. rewrite Hkey, Hset.
  change (negb true) with false. cbv iota.
  change (default "" (Some key)) with key.
  unfold try_except, bind, send, review_request, language_of.
  destruct (http E tr _) as [st body | e]; [| reflexivity].
  cbn [status_code text]. unfold lift, ret.
  destruct (st =? 200); [| reflexivity].
  destruct (read_answer E (Resp st body)); reflexivity.
Qed.

(** The answer, once its text is found. *)
Lemma read_answer_text (st : Z) (body : string) (j : pyval) (t : string) :
  json_loads E body = Ok j ->
  answer_text j = Ok (PStr t) ->
  read_answer E (Resp st body)
  = match re_search json_pattern (PStr t) with
    | Ok (Some m) =>
        match json_loads E (matched_json t m) with
        | Ok v => Ok v
        | Raise (PyExn "JSONDecodeError" _) => Ok (unstructured (PStr t))
        | Raise e => Raise e
        end
    | Ok None => Ok (unstructured (PStr t))
    | Raise e => Raise e
    end.
Proof using Type.
  intros Hj Ht. unfold read_answer. simpl text. rewrite Hj. simpl.
  unfold answer_text in Ht.
  destruct (py_getitem j "candidates") as [c |]; [| discriminate]. simpl in Ht |- *.
  destruct (py_getitem0 c) as [c0 |]; [| discriminate]. simpl in Ht |- *.
  destruct (py_getitem c0 "content") as [ct |]; [| discriminate]. simpl in Ht |- *.
  destruct (py_getitem ct "parts") as [ps |]; [| discriminate]. simpl in Ht |- *.
  destruct (py_getitem0 ps) as [p0 |]; [| discriminate]. simpl in Ht |- *.
  rewrite Ht. simpl.
  destruct (re_search json_pattern (PStr t)) as [[m |] |]; reflexivity.
Qed.

End Generative.

(** X7: with an API key, [analyze_with_ai] makes exactly one request,
    whatever comes back: a POST to the URL of the environment followed by
    [?key=] and the key, with a timeout of 30, carrying the prompt built
    from the code and the extension of the filename ([unknown] when it has
    none); and it never raises. *)
Theorem analyze_with_ai_one_request (E : env) (s : CodeQualityAnalyzer.self)
    (key code filename : string) (tr : list event) :
  CodeQualityAnalyzer.gemini_api_key s = Some key ->
  CodeQualityAnalyzer.truthy (Some key) = true ->
  let rq := review_request E key code filename in
  (exists r, CodeQualityAnalyzer.analyze_with_ai E s code filename tr
             = (Ok r, tr ++ [EvHttp rq]))
  /\ rq_method rq = POST
  /\ rq_timeout rq = Some 30
  /\ rq_url rq = default "None" (getenv E "GEMINI_API_URL") +:+ "?key=" +:+ key
  /\ rq_json rq
     = Some (PDict [("contents", PList [PDict [("parts", PList [PDict
         [("text", PStr (CodeQualityAnalyzer.prompt (language_of filename) code))]])]])]).
Proof.
  intros Hkey Hset rq. split.
  - rewrite (analyze_with_ai_unfold E s key Hkey Hset). fold rq.
    destruct (http E tr rq); eexists; reflexivity.
  - unfold rq, review_request, CodeQualityAnalyzer.gemini_request. simpl.
    destruct (getenv E "GEMINI_API_URL"); repeat split; reflexivity.
Qed.

Lemma analyze_with_ai_one_request_witness :
  let rq := review_request (gemini 200 "answer") "sample-key" sample_code "main.py" in
  (exists r, CodeQualityAnalyzer.analyze_with_ai (gemini 200 "answer") reviewer
               sample_code "main.py" []
             = (Ok r, [] ++ [EvHttp rq]))
  /\ rq_method rq = POST
  /\ rq_timeout rq = Some 30
  /\ rq_url rq
     = default "None" (getenv (gemini 200 "answer") "GEMINI_API_URL")
       +:+ "?key=" +:+ "sample-key"
  /\ rq_json rq
     = Some (PDict [("contents", PList [PDict [("parts", PList [PDict
         [("text", PStr (CodeQualityAnalyzer.prompt (language_of "main.py")
                           sample_code))]])]])]).
Proof.
  apply (analyze_with_ai_one_request (gemini 200 "answer") reviewer "sample-key"
           sample_code "main.py" []); reflexivity.
Defined.

(** X8: with an API key, an answer with a status other than 200 gives the
    dict [{error: API error: <status>, message: <body>}]; a request that
    raises, and an answer with status 200 whose body the decoder refuses,
    give [{error: Failed to analyze with AI, message: <text of the
    exception>}]; so does, with some message, an answer with status 200
    whose JSON lacks the path to the text. *)
Theorem analyze_with_ai_errors (E : env) (s : CodeQualityAnalyzer.self)
    (key code filename : string) (tr : list event) :
  CodeQualityAnalyzer.gemini_api_key s = Some key ->
  CodeQualityAnalyzer.truthy (Some key) = true ->
  let rq := review_request E key code filename in
  let failed (e : exn) :=
    PDict [("error", PStr "Failed to analyze with AI");
           ("message", PStr (exn_str e))] in
  (forall st body,
      http E tr rq = Response st body -> st <> 200 ->
      fst (CodeQualityAnalyzer.analyze_with_ai E s code filename tr)
      = Ok (PDict [("error", PStr ("API error: " +:+ str_of_Z st));
                   ("message", PStr body)]))
  /\ (forall e,
         http E tr rq = RequestRaises e ->
         fst (CodeQualityAnalyzer.analyze_with_ai E s code filename tr) = Ok (failed e))
  /\ (forall body e,
         http E tr rq = Response 200 body ->
         json_loads E body = Raise e ->
         fst (CodeQualityAnalyzer.analyze_with_ai E s code filename tr) = Ok (failed e))
  /\ (forall body j e,
         http E tr rq = Response 200 body ->
         json_loads E body = Ok j ->
         answer_text j = Raise e ->
         exists msg,
           fst (CodeQualityAnalyzer.analyze_with_ai E s code filename tr)
           = Ok (PDict [("error", PStr "Failed to analyze with AI");
                        ("message", PStr msg)])).
Proof.
  intros Hkey Hset rq failed.
  split; [| split; [| split]].
  - intros st body Hhttp Hst.
    rewrite (analyze_with_ai_unfold E s key Hkey Hset). fold rq. rewrite Hhttp.
    simpl. destruct (Z.eqb_spec st 200); [contradiction | reflexivity].
  - intros e Hhttp.
    rewrite (analyze_with_ai_unfold E s key Hkey Hset). fold rq. rewrite Hhttp.
    reflexivity.
  - intros body e Hhttp Hj.
    rewrite (analyze_with_ai_unfold E s key Hkey Hset). fold rq. rewrite Hhttp.
    simpl. unfold CodeQualityAnalyzer.read_answer. simpl text. rewrite Hj. reflexivity.
  - intros body j e Hhttp Hj Ht. exists (exn_str e).
    rewrite (analyze_with_ai_unfold E s key Hkey Hset). fold rq. rewrite Hhttp.
    simpl. unfold CodeQualityAnalyzer.read_answer. simpl text. rewrite Hj. simpl.
    unfold answer_text in Ht.
    destruct (py_getitem j "candidates") as [c |]; simpl in Ht |- *;
      [| injection Ht as <-; reflexivity].
    destruct (py_getitem0 c) as [c0 |]; simpl in Ht |- *;
      [| injection Ht as <-; reflexivity].
    destruct (py_getitem c0 "content") as [ct |]; simpl in Ht |- *;
      [| injection Ht as <-; reflexivity].
    destruct (py_getitem ct "parts") as [ps |]; simpl in Ht |- *;
      [| injection Ht as <-; reflexivity].
    destruct (py_getitem0 ps) as [p0 |]; simpl in Ht |- *;
      [| injection Ht as <-; reflexivity].
    rewrite Ht. reflexivity.
Qed.

(** A refusal with 429, and an answer that is not JSON. *)
Lemma analyze_with_ai_errors_witness :
  fst (CodeQualityAnalyzer.analyze_with_ai (gemini 429 "quota") reviewer
         sample_code "main.py" [])
  = Ok (PDict [("error", PStr "API error: 429"); ("message", PStr "quota")])
  /\ fst (CodeQualityAnalyzer.analyze_with_ai (gemini 200 "<html>") reviewer
            sample_code "main.py" [])
     = Ok (PDict [("error", PStr "Failed to analyze with AI");
                  ("message", PStr "Expecting value: line 1 column 1 (char 0)")]).
Proof.
  split.
  - apply (proj1 (analyze_with_ai_errors (gemini 429 "quota") reviewer "sample-key"
                    sample_code "main.py" [] eq_refl eq_refl) 429 "quota");
      [reflexivity | discriminate].
  - apply (proj1 (proj2 (proj2 (analyze_with_ai_errors (gemini 200 "<html>") reviewer
                                  "sample-key" sample_code "main.py" []
                                  eq_refl eq_refl)))
             "<html>"
             (PyExn "JSONDecodeError" "Expecting value: line 1 column 1 (char 0)"));
      reflexivity.
Defined.

(** X9: with an API key and an answer of status 200 whose text is [t]:
    when the pattern finds JSON text in [t] (at its leftmost match: the
    inside of a fenced json block, or an object that starts with the
    issues key) and that text decodes, the decoded value is returned as it is; when
    nothing is found, or what is found does not decode, the result is the
    fallback dict, with the whole of [t] as [raw_response], no issue, and
    the fixed suggestion and summary. *)
Theorem analyze_with_ai_extracts (E : env) (s : CodeQualityAnalyzer.self)
    (key code filename body t : string) (tr : list event) (j : pyval) :
  CodeQualityAnalyzer.gemini_api_key s = Some key ->
  CodeQualityAnalyzer.truthy (Some key) = true ->
  http E tr (review_request E key code filename) = Response 200 body ->
  json_loads E body = Ok j ->
  answer_text j = Ok (PStr t) ->
  let result := fst (CodeQualityAnalyzer.analyze_with_ai E s code filename tr) in
  let fallback :=
    PDict [("raw_response", PStr t); ("issues", PList []);
           ("suggestions", PList [PStr "Unable to parse AI response as JSON"]);
           ("summary",
            PStr "AI analysis completed but results could not be structured properly.")] in
  (forall m v,
      CodeQualityAnalyzer.re_search CodeQualityAnalyzer.json_pattern (PStr t)
      = Ok (Some m) ->
      json_loads E (CodeQualityAnalyzer.matched_json t m) = Ok v ->
      result = Ok v)
  /\ (forall m msg,
         CodeQualityAnalyzer.re_search CodeQualityAnalyzer.json_pattern (PStr t)
         = Ok (Some m) ->
         json_loads E (CodeQualityAnalyzer.matched_json t m)
         = Raise (PyExn "JSONDecodeError" msg) ->
         result = Ok fallback)
  /\ (CodeQualityAnalyzer.re_search CodeQualityAnalyzer.json_pattern (PStr t)
      = Ok None ->
      result = Ok fallback).
Proof.
  intros Hkey Hset Hhttp Hj Ht result fallback.
  assert (Hresult :
    result
    = Ok match CodeQualityAnalyzer.read_answer E (Resp 200 body) with
         | Ok v => v
         | Raise e => PDict [("error", PStr "Failed to analyze with AI");
                             ("message", PStr (exn_str e))]
         end).
  { unfold result. rewrite (analyze_with_ai_unfold E s key Hkey Hset), Hhttp.
    reflexivity. }
  rewrite (read_answer_text E 200 body j t Hj Ht) in Hresult.
  split; [| split].
  - intros m v Hm Hv. rewrite Hm, Hv in Hresult. exact Hresult.
  - intros m msg Hm Hv. rewrite Hm, Hv in Hresult. exact Hresult.
  - intros Hm. rewrite Hm in Hresult. exact Hresult.
Qed.

(** A fenced block with prose after it, and an answer with no JSON. *)
Lemma analyze_with_ai_extracts_witness :
  fst (CodeQualityAnalyzer.analyze_with_ai (gemini 200 "answer") reviewer
         sample_code "main.py" [])
  = Ok review
  /\ fst (CodeQualityAnalyzer.analyze_with_ai (gemini 200 "prose") reviewer
            sample_code "main.py" [])
     = Ok (PDict [("raw_response", PStr "No JSON here, sorry."); ("issues", PList []);
                  ("suggestions", PList [PStr "Unable to parse AI response as JSON"]);
                  ("summary",
                   PStr "AI analysis completed but results could not be structured properly.")]).
Proof.
  split.
  - destruct (CodeQualityAnalyzer.re_search CodeQualityAnalyzer.json_pattern
                (PStr model_text)) as [[m |] |] eqn:Hm;
      [| vm_compute in Hm; discriminate Hm | vm_compute in Hm; discriminate Hm].
    apply (proj1 (analyze_with_ai_extracts (gemini 200 "answer") reviewer "sample-key"
                    sample_code "main.py" "answer" model_text []
                    (model_answer model_text) eq_refl eq_refl eq_refl eq_refl eq_refl)
             m review Hm).
    vm_compute in Hm. injection Hm as <-. vm_compute. reflexivity.
  - apply (proj2 (proj2 (analyze_with_ai_extracts (gemini 200 "prose") reviewer
                           "sample-key" sample_code "main.py" "prose"
                           "No JSON here, sorry." []
                           (model_answer "No JSON here, sorry.")
                           eq_refl eq_refl eq_refl eq_refl eq_refl))).
    vm_compute. reflexivity.
Defined.

(** ** The metrics *)

Section Measures.

Import SonarCloudAnalyzer.

(** The dict comprehension over the measures: a later measure of a metric
    replaces an earlier one. *)
Lemma measures_dict_last (ds : list (list (string * pyval))) :
  Forall (fun d => exists name value, measure_fields d name value) ds ->
  forall acc : gmap string pyval,
  exists m,
    measures_dict (map PDict ds) acc = Ok m
    /\ forall name, m !! name = last_measure name ds (acc !! name).
Proof.
  induction 1 as [| d ds (k & v & Hk & Hv) _ IH]; intros acc.
  - exists acc. split; reflexivity.
  - destruct (IH (<[k := v]> acc)) as (m & Hm & Hlast).
    exists m. split.
    + simpl. rewrite Hk. simpl. rewrite Hv. simpl. exact Hm.
    + intros name. rewrite Hlast. simpl. rewrite Hk, Hv.
      f_equal.
      destruct (String.eqb_spec k name) as [-> | Hne].
      * apply lookup_insert_eq.
      * apply lookup_insert_ne. exact Hne.
Qed.

End Measures.

(** X10: when the metrics request is answered with status 200 and a JSON
    object whose [component.measures] is a list of measures (dicts with a
    string under [metric] and something under [value]), [_get_metrics]
    returns the map from each metric reported to the value of its last
    measure, and nothing for a metric that is not reported; it makes that
    one request. *)
Theorem get_metrics_last_measure_wins (E : env) (s : SonarCloudAnalyzer.self)
    (project_key body : string) (tr : list event)
    (j component : list (string * pyval)) (ds : list (list (string * pyval))) :
  http E tr (SonarCloudAnalyzer.metrics_request s project_key) = Response 200 body ->
  json_loads E body = Ok (PDict j) ->
  assoc_get "component" j = Some (PDict component) ->
  assoc_get "measures" component = Some (PList (map PDict ds)) ->
  Forall (fun d => exists name value, measure_fields d name value) ds ->
  exists metrics,
    SonarCloudAnalyzer._get_metrics E s project_key tr
    = (Ok metrics, tr ++ [EvHttp (SonarCloudAnalyzer.metrics_request s project_key)])
    /\ forall name, metrics !! name = last_measure name ds None.
Proof.
  intros Hhttp Hj Hcomponent Hmeasures Hds.
  destruct (measures_dict_last ds Hds ∅) as (m & Hm & Hlast).
  exists m. split.
  - unfold SonarCloudAnalyzer._get_metrics.
    rewrite (bind_ok _ _ _ _ _ (send_response E _ tr 200 body Hhttp)).
    cbn [status_code text]. change (200 =? 200) with true. cbv iota.
    unfold lift, SonarCloudAnalyzer.json_get. cbn [text]. rewrite Hj.
    simpl. rewrite Hcomponent. simpl. rewrite Hmeasures. simpl.
    rewrite Hm. reflexivity.
  - intros name. rewrite Hlast, lookup_empty. reflexivity.
Qed.

(** [bugs] reported as 1 and then as 4: the map holds 4. *)
Lemma get_metrics_last_measure_wins_witness :
  exists metrics,
    SonarCloudAnalyzer._get_metrics measuring sonar "temp-analysis-3f2a9c1e" []
    = (Ok metrics,
       [] ++ [EvHttp (SonarCloudAnalyzer.metrics_request sonar "temp-analysis-3f2a9c1e")])
    /\ forall name, metrics !! name = last_measure name repeated_measures None.
Proof.
  apply (get_metrics_last_measure_wins measuring sonar "temp-analysis-3f2a9c1e"
           "measures" []
           [("component",
             PDict [("key", PStr "temp-analysis-3f2a9c1e");
                    ("measures", PList (map PDict repeated_measures))])]
           [("key", PStr "temp-analysis-3f2a9c1e");
            ("measures", PList (map PDict repeated_measures))]
           repeated_measures);
    try reflexivity.
  repeat constructor; eexists; eexists; split; reflexivity.
Defined.

(** X11: in the metrics of a formatted result, a count whose metric the
    service did not report is 0 and the duplication is then [float(0)],
    while the coverage is [None] exactly when the service did not report
    it. *)
Theorem format_metrics_defaults (E : env) (metrics : gmap string pyval)
    (fm : sonar_metrics) :
  SonarCloudAnalyzer.format_metrics E metrics = Ok fm ->
  (coverage fm = None <-> metrics !! "coverage" = None)
  /\ (metrics !! "ncloc" = None -> lines_of_code fm = 0)
  /\ (metrics !! "complexity" = None -> complexity fm = 0)
  /\ (metrics !! "bugs" = None -> bugs fm = 0)
  /\ (metrics !! "vulnerabilities" = None -> vulnerabilities fm = 0)
  /\ (metrics !! "code_smells" = None -> code_smells fm = 0)
  /\ (metrics !! "security_hotspots" = None -> security_hotspots fm = 0)
  /\ (metrics !! "duplicated_lines_density" = None ->
      float_of_int E 0 = Ok (duplicate_lines_percentage fm)).
Proof.
  unfold SonarCloudAnalyzer.format_metrics, SonarCloudAnalyzer.metric. intros H.
  destruct (py_int E (default (PInt 0) (metrics !! "ncloc"))) as [n1 |] eqn:H1;
    [| discriminate]. cbn [rbind] in H.
  destruct (py_int E (default (PInt 0) (metrics !! "complexity"))) as [n2 |] eqn:H2;
    [| discriminate]. cbn [rbind] in H.
  destruct (py_int E (default (PInt 0) (metrics !! "bugs"))) as [n3 |] eqn:H3;
    [| discriminate]. cbn [rbind] in H.
  destruct (py_int E (default (PInt 0) (metrics !! "vulnerabilities"))) as [n4 |] eqn:H4;
    [| discriminate]. cbn [rbind] in H.
  destruct (py_int E (default (PInt 0) (metrics !! "code_smells"))) as [n5 |] eqn:H5;
    [| discriminate]. cbn [rbind] in H.
  destruct (py_int E (default (PInt 0) (metrics !! "security_hotspots"))) as [n6 |] eqn:H6;
    [| discriminate]. cbn [rbind] in H.
  destruct (py_float E (default (PInt 0) (metrics !! "duplicated_lines_density")))
    as [dup |] eqn:H7; [| discriminate]. cbn [rbind] in H.
  assert (Hcov : (exists c, metrics !! "coverage" = Some c /\ exists r, coverage fm = Some r)
                 \/ (metrics !! "coverage" = None /\ coverage fm = None)).
  { destruct (metrics !! "coverage") as [c |].
    - left. exists c. split; [reflexivity |].
      destruct (py_float E c) as [r |]; [| discriminate]. cbn [rbind] in H.
      injection H as <-. exists r. reflexivity.
    - right. cbn [rbind] in H. injection H as <-. split; reflexivity. }
  assert (Hfm : lines_of_code fm = n1 /\ complexity fm = n2 /\ bugs fm = n3
                /\ vulnerabilities fm = n4 /\ code_smells fm = n5
                /\ security_hotspots fm = n6 /\ duplicate_lines_percentage fm = dup).
  { destruct (metrics !! "coverage") as [c |].
    - destruct (py_float E c) as [r |]; [| discriminate]. cbn [rbind] in H.
      injection H as <-. repeat split; reflexivity.
    - cbn [rbind] in H. injection H as <-. repeat split; reflexivity. }
  destruct Hfm as (-> & -> & -> & -> & -> & -> & ->).
  split.
  { destruct Hcov as [(c & Hc & r & Hr) | [Hc Hr]]; rewrite Hc, Hr;
      split; intros; first [discriminate | reflexivity]. }
  repeat split; intros Hnone.
  - rewrite Hnone in H1. injection H1 as <-. reflexivity.
  - rewrite Hnone in H2. injection H2 as <-. reflexivity.
  - rewrite Hnone in H3. injection H3 as <-. reflexivity.
  - rewrite Hnone in H4. injection H4 as <-. reflexivity.
  - rewrite Hnone in H5. injection H5 as <-. reflexivity.
  - rewrite Hnone in H6. injection H6 as <-. reflexivity.
  - rewrite Hnone in H7. exact H7.
Qed.

(** The sample metrics report four counts and neither the duplication nor
    the coverage. *)
Lemma format_metrics_defaults_witness :
  SonarCloudAnalyzer.format_metrics (remote all_fine) sample_metrics
  = Ok (SonarMetrics 12 0 1 0 1 0 "0.0" None)
  /\ (coverage (SonarMetrics 12 0 1 0 1 0 "0.0" None) = None
      <-> sample_metrics !! "coverage" = None).
Proof.
  assert (H : SonarCloudAnalyzer.format_metrics (remote all_fine) sample_metrics
              = Ok (SonarMetrics 12 0 1 0 1 0 "0.0" None))
    by (vm_compute; reflexivity).
  split; [exact H |].
  exact (proj1 (format_metrics_defaults (remote all_fine) sample_metrics
                  (SonarMetrics 12 0 1 0 1 0 "0.0" None) H)).
Defined.

(** ** The structural checker and the depth-first visit *)

Section DepthFirst.

Import Ast.

Lemma preorder_unfold (n : node) :
  preorder n = n :: flat_map preorder (iter_child_nodes n).
Proof. destruct n; reflexivity. Qed.

Lemma forest_preorder (ts : list node) :
  Permutation (ts ++ flat_map preorder (flat_map iter_child_nodes ts))
              (flat_map preorder ts).
Proof.
  induction ts as [| t ts IH]; [constructor |].
  simpl. rewrite flat_map_app, preorder_unfold. simpl. constructor.
  rewrite <- IH. apply Permutation_app_swap_app.
Qed.

Lemma levels_preorder (depth : nat) :
  forall ts, (forest_size ts <= depth)%nat ->
             Permutation (levels depth ts) (flat_map preorder ts).
Proof.
  induction depth as [| depth IH]; intros ts Hsize.
  - rewrite forest_size_kids in Hsize.
    destruct ts; [constructor | simpl in Hsize; lia].
  - destruct ts as [| t ts]; [constructor |].
    change (levels (S depth) (t :: ts))
      with ((t :: ts) ++ levels depth (flat_map iter_child_nodes (t :: ts))).
    rewrite IH; [apply forest_preorder |].
    rewrite forest_size_kids in Hsize.
    change (length (t :: ts)) with (S (length ts)) in Hsize. lia.
Qed.

Lemma walk_preorder (tree : node) : Permutation (walk tree) (preorder tree).
Proof.
  rewrite walk_level_order. unfold level_order.
  rewrite levels_preorder by (unfold forest_size; simpl; lia).
  simpl. rewrite app_nil_r. reflexivity.
Qed.

Lemma size_in_forest (c : node) (ts : list node) :
  In c ts -> (size c <= forest_size ts)%nat.
Proof.
  induction ts as [| t ts IH]; [contradiction |].
  change (forest_size (t :: ts)) with (size t + forest_size ts)%nat.
  intros [-> | Hin]; [lia | specialize (IH Hin); lia].
Qed.

Lemma preorder_subnode (m : nat) :
  forall t, (size t <= m)%nat -> forall n, In n (preorder t) -> subnode n t.
Proof.
  induction m as [| m IH]; intros t Hsize n Hin.
  - rewrite size_children in Hsize. lia.
  - rewrite preorder_unfold in Hin. destruct Hin as [<- | Hin]; [constructor |].
    apply in_flat_map in Hin as (c & Hc & Hn).
    apply subnode_child with c; [exact Hc |].
    apply IH; [| exact Hn].
    pose proof (size_in_forest c _ Hc). rewrite size_children in Hsize. lia.
Qed.

End DepthFirst.

(** X13: on a text that parses, the findings of [_check_ast_patterns] are
    a rearrangement of those a depth-first visit gives: every node is
    visited once, so the two visits report the same findings the same
    number of times.  Every finding is a warning of type [complexity]
    without a rule key, and is reported for a [FunctionDef] of the
    tree. *)
Theorem check_ast_patterns_same_findings (E : env) (code : string) (tree : Ast.node) :
  ast_parse E code = Ast.ParseOk tree ->
  exists found,
    CodeQualityAnalyzer._check_ast_patterns E code = Ok found
    /\ Permutation found
         (flat_map CodeQualityAnalyzer.check_node (Ast.preorder tree))
    /\ forall f,
         In f found ->
         f_severity f = "warning" /\ f_type f = "complexity" /\ f_rule f = None
         /\ exists name lineno a body,
              Ast.subnode (Ast.FunctionDef name lineno a body) tree
              /\ In f (CodeQualityAnalyzer.check_node
                         (Ast.FunctionDef name lineno a body)).
Proof.
  intros Hparse. eexists. split; [| split].
  - unfold CodeQualityAnalyzer._check_ast_patterns. rewrite Hparse. reflexivity.
  - apply Permutation_flat_map, walk_preorder.
  - intros f Hf. apply in_flat_map in Hf as (n & Hn & Hf).
    assert (Hsub : Ast.subnode n tree).
    { apply (preorder_subnode (Ast.size tree)); [lia |].
      apply (Permutation_in _ (walk_preorder tree)). exact Hn. }
    destruct n as [name lineno a body | name lineno a body | children];
      [| contradiction | contradiction].
    assert (Hshape : f_severity f = "warning" /\ f_type f = "complexity"
                     /\ f_rule f = None).
    { simpl in Hf. apply in_app_or in Hf as [Hf | Hf].
      - destruct (30 <? length body)%nat; [| contradiction].
        destruct Hf as [<- | []]. repeat split; reflexivity.
      - destruct (5 <? length (Ast.args a))%nat; [| contradiction].
        destruct Hf as [<- | []]. repeat split; reflexivity. }
    destruct Hshape as (Hsev & Htype & Hrule).
    split; [exact Hsev |]. split; [exact Htype |]. split; [exact Hrule |].
    exists name, lineno, a, body. split; [exact Hsub | exact Hf].
Qed.

Lemma check_ast_patterns_same_findings_witness :
  exists found,
    CodeQualityAnalyzer._check_ast_patterns nested_world nested_source = Ok found
    /\ Permutation found
         (flat_map CodeQualityAnalyzer.check_node (Ast.preorder nested_tree))
    /\ forall f,
         In f found ->
         f_severity f = "warning" /\ f_type f = "complexity" /\ f_rule f = None
         /\ exists name lineno a body,
              Ast.subnode (Ast.FunctionDef name lineno a body) nested_tree
              /\ In f (CodeQualityAnalyzer.check_node
                         (Ast.FunctionDef name lineno a body)).
Proof.
  apply (check_ast_patterns_same_findings nested_world nested_source nested_tree).
  reflexivity.
Defined.

(** ** Where the requests of the remote adapter go *)

Section Destination.

Import SonarCloudAnalyzer.

Variable E : env.
Variable s : self.

(** The statements inside [try] follow the protocol. *)
Lemma follows_call (code filename : string) :
  follows
    (bind (_create_project E s (project_key_of E))
       (fun _ => bind (temporary_directory E) (fun temp_dir =>
          finally (analyze_in E s code filename (project_key_of E) temp_dir)
                  (emit (EvCleanup temp_dir)))))
    (protocol E s filename).
Proof.
  apply (follows_bind _ _ [_] _ (follows_create_project E s)). intros _.
  apply (follows_bind _ _ [] _ (follows_temporary_directory E)). intros dir.
  apply follows_finally; [reflexivity |].
  apply (follows_analyze_in E s code filename dir).
Qed.

Lemma in_firstn {A : Type} (k : nat) (l : list A) (x : A) :
  In x (firstn k l) -> In x l.
Proof.
  intros H. rewrite <- (firstn_skipn k l). apply in_or_app. left. exact H.
Qed.

Lemma protocol_destination (filename content : string) (rq : request) :
  In rq (protocol E s filename content) ->
  startswith (rq_url rq) "https://sonarcloud.io/api/" = true
  /\ rq_auth rq = Some (token s, "")
  /\ rq_timeout rq = None.
Proof.
  unfold protocol.
  intros [<- | [<- | [<- | [<- | [<- | [<- | [<- | []]]]]]]];
    repeat split; reflexivity.
Qed.

End Destination.

(** X14: every request a remote analysis makes goes to an address under
    [https://sonarcloud.io/api/], carries the token as the user name of
    its basic authentication, with an empty password, and has no
    timeout. *)
Theorem analyze_code_requests_authenticated (E : env) (s : SonarCloudAnalyzer.self)
    (code filename : string) (tr : list event) (rq : request) :
  In rq (requests_of (snd (SonarCloudAnalyzer.analyze_code E s code filename tr))) ->
  In rq (requests_of tr)
  \/ (startswith (rq_url rq) "https://sonarcloud.io/api/" = true
      /\ rq_auth rq = Some (SonarCloudAnalyzer.token s, "")
      /\ rq_timeout rq = None).
Proof.
  unfold SonarCloudAnalyzer.analyze_code, try_except.
  destruct (follows_call E s code filename tr) as (content & added & Htr & Hreq).
  destruct (bind _ _ tr) as [[r | e] tr'] eqn:Hrun; simpl in Htr, Hreq |- *;
    subst tr'; rewrite requests_of_app; intros Hin;
    apply in_app_or in Hin as [Hin | Hin]; try (left; exact Hin); right.
  - rewrite Hreq in Hin. exact (protocol_destination E s filename content rq Hin).
  - destruct Hreq as (k & Hk). rewrite Hk in Hin.
    exact (protocol_destination E s filename content rq (in_firstn k _ rq Hin)).
Qed.

(** The request that fetches the issues, in a run that succeeds. *)
Lemma analyze_code_requests_authenticated_witness :
  let rq := SonarCloudAnalyzer.issues_request sonar
              (SonarCloudAnalyzer.project_key_of (remote all_fine)) in
  In rq (requests_of
           (snd (SonarCloudAnalyzer.analyze_code (remote all_fine) sonar
                   sample_code "main.py" [])))
  /\ (In rq (requests_of [])
      \/ (startswith (rq_url rq) "https://sonarcloud.io/api/" = true
          /\ rq_auth rq = Some (SonarCloudAnalyzer.token sonar, "")
          /\ rq_timeout rq = None)).
Proof.
  cbv zeta.
  assert (Hin :
    In (SonarCloudAnalyzer.issues_request sonar
          (SonarCloudAnalyzer.project_key_of (remote all_fine)))
       (requests_of
          (snd (SonarCloudAnalyzer.analyze_code (remote all_fine) sonar
                  sample_code "main.py" [])))).
  { vm_compute. right. right. right. left. reflexivity. }
  split; [exact Hin |].
  exact (analyze_code_requests_authenticated (remote all_fine) sonar sample_code
           "main.py" [] _ Hin).
Defined.

(** ** What a successful remote analysis did *)

Section SuccessTrace.

Import SonarCloudAnalyzer.

Variable E : env.
Variable s : self.

Lemma create_project_trace (project_key : string) (tr tr' : list event) (u : unit) :
  _create_project E s project_key tr = (Ok u, tr') ->
  tr' = tr ++ [EvHttp (create_request s project_key)].
Proof.
  unfold _create_project. intros H.
  apply bind_ok_inv in H as (a & t & Hsend & H).
  apply send_ok_inv in Hsend as [_ ->].
  destruct (status_in a [200; 201]); unfold ret, raise in H;
    [injection H as _ <-; reflexivity | discriminate].
Qed.

Lemma run_scanner_trace (dir project_key filename : string) (tr tr' : list event)
    (u : unit) :
  _run_scanner E s dir project_key filename tr = (Ok u, tr') ->
  exists content,
    tr' = tr ++ [EvRead (path_join dir filename);
                 EvHttp (index_request E s project_key filename content);
                 EvHttp (submit_request s project_key)].
Proof.
  unfold _run_scanner. intros H.
  apply bind_ok_inv in H as (content & t & Hread & H).
  unfold read_file in Hread. injection Hread as _ <-.
  apply bind_ok_inv in H as (a & t1 & Hsend & H).
  apply send_ok_inv in Hsend as [_ ->].
  destruct (negb (status_in a [200; 201])); [discriminate |].
  apply bind_ok_inv in H as (b & t2 & Hsend & H).
  apply send_ok_inv in Hsend as [_ ->].
  destruct (negb (status_in b [200; 201; 202])); [discriminate |].
  unfold ret in H. injection H as _ <-.
  exists content. rewrite <- !app_assoc. reflexivity.
Qed.

Lemma prepare_trace (code filename dir : string) (tr tr' : list event) :
  prepare E s code filename tr = (Ok dir, tr') ->
  exists content,
    tr' = tr ++ [EvHttp (create_request s (project_key_of E)); EvMkdtemp;
                 EvWrite (path_join dir filename) code;
                 EvRead (path_join dir filename);
                 EvHttp (index_request E s (project_key_of E) filename content);
                 EvHttp (submit_request s (project_key_of E));
                 EvSleep 5].
Proof.
  unfold prepare. intros H.
  apply bind_ok_inv in H as (u1 & t1 & Hcreate & H).
  apply create_project_trace in Hcreate as ->.
  apply bind_ok_inv in H as (d & t2 & Hdir & H).
  unfold temporary_directory in Hdir. injection Hdir as _ <-.
  apply bind_ok_inv in H as (u2 & t3 & Hwrite & H).
  unfold write_file in Hwrite.
  destruct (fs_write E _ _ code); [discriminate |]. injection Hwrite as _ <-.
  apply bind_ok_inv in H as (u3 & t4 & Hscan & H).
  apply run_scanner_trace in Hscan as (content & ->).
  apply bind_ok_inv in H as (u4 & t5 & Hsleep & H).
  unfold sleep, emit in Hsleep. injection Hsleep as _ <-.
  unfold ret in H. injection H as -> <-.
  exists content. rewrite <- !app_assoc. reflexivity.
Qed.

End SuccessTrace.

(** X15: a remote analysis that returns the success shape did exactly
    this, in this order: create the project, make the temporary directory,
    write the code to the path joined from the directory and the filename,
    read that file back, send the source, start the analysis, sleep 5
    seconds once, fetch the issues, the hotspots and the metrics (one
    request each), delete the project, remove the directory.  The file is
    written where [os.path.join] says: at the filename itself when it
    starts with a slash. *)
Theorem analyze_code_success_trace (E : env) (s : SonarCloudAnalyzer.self)
    (code filename : string) (tr tr' : list event)
    (fs : list finding) (mt : sonar_metrics) (sm : string) :
  SonarCloudAnalyzer.analyze_code E s code filename tr = (Ok (Success fs mt sm), tr') ->
  let key := SonarCloudAnalyzer.project_key_of E in
  exists dir content,
    tr' = tr ++ [EvHttp (SonarCloudAnalyzer.create_request s key); EvMkdtemp;
                 EvWrite (path_join dir filename) code;
                 EvRead (path_join dir filename);
                 EvHttp (SonarCloudAnalyzer.index_request E s key filename content);
                 EvHttp (SonarCloudAnalyzer.submit_request s key);
                 EvSleep 5;
                 EvHttp (SonarCloudAnalyzer.issues_request s key);
                 EvHttp (SonarCloudAnalyzer.hotspots_request s key);
                 EvHttp (SonarCloudAnalyzer.metrics_request s key);
                 EvHttp (SonarCloudAnalyzer.delete_request s key);
                 EvCleanup dir]
    /\ (startswith filename "/" = true -> In (EvWrite filename code) tr').
Proof.
  intros Hrun key.
  apply analyze_code_success_inv in Hrun
    as (dir & tr3 & tr6 & i & h & m & Hprep & Hfetch & _ & ->).
  apply prepare_trace in Hprep as (content & ->).
  unfold fetch in Hfetch.
  apply bind_ok_inv in Hfetch as (i' & t4 & Hissues & Hfetch).
  apply get_issues_inv in Hissues as [-> _].
  apply bind_ok_inv in Hfetch as (h' & t5 & Hhotspots & Hfetch).
  apply get_security_hotspots_inv in Hhotspots as [-> _].
  apply bind_ok_inv in Hfetch as (m' & t6 & Hmetrics & Hfetch).
  apply get_metrics_trace in Hmetrics as ->.
  unfold ret in Hfetch. injection Hfetch as _ _ _ <-.
  exists dir, content.
  assert (Htrace :
    ((((tr ++ [EvHttp (SonarCloudAnalyzer.create_request s key); EvMkdtemp;
              EvWrite (path_join dir filename) code;
              EvRead (path_join dir filename);
              EvHttp (SonarCloudAnalyzer.index_request E s key filename content);
              EvHttp (SonarCloudAnalyzer.submit_request s key);
              EvSleep 5])
        ++ [EvHttp (SonarCloudAnalyzer.issues_request s key)])
       ++ [EvHttp (SonarCloudAnalyzer.hotspots_request s key)])
      ++ [EvHttp (SonarCloudAnalyzer.metrics_request s key)])
     ++ [deletion E s; EvCleanup dir]
    = tr ++ [EvHttp (SonarCloudAnalyzer.create_request s key); EvMkdtemp;
             EvWrite (path_join dir filename) code;
             EvRead (path_join dir filename);
             EvHttp (SonarCloudAnalyzer.index_request E s key filename content);
             EvHttp (SonarCloudAnalyzer.submit_request s key);
             EvSleep 5;
             EvHttp (SonarCloudAnalyzer.issues_request s key);
             EvHttp (SonarCloudAnalyzer.hotspots_request s key);
             EvHttp (SonarCloudAnalyzer.metrics_request s key);
             EvHttp (SonarCloudAnalyzer.delete_request s key);
             EvCleanup dir]).
  { rewrite <- !app_assoc. reflexivity. }
  fold key. split; [exact Htrace |].
  intros Habs. rewrite Htrace. apply in_or_app. right.
  unfold path_join. rewrite Habs. right. right. left. reflexivity.
Qed.

Lemma analyze_code_success_trace_witness :
  let E := remote all_fine in
  let key := SonarCloudAnalyzer.project_key_of E in
  exists dir content,
    snd (SonarCloudAnalyzer.analyze_code E sonar sample_code "main.py" [])
    = [] ++ [EvHttp (SonarCloudAnalyzer.create_request sonar key); EvMkdtemp;
             EvWrite (path_join dir "main.py") sample_code;
             EvRead (path_join dir "main.py");
             EvHttp (SonarCloudAnalyzer.index_request E sonar key "main.py" content);
             EvHttp (SonarCloudAnalyzer.submit_request sonar key);
             EvSleep 5;
             EvHttp (SonarCloudAnalyzer.issues_request sonar key);
             EvHttp (SonarCloudAnalyzer.hotspots_request sonar key);
             EvHttp (SonarCloudAnalyzer.metrics_request sonar key);
             EvHttp (SonarCloudAnalyzer.delete_request sonar key);
             EvCleanup dir].
Proof.
  cbv zeta.
  destruct (SonarCloudAnalyzer.analyze_code (remote all_fine) sonar sample_code
              "main.py" []) as [[[fs mt sm | err msg] | e] tr'] eqn:Hrun;
    [| vm_compute in Hrun; discriminate Hrun | vm_compute in Hrun; discriminate Hrun].
  destruct (analyze_code_success_trace (remote all_fine) sonar sample_code "main.py"
              [] tr' fs mt sm Hrun) as (dir & content & Htrace & _).
  exists dir, content. exact Htrace.
Defined.
